(** * fosscord.js: entity cache, thread paging and presence dispatch

    A shallow embedding of the managers under [dist/managers] and of
    [ClientPresence] / [ThreadChannel] under [dist/structures], with the
    properties of the cache-and-sync layer proved (or refuted) on it.

    JavaScript objects live in a heap and are referred to by their
    location, so that "the same instance" is equality of locations and a
    mutation through one reference is seen through every other one. *)

From stdpp Require Import base gmap list strings pretty.
From Stdlib Require Import ZArith Lia.

Local Open Scope Z_scope.
Local Open Scope string_scope.
Local Open Scope list_scope.

(** ** JavaScript values *)

Module Js.

(** The primitive values the modelled code inspects.  Numbers are the
    integers plus [NaN]; objects are never stored inside a [JsVal], they
    are heap locations held by the structures below. *)
Inductive JsVal :=
| JUndefined
| JNull
| JBool (b : bool)
| JNum (n : Z)
| JNaN
| JStr (s : string).

#[export] Instance JsVal_eq_dec : EqDecision JsVal.
Proof. solve_decision. Defined.

Definition JsVal_encode (v : JsVal) : (unit + unit + unit) + (bool + Z + string) :=
  match v with
  | JUndefined => inl (inl (inl tt))
  | JNull => inl (inl (inr tt))
  | JNaN => inl (inr tt)
  | JBool b => inr (inl (inl b))
  | JNum n => inr (inl (inr n))
  | JStr s => inr (inr s)
  end.

Definition JsVal_decode (x : (unit + unit + unit) + (bool + Z + string)) : JsVal :=
  match x with
  | inl (inl (inl _)) => JUndefined
  | inl (inl (inr _)) => JNull
  | inl (inr _) => JNaN
  | inr (inl (inl b)) => JBool b
  | inr (inl (inr n)) => JNum n
  | inr (inr s) => JStr s
  end.

#[export] Instance JsVal_countable : Countable JsVal.
Proof.
  apply (inj_countable' JsVal_encode JsVal_decode).
  by intros [].
Defined.

(** [if (v)], [!v], [a || b] *)
Definition truthy (v : JsVal) : bool :=
  match v with
  | JUndefined | JNull | JNaN => false
  | JBool b => b
  | JNum n => negb (Z.eqb n 0)
  | JStr s => negb (String.eqb s "")
  end.

Definition or_else (a b : JsVal) : JsVal := if truthy a then a else b.

(** [v === null || v === void 0], and [a ?? b] as TypeScript emits it *)
Definition nullish (v : JsVal) : bool :=
  match v with
  | JUndefined | JNull => true
  | _ => false
  end.

Definition coalesce (a b : JsVal) : JsVal := if nullish a then b else a.

(** [a === b] on primitives: [NaN] differs from itself. *)
Definition strict_eq (a b : JsVal) : bool :=
  match a, b with
  | JNaN, _ | _, JNaN => false
  | _, _ => bool_decide (a = b)
  end.

(** A plain object: property name to value; an absent property reads
    [undefined]. *)
Abbreviation JsObj := (gmap string JsVal).

Definition prop (o : JsObj) (k : string) : JsVal := default JUndefined (o !! k).

(** What a [throw] carries.  [DjsError] and [DjsTypeError] are the two
    classes of [../errors], keyed by their message code; [NativeTypeError]
    is the runtime's own error on a property access through [undefined]
    or [null], [NativeRangeError] the one of [toISOString] on an invalid
    date; [RemoteFetchError] is a failed transport call. *)
Inductive JsError :=
| DjsError (code : string)
| DjsTypeError (code : string) (args : list string)
| NativeTypeError
| NativeRangeError
| RemoteFetchError (status : Z).

(** How a call completes: normally with a value, or abruptly. *)
Inductive Completion (A : Type) :=
| Return (a : A)
| Throw (e : JsError).
Arguments Return {A} a.
Arguments Throw {A} e.

Definition is_throw {A} (c : Completion A) : bool :=
  match c with Throw _ => true | Return _ => false end.

(** A REST call as the [client.api] router builds it: verb, route
    segments, and the named values of [query] / [data]. *)
Record Request := {
  method : string;
  route : list JsVal;
  params : list (string * JsVal)
}.

(** An argument that is expected to be an options object: callers may
    pass a primitive instead. *)
Inductive Arg (A : Type) :=
| Primitive (v : JsVal)
| Object (o : A).
Arguments Primitive {A} v.
Arguments Object {A} o.

End Js.
Export Js.

(** ** dist/managers/CachedManager.js *)

Module CachedManager.

(** The manager's view of memory: the object heap and the manager's
    [_cache], a [Collection] (a [Map]) from key to instance. *)
Record Mgr := {
  heap : list JsObj;
  cache : gmap JsVal nat
}.

(** [this.holds]: the class of the cached structure, that is its
    constructor (called with the raw data and the [extras]) and its
    [_patch] method.  Every manager in the sources passes a class, so the
    [: data] alternative of [_add] for a manager without one is left out. *)
Record Holds (Data : Type) := {
  construct : Data -> list JsVal -> JsObj;
  _patch : JsObj -> Data -> JsObj
}.
Arguments construct {Data} _ _ _.
Arguments _patch {Data} _ _ _.

Definition deref (m : Mgr) (l : nat) : JsObj := default ∅ (heap m !! l).

(** Every cached reference points into the heap. *)
Definition wf (m : Mgr) : Prop :=
  map_Forall (fun _ l => (l < length (heap m))%nat) (cache m).

Section Add.
Context {Data : Type}.
Variable data_id : Data -> JsVal.
Variable holds : Holds Data.

(** [existing._patch(data)]: the object at [l] is updated in place. *)
Definition patch_at (l : nat) (data : Data) (m : Mgr) : Mgr :=
  {| heap := alter (fun o => _patch holds o data) l (heap m);
     cache := cache m |}.

(** [new this.holds(this.client, data, ...extras)]: a fresh object. *)
Definition alloc (o : JsObj) (m : Mgr) : nat * Mgr :=
  (length (heap m), {| heap := heap m ++ [o]; cache := cache m |}).

(** [this.cache.set(key, entry)] *)
Definition cache_set (key : JsVal) (l : nat) (m : Mgr) : Mgr :=
  {| heap := heap m; cache := <[key := l]> (cache m) |}.

(** [_add(data, cache = true, { id, extras = [] } = {})] *)
Definition _add (data : Data) (cache_flag : bool) (id : JsVal)
    (extras : list JsVal) (m : Mgr) : nat * Mgr :=
  let existing := cache m !! coalesce id (data_id data) in
  let m1 :=
    if cache_flag then
      match existing with
      | Some l => patch_at l data m
      | None => m
      end
    else m in
  match existing with
  | Some l => (l, m1)
  | None =>
      let '(entry, m2) := alloc (construct holds data extras) m1 in
      let m3 :=
        if cache_flag
        then cache_set (coalesce id (prop (deref m2 entry) "id")) entry m2
        else m2 in
      (entry, m3)
  end.

End Add.

(** Modelled from the spec: the structure classes handed to the generic
    manager ([User], [Invite], [StageInstance]) are not among the
    sources.  An Entity is "an arbitrary set of fields populated from the
    last-applied payload", "mutated in place by a patch(rawPayload)
    operation that overwrites only fields present in the payload". *)
Definition Entity : Holds JsObj :=
  {| construct := fun data _ => data;
     _patch := fun o data => data ∪ o |}.

Definition raw_id (data : JsObj) : JsVal := prop data "id".

End CachedManager.

(** ** DataManager: the resolution helpers *)

Module DataManager.
Import CachedManager.

(** What callers hand in where a "resolvable" is expected: an instance of
    the manager's class, or any primitive. *)
Inductive Resolvable :=
| Instance (l : nat)
| Prim (v : JsVal)
| Foreign.

(** Modelled from the spec: DataManager.js is not among the sources.  The
    base manager "exposes pure resolution helpers (id -> entity,
    resolvable -> id) without requiring a cache"; they "accept either an
    id, an already-resolved Entity", "never perform a remote call" and
    "return null/none on failure - never raise".  [Foreign] is an object
    of some other class. *)
Definition resolve (m : Mgr) (r : Resolvable) : option nat :=
  match r with
  | Instance l => Some l
  | Prim (JStr s) => cache m !! JStr s
  | Prim _ | Foreign => None
  end.

Definition resolveId (m : Mgr) (r : Resolvable) : JsVal :=
  match r with
  | Instance l => prop (deref m l) "id"
  | Prim (JStr s) => JStr s
  | Prim _ | Foreign => JNull
  end.

End DataManager.

(** ** dist/structures/ThreadChannel.js *)

Module ThreadChannel.
Import CachedManager.

Record ThreadMetadata := {
  locked : JsVal;
  archived : JsVal;
  auto_archive_duration : JsVal;
  archive_timestamp : JsVal
}.

(** The raw thread payload ([APIChannel]) as [_patch] reads it.  A thread
    payload always carries [thread_metadata]. *)
Record APIChannel := {
  id : JsVal;
  name : JsVal;
  parent_id : JsVal;
  thread_metadata : ThreadMetadata;
  owner_id : JsVal;
  last_message_id : JsVal;
  last_pin_timestamp : JsVal;
  rate_limit_per_user : JsVal;
  message_count : JsVal;
  member_count : JsVal
}.

Section Patch.
(** [new Date(x).getTime()] *)
Variable Date_getTime : JsVal -> JsVal.

(** Modelled from the spec: Channel.js is not among the sources; the base
    class gives the Entity its "stable identifier" from the payload. *)
Definition Channel_patch (o : JsObj) (data : APIChannel) : JsObj :=
  <["id" := id data]> o.

(** [_patch(data)], assignment by assignment.  The two trailing loops feed
    the nested [members] and [messages] managers, which are objects of
    their own and are not part of the thread's property bag. *)
Definition _patch (o : JsObj) (data : APIChannel) : JsObj :=
  let o := Channel_patch o data in
  let o := <["name" := name data]> o in
  let o := <["parentID" := parent_id data]> o in
  let o := <["locked" := coalesce (locked (thread_metadata data)) (JBool false)]> o in
  let o := <["archived" := archived (thread_metadata data)]> o in
  let o := <["ownerID" := owner_id data]> o in
  let o := <["autoArchiveDuration" := auto_archive_duration (thread_metadata data)]> o in
  let o := <["lastMessageID" := last_message_id data]> o in
  let o := <["lastPinTimestamp" :=
             if truthy (last_pin_timestamp data)
             then Date_getTime (last_pin_timestamp data) else JNull]> o in
  let o := <["rateLimitPerUser" := coalesce (rate_limit_per_user data) (JNum 0)]> o in
  let o := <["archiveTimestamp" :=
             if truthy (archive_timestamp (thread_metadata data))
             then Date_getTime (archive_timestamp (thread_metadata data))
             else JNull]> o in
  let o := <["messageCount" := message_count data]> o in
  <["memberCount" := member_count data]> o.

(** [constructor(guild, data)]: records the guild, then patches. *)
Definition constructor (guild : JsVal) (data : APIChannel) : JsObj :=
  _patch {["guild" := guild]} data.

Definition holds : Holds APIChannel :=
  {| construct := fun data extras => constructor (default JUndefined (head extras)) data;
     CachedManager._patch := _patch |}.

End Patch.

(** [get archivedAt()], as the time value of the date it builds, [null]
    when there is none. *)
Definition archivedAt (o : JsObj) : JsVal :=
  if truthy (prop o "archiveTimestamp") then prop o "archiveTimestamp" else JNull.

(** The permission flags the getters ask about, and a [Permissions]
    bitfield by the two tests they use, [has(flag, false)] and
    [any(flags, false)]. *)
Inductive Flag :=
| MANAGE_THREADS
| VIEW_CHANNEL
| SEND_MESSAGES
| USE_PRIVATE_THREADS
| USE_PUBLIC_THREADS.

Record Permissions := {
  has : Flag -> bool;
  any : list Flag -> bool
}.

(** [a && b] and [!a] *)
Definition and_then (a b : JsVal) : JsVal := if truthy a then b else a.
Definition not_ (a : JsVal) : JsVal := JBool (negb (truthy a)).

Section Getters.
(** [this.permissionsFor(this.client.user)], [None] for its [null], and
    [this.client.user.id]. *)
Variable permissions : option Permissions.
Variable client_user_id : JsVal.

Definition private_thread (o : JsObj) : bool :=
  strict_eq (prop o "type") (JStr "private_thread").

(** [get manageable()] *)
Definition manageable (o : JsObj) : JsVal :=
  match permissions with
  | Some p => JBool (has p MANAGE_THREADS)
  | None => JUndefined
  end.

(** [get editable()] *)
Definition editable (o : JsObj) : JsVal :=
  or_else (JBool (strict_eq (prop o "ownerID") client_user_id)) (manageable o).

(** [get joinable()] *)
Definition joinable (o : JsObj) : JsVal :=
  and_then (not_ (prop o "archived"))
    match permissions with
    | Some p => JBool (has p (if private_thread o then MANAGE_THREADS else VIEW_CHANNEL))
    | None => JUndefined
    end.

(** [get sendable()] *)
Definition sendable (o : JsObj) : JsVal :=
  and_then (not_ (prop o "archived"))
    match permissions with
    | Some p =>
        JBool (any p [SEND_MESSAGES;
                      if private_thread o then USE_PRIVATE_THREADS
                      else USE_PUBLIC_THREADS])
    | None => JUndefined
    end.

(** [get unarchivable()] *)
Definition unarchivable (o : JsObj) : JsVal :=
  and_then (prop o "archived")
    (if truthy (prop o "locked") then manageable o else sendable o).

End Getters.

End ThreadChannel.

(** ** dist/managers/ThreadManager.js *)

Module ThreadManager.
Import CachedManager.

(** [_add(thread)]: the override takes an instance, not raw data. *)
Definition _add (thread : nat) (m : Mgr) : nat * Mgr :=
  match cache m !! prop (deref m thread) "id" with
  | Some existing => (existing, m)
  | None => (thread, cache_set (prop (deref m thread) "id") thread m)
  end.

(** The text or news channel a manager belongs to. *)
Record ParentChannel := {
  chan_id : JsVal;
  chan_guild : JsVal
}.

(** One record of [rawThreads.members]; [rm_id] is the thread's id. *)
Record RawMember := {
  rm_id : JsVal;
  rm_user_id : JsVal
}.

(** The body of a thread listing. *)
Record RawThreads := {
  threads : list ThreadChannel.APIChannel;
  members : list RawMember;
  has_more : JsVal
}.

(** What the static [_mapThreads] reaches through [client]: the channel
    manager with the heap, and for each thread object what its [members]
    manager was given. *)
Record Client := {
  channels : Mgr;
  thread_members : gmap nat (list RawMember)
}.

(** [FetchedThreads]: the collection (id to instance) and the flag. *)
Record FetchedThreads := {
  fetched : gmap JsVal nat;
  hasMore : JsVal
}.

Section MapThreads.
Variable Date_getTime : JsVal -> JsVal.

(** Modelled from the spec: ChannelManager.js is not among the sources.
    "For every raw item returned, performs an add into the owning
    manager's cache (honoring the caller's cache flag)", the add being the
    add/merge protocol of the cached manager on the thread class. *)
Definition ChannelManager_add (raw : ThreadChannel.APIChannel) (guild : JsVal)
    (cache_flag : bool) (m : Mgr) : nat * Mgr :=
  CachedManager._add ThreadChannel.id (ThreadChannel.holds Date_getTime)
    raw cache_flag JUndefined [guild] m.

(** [guild ?? parent?.guild] *)
Definition guild_of (parent : option ParentChannel) (guild : JsVal) : JsVal :=
  coalesce guild (from_option chan_guild JUndefined parent).

(** [parent && thread.parentId !== parent.id] *)
Definition other_parent (parent : option ParentChannel) (thread : JsObj) : bool :=
  match parent with
  | Some p => negb (strict_eq (prop thread "parentId") (chan_id p))
  | None => false
  end.

(** The callback of [rawThreads.threads.reduce]. *)
Definition reduce_step (parent : option ParentChannel) (guild : JsVal)
    (cache_flag : bool) (acc : gmap JsVal nat * Mgr)
    (raw : ThreadChannel.APIChannel) : gmap JsVal nat * Mgr :=
  let '(coll, m) := acc in
  let '(thread, m') := ChannelManager_add raw (guild_of parent guild) cache_flag m in
  if other_parent parent (deref m' thread) then (coll, m')
  else (<[prop (deref m' thread) "id" := thread]> coll, m').

(** Modelled from the spec: ThreadMemberManager.js is not among the
    sources; a bundled membership record is routed into the member
    manager of the thread it names. *)
Definition add_member (c : Client) (rawMember : RawMember) : Client :=
  match cache (channels c) !! rm_id rawMember with
  | Some l =>
      {| channels := channels c;
         thread_members :=
           <[l := default [] (thread_members c !! l) ++ [rawMember]]> (thread_members c) |}
  | None => c
  end.

(** [static _mapThreads(rawThreads, client, { parent, guild, cache })] *)
Definition _mapThreads (rawThreads : RawThreads) (parent : option ParentChannel)
    (guild : JsVal) (cache_flag : bool) (c : Client) : FetchedThreads * Client :=
  let '(coll, m) :=
    fold_left (reduce_step parent guild cache_flag) (threads rawThreads)
              (∅, channels c) in
  let c1 := {| channels := m; thread_members := thread_members c |} in
  let c2 := fold_left add_member (members rawThreads) c1 in
  ({| fetched := coll; hasMore := coalesce (has_more rawThreads) (JBool false) |}, c2).

End MapThreads.

(** The [before] option: a thread instance, a [Date] (by its time value,
    [NaN] when invalid), or a primitive ([undefined] when left out). *)
Inductive Before :=
| BThread (l : nat)
| BDate (time : JsVal)
| BVal (v : JsVal).

Record FetchArchivedThreadOptions := {
  type : JsVal;
  fetchAll : JsVal;
  before : Before;
  limit : JsVal
}.

(** [this] of a thread manager: its channel and its own [cache]. *)
Record Manager := {
  channel : ParentChannel;
  own_cache : gmap JsVal nat
}.

Record World := {
  client : Client;
  sent : list Request
}.

(** [String(v)]; the decimal form is the one JavaScript prints for
    integers below 10^21. *)
Definition String_ (v : JsVal) : string :=
  match v with
  | JUndefined => "undefined"
  | JNull => "null"
  | JBool true => "true"
  | JBool false => "false"
  | JNum n => pretty n
  | JNaN => "NaN"
  | JStr s => s
  end.

Definition is_digit (a : Ascii.ascii) : bool :=
  match Ascii.is_nat a with Some _ => true | None => false end.

(** [/^\d{16,19}$/.test(s)] *)
Definition snowflake_like (s : string) : bool :=
  forallb is_digit (String.list_ascii_of_string s)
  && (16 <=? String.length s)%nat && (String.length s <=? 19)%nat.

(** [before instanceof ThreadChannel || /^\d{16,19}$/.test(String(before))];
    [String] of a [Date] is never a run of digits. *)
Definition identity_cursor (b : Before) : bool :=
  match b with
  | BThread _ => true
  | BDate _ => false
  | BVal v => snowflake_like (String_ v)
  end.

Definition as_resolvable (b : Before) : DataManager.Resolvable :=
  match b with
  | BThread l => DataManager.Instance l
  | BVal v => DataManager.Prim v
  | BDate _ => DataManager.Foreign
  end.

(** The argument of [new Date(before)]. *)
Definition date_of (b : Before) : JsVal :=
  match b with
  | BDate t => t
  | BVal v => v
  | BThread _ => JNaN
  end.

(** A parameter set to its default when [undefined]. *)
Definition with_default (v d : JsVal) : JsVal :=
  match v with JUndefined => d | _ => v end.

Section Fetch.
Variable Date_getTime : JsVal -> JsVal.
(** [new Date(v).toISOString()], [None] when it throws on an invalid date. *)
Variable Date_toISOString : JsVal -> option string.
(** [this.resolveId] and [this.resolve], inherited from the base manager. *)
Variable resolveId : Mgr -> DataManager.Resolvable -> JsVal.
Variable resolve : Mgr -> DataManager.Resolvable -> option nat.
(** The transport: what the listing endpoint answers to a request. *)
Variable api : Request -> Completion RawThreads.

Definition view (this : Manager) (w : World) : Mgr :=
  {| heap := heap (channels (client w)); cache := own_cache this |}.

(** The [if (typeof before !== 'undefined')] block: the pair [(id,
    timestamp)] it leaves behind, or the error it throws. *)
Definition cursors (this : Manager) (b : Before) (w : World)
    : Completion (JsVal * JsVal) :=
  match b with
  | BVal JUndefined => Return (JUndefined, JUndefined)
  | _ =>
      if identity_cursor b then
        let id := resolveId (view this w) (as_resolvable b) in
        match resolve (view this w) (as_resolvable b) with
        | Some l =>
            let at_ := ThreadChannel.archivedAt (deref (view this w) l) in
            if nullish at_ then Return (id, JUndefined)
            else match Date_toISOString at_ with
                 | Some iso => Return (id, JStr iso)
                 | None => Throw NativeRangeError
                 end
        | None => Return (id, JUndefined)
        end
      else
        match Date_toISOString (date_of b) with
        | Some iso => Return (JUndefined, JStr iso)
        | None =>
            Throw (DjsTypeError "INVALID_TYPE"
                     ["before"; "DateResolvable or ThreadChannelResolvable"])
        end
  end.

(** [type === 'private' && !fetchAll], after the defaults. *)
Definition own_private (options : FetchArchivedThreadOptions) : bool :=
  strict_eq (with_default (type options) (JStr "public")) (JStr "private")
  && negb (truthy (with_default (fetchAll options) (JBool false))).

Definition archived_request (this : Manager) (options : FetchArchivedThreadOptions)
    (id timestamp : JsVal) : Request :=
  {| method := "get";
     route := [JStr "channels"; chan_id (channel this)]
              ++ (if own_private options then [JStr "users"; JStr "@me"] else [])
              ++ [JStr "threads"; JStr "archived";
                  with_default (type options) (JStr "public")];
     params := [("before", if own_private options then id else timestamp);
                ("limit", limit options)] |}.

(** [fetchArchived({ type = 'public', fetchAll = false, before, limit } = {},
    cache = true)] *)
Definition fetchArchived (this : Manager) (options : FetchArchivedThreadOptions)
    (cache_flag : bool) (w : World) : Completion FetchedThreads * World :=
  match cursors this (before options) w with
  | Throw e => (Throw e, w)
  | Return (id, timestamp) =>
      let req := archived_request this options id timestamp in
      let w1 := {| client := client w; sent := sent w ++ [req] |} in
      match api req with
      | Throw e => (Throw e, w1)
      | Return raw =>
          let '(r, c) :=
            _mapThreads Date_getTime raw (Some (channel this)) JUndefined
                        cache_flag (client w1) in
          (Return r, {| client := c; sent := sent w1 |})
      end
  end.

(** [fetchActive(cache = true)] *)
Definition fetchActive (this : Manager) (cache_flag : bool) (w : World)
    : Completion FetchedThreads * World :=
  let req := {| method := "get";
                route := [JStr "guilds"; chan_guild (channel this);
                          JStr "threads"; JStr "active"];
                params := [] |} in
  let w1 := {| client := client w; sent := sent w ++ [req] |} in
  match api req with
  | Throw e => (Throw e, w1)
  | Return raw =>
      let '(r, c) :=
        _mapThreads Date_getTime raw (Some (channel this)) JUndefined
                    cache_flag (client w1) in
      (Return r, {| client := c; sent := sent w1 |})
  end.

End Fetch.

(** [ThreadCreateOptions], as [create] takes them apart. *)
Record ThreadCreateOptions := {
  create_name : JsVal;
  autoArchiveDuration : JsVal;
  startMessage : DataManager.Resolvable;
  create_type : JsVal;
  reason : JsVal
}.

(** [if (r)] on a resolvable: an object is always truthy. *)
Definition provided (r : DataManager.Resolvable) : bool :=
  match r with
  | DataManager.Prim v => truthy v
  | _ => true
  end.

Section Create.
(** [ChannelTypes[x]] of util/Constants. *)
Variable ChannelTypes : JsVal -> JsVal.
(** [this.channel.type], [this.channel.guild.features] and
    [this.channel.messages.resolveId]. *)
Variable channel_type : JsVal.
Variable features : list string.
Variable resolveMessageId : DataManager.Resolvable -> JsVal.
(** The transport, and [this.client.actions.ThreadCreate.handle(data).thread]. *)
Variable api_post : Request -> Completion ThreadChannel.APIChannel.
Variable ThreadCreate_handle : ThreadChannel.APIChannel -> Client -> option nat * Client.

(** [type && typeof type !== 'string' && typeof type !== 'number'] *)
Definition bad_type (type_ : JsVal) : bool :=
  truthy type_
  && match type_ with JStr _ | JNum _ | JNaN => false | _ => true end.

(** The type a thread gets when none is asked for. *)
Definition channel_default : JsVal :=
  if strict_eq channel_type (JStr "GUILD_NEWS")
  then ChannelTypes (JStr "GUILD_NEWS_THREAD")
  else ChannelTypes (JStr "GUILD_PUBLIC_THREAD").

(** The ['MAX'] branch: one day, three with the guild feature, seven with
    the other. *)
Definition max_duration : JsVal :=
  if bool_decide ("SEVEN_DAY_THREAD_ARCHIVE" ∈ features) then JNum 10080
  else if bool_decide ("THREE_DAY_THREAD_ARCHIVE" ∈ features) then JNum 4320
  else JNum 1440.

(** Everything [create] does before it posts: the request it is about to
    issue, or the error it throws instead. *)
Definition create_request (this : Manager) (o : ThreadCreateOptions) : Completion Request :=
  if bad_type (create_type o)
  then Throw (DjsTypeError "INVALID_TYPE" ["type"; "ThreadChannelType or Number"])
  else
    let base := [JStr "channels"; chan_id (channel this)] in
    let target :=
      if provided (startMessage o) then
        let startMessageId := resolveMessageId (startMessage o) in
        if negb (truthy startMessageId)
        then Throw (DjsTypeError "INVALID_TYPE" ["startMessage"; "MessageResolvable"])
        else Return (base ++ [JStr "messages"; startMessageId], channel_default)
      else if negb (strict_eq channel_type (JStr "GUILD_NEWS")) then
        Return (base,
                match create_type o with
                | JStr _ => ChannelTypes (create_type o)
                | _ => coalesce (create_type o) channel_default
                end)
      else Return (base, channel_default) in
    match target with
    | Throw e => Throw e
    | Return (path, resolvedType) =>
        Return {| method := "post";
                  route := path ++ [JStr "threads"];
                  params := [("name", create_name o);
                             ("auto_archive_duration",
                              if strict_eq (autoArchiveDuration o) (JStr "MAX")
                              then max_duration else autoArchiveDuration o);
                             ("type", resolvedType);
                             ("reason", reason o)] |}
    end.

(** [create({ name, autoArchiveDuration, startMessage, type, reason } = {})] *)
Definition create (this : Manager) (o : ThreadCreateOptions) (w : World)
    : Completion (option nat) * World :=
  match create_request this o with
  | Throw e => (Throw e, w)
  | Return req =>
      let w1 := {| client := client w; sent := sent w ++ [req] |} in
      match api_post req with
      | Throw e => (Throw e, w1)
      | Return data =>
          let '(thread, c) := ThreadCreate_handle data (client w1) in
          (Return thread, {| client := c; sent := sent w1 |})
      end
  end.

End Create.

End ThreadManager.

(** ** dist/structures/ClientPresence.js *)

Module ClientPresence.

Record Activity := {
  name : JsVal;
  type : JsVal;
  url : JsVal
}.

(** The local presence, as far as [_parse] and [patch] touch it. *)
Record Presence := {
  status : JsVal;
  activities : list Activity
}.

(** [presence.shardID]: left out, an array of shard ids, or one id. *)
Inductive ShardID :=
| AllShards
| ShardList (ids : list Z)
| ShardOne (id : Z).

(** The argument of [set]; [data_activities] is [None] when the property
    is left out (or [null]). *)
Record PresenceData := {
  data_status : JsVal;
  data_since : JsVal;
  data_afk : JsVal;
  data_activities : option (list Activity);
  shardID : ShardID
}.

(** The object [_parse] builds, the [d] of the gateway payload. *)
Record Packet := {
  d_activities : list Activity;
  d_afk : JsVal;
  d_since : JsVal;
  d_status : JsVal
}.

Record Payload := {
  op : Z;
  d : Packet
}.

(** The local presence and [client.ws.shards], each registered shard with
    what has been sent to it. *)
Record World := {
  presence : Presence;
  shards : gmap Z (list Payload)
}.

Section Dispatch.
(** [ActivityTypes[x]] and [OPCodes.STATUS_UPDATE] of util/Constants. *)
Variable ActivityTypes : JsVal -> JsVal.
Variable STATUS_UPDATE : Z.

(** The loop over [activities.entries()], from index [i] on. *)
Fixpoint parse_activities (i : nat) (acts : list Activity)
    : Completion (list Activity) :=
  match acts with
  | [] => Return []
  | activity :: rest =>
      match name activity with
      | JStr _ =>
          let ty := if truthy (type activity) then type activity else JNum 0 in
          let entry :=
            {| name := name activity;
               type := match ty with JNum _ | JNaN => ty | _ => ActivityTypes ty end;
               url := url activity |} in
          match parse_activities (S i) rest with
          | Return l => Return (entry :: l)
          | Throw e => Throw e
          end
      | _ =>
          Throw (DjsTypeError "INVALID_TYPE"
                   ["activities[" +:+ pretty i +:+ "].name"; "string"])
      end
  end.

(** [_parse({ status, since, afk, activities })] *)
Definition _parse (this : Presence) (p : PresenceData) : Completion Packet :=
  let afk := match data_afk p with JBool b => JBool b | _ => JBool false end in
  let since := match data_since p with JNum n => JNum n | _ => JNull end in
  let st := or_else (data_status p) (status this) in
  let packet acts :=
    {| d_activities := acts; d_afk := afk; d_since := since; d_status := st |} in
  match data_activities p with
  | Some (a :: l) =>
      match parse_activities 0 (a :: l) with
      | Return acts => Return (packet acts)
      | Throw e => Throw e
      end
  | Some [] => Return (packet [])
  | None =>
      if (truthy (data_status p) || truthy (data_afk p) || truthy (data_since p))
         && negb (Nat.eqb (length (activities this)) 0)
      then Return (packet (map (fun a => {| name := name a;
                                            type := ActivityTypes (type a);
                                            url := coalesce (url a) JUndefined |})
                               (activities this)))
      else Return (packet [])
  end.

(** Modelled from the spec: Presence.js is not among the sources; [patch]
    mutates the local presence in place and "overwrites only fields
    present in the payload", here the status and the activities. *)
Definition patch (this : Presence) (packet : Packet) : Presence :=
  {| status := d_status packet; activities := d_activities packet |}.

(** Modelled from the spec: WebSocketManager.js is not among the sources;
    for ALL the router "forward[s] payload to every currently-registered
    partition handle". *)
Definition broadcast (msg : Payload) (sh : gmap Z (list Payload))
    : gmap Z (list Payload) :=
  (fun q => q ++ [msg]) <$> sh.

(** [this.client.ws.shards.get(shardID).send(msg)] for each id in turn;
    [get] of an unregistered id is [undefined], whose [.send] throws. *)
Fixpoint send_each (ids : list Z) (msg : Payload) (sh : gmap Z (list Payload))
    : Completion unit * gmap Z (list Payload) :=
  match ids with
  | [] => (Return tt, sh)
  | shard :: rest =>
      match sh !! shard with
      | Some q => send_each rest msg (<[shard := q ++ [msg]]> sh)
      | None => (Throw NativeTypeError, sh)
      end
  end.

(** [set(presence)] *)
Definition set (p : PresenceData) (w : World) : Completion unit * World :=
  match _parse (presence w) p with
  | Throw e => (Throw e, w)
  | Return packet =>
      let local := patch (presence w) packet in
      let msg := {| op := STATUS_UPDATE; d := packet |} in
      match shardID p with
      | AllShards =>
          (Return tt, {| presence := local; shards := broadcast msg (shards w) |})
      | ShardList ids =>
          let '(r, sh) := send_each ids msg (shards w) in
          (r, {| presence := local; shards := sh |})
      | ShardOne shard =>
          let '(r, sh) := send_each [shard] msg (shards w) in
          (r, {| presence := local; shards := sh |})
      end
  end.

End Dispatch.

End ClientPresence.

(** ** dist/managers/StageInstanceManager.js *)

Module StageInstanceManager.
Import CachedManager.

(** The manager's cache with the heap, and the requests issued so far. *)
Record World := {
  mgr : Mgr;
  sent : list Request
}.

Record CreateStageInstanceOptions := {
  channel : DataManager.Resolvable;
  topic : JsVal;
  privacyLevel : JsVal
}.

Record StageInstanceEditOptions := {
  edit_topic : JsVal;
  edit_privacyLevel : JsVal
}.

Section Api.
(** [this.guild.channels.resolveID]: another manager's helper. *)
Variable resolveID : DataManager.Resolvable -> JsVal.
(** [PrivacyLevels[x]] of util/Constants. *)
Variable PrivacyLevels : JsVal -> JsVal.
(** The [StageInstance] class this manager holds. *)
Variable holds : Holds JsObj.
(** The transport. *)
Variable api : Request -> Completion JsObj.

(** [if (privacyLevel) privacyLevel = typeof privacyLevel === 'number' ?
    privacyLevel : PrivacyLevels[privacyLevel]] *)
Definition privacy (level : JsVal) : JsVal :=
  if truthy level
  then match level with JNum _ => level | _ => PrivacyLevels level end
  else level.

(** Modelled from the spec: BaseManager.js is not among the sources;
    [add(data, cache = true)] is the add/merge protocol of the cached
    manager. *)
Definition add (data : JsObj) (cache_flag : bool) (m : Mgr) : nat * Mgr :=
  CachedManager._add raw_id holds data cache_flag JUndefined [] m.

Definition issue (req : Request) (w : World) : World :=
  {| mgr := mgr w; sent := sent w ++ [req] |}.

(** [create(options)] *)
Definition create (options : Arg CreateStageInstanceOptions) (w : World)
    : Completion nat * World :=
  match options with
  | Primitive JNull => (Throw NativeTypeError, w)
  | Primitive _ => (Throw (DjsTypeError "INVALID_TYPE" ["options"; "object"]), w)
  | Object o =>
      let channelID := resolveID (channel o) in
      if negb (truthy channelID) then (Throw (DjsError "STAGE_CHANNEL_RESOLVE"), w)
      else
        let req := {| method := "post";
                      route := [JStr "stage-instances"];
                      params := [("channel_id", channelID);
                                 ("topic", topic o);
                                 ("privacy_level", privacy (privacyLevel o))] |} in
        let w1 := issue req w in
        match api req with
        | Throw e => (Throw e, w1)
        | Return data =>
            let '(l, m) := add data true (mgr w1) in
            (Return l, {| mgr := m; sent := sent w1 |})
        end
  end.

(** Modelled from the spec: Base.js is not among the sources; [_clone()]
    gives a fresh object with the fields of the original, so that a patch
    of the clone leaves the original as it was. *)
Definition _clone (l : nat) (m : Mgr) : nat * Mgr :=
  alloc (deref m l) m.

(** The call [this.client.api('stage-instances', channelID).patch({ data })]
    of [edit]. *)
Definition edit_request (channelID : JsVal) (o : StageInstanceEditOptions) : Request :=
  {| method := "patch";
     route := [JStr "stage-instances"; channelID];
     params := [("topic", edit_topic o);
                ("privacy_level", privacy (edit_privacyLevel o))] |}.

(** [edit(channel, options)] *)
Definition edit (chan : DataManager.Resolvable)
    (options : Arg StageInstanceEditOptions) (w : World)
    : Completion nat * World :=
  match options with
  | Primitive v =>
      match v with
      | JNull =>
          if negb (truthy (resolveID chan))
          then (Throw (DjsError "STAGE_CHANNEL_RESOLVE"), w)
          else (Throw NativeTypeError, w)
      | _ => (Throw (DjsTypeError "INVALID_TYPE" ["options"; "object"]), w)
      end
  | Object o =>
      let channelID := resolveID chan in
      if negb (truthy channelID) then (Throw (DjsError "STAGE_CHANNEL_RESOLVE"), w)
      else
        let req := edit_request channelID o in
        let w1 := issue req w in
        match api req with
        | Throw e => (Throw e, w1)
        | Return data =>
            match cache (mgr w1) !! raw_id data with
            | Some l =>
                let '(clone, m) := _clone l (mgr w1) in
                (Return clone, {| mgr := patch_at holds clone data m; sent := sent w1 |})
            | None =>
                let '(l, m) := add data true (mgr w1) in
                (Return l, {| mgr := m; sent := sent w1 |})
            end
        end
  end.

(** [delete(channel)] *)
Definition delete (chan : DataManager.Resolvable) (w : World)
    : Completion unit * World :=
  let channelID := resolveID chan in
  if negb (truthy channelID) then (Throw (DjsError "STAGE_CHANNEL_RESOLVE"), w)
  else
    let req := {| method := "delete";
                  route := [JStr "stage-instances"; channelID];
                  params := [] |} in
    match api req with
    | Throw e => (Throw e, issue req w)
    | Return _ => (Return tt, issue req w)
    end.

End Api.

End StageInstanceManager.

(** ** dist/managers/ReactionUserManager.js *)

Module ReactionUserManager.

(** [this.reaction], by the ids its route is built from. *)
Record MessageReaction := {
  channel_id : JsVal;
  message_id : JsVal;
  emoji_identifier : JsVal
}.

(** [this.client.user]: the reference and its [id]. *)
Record ClientUser := {
  user_ref : DataManager.Resolvable;
  user_id : JsVal
}.

Section Api.
(** [this.client.users.resolveId]: the user manager's helper. *)
Variable resolveId : DataManager.Resolvable -> JsVal.
Variable client_user : option ClientUser.
Variable reaction : MessageReaction.
Variable api : Request -> Completion unit.

(** The default of the parameter: [user = this.client.user] when the
    argument is left out. *)
Definition effective_user (user : DataManager.Resolvable) : DataManager.Resolvable :=
  match user with
  | DataManager.Prim JUndefined =>
      from_option user_ref (DataManager.Prim JNull) client_user
  | _ => user
  end.

(** [remove(user = this.client.user)] *)
Definition remove (user : DataManager.Resolvable) (sent : list Request)
    : Completion MessageReaction * list Request :=
  let userId := resolveId (effective_user user) in
  if negb (truthy userId) then (Throw (DjsError "REACTION_RESOLVE_USER"), sent)
  else
    match client_user with
    | None => (Throw NativeTypeError, sent)
    | Some me =>
        let req := {| method := "delete";
                      route := [JStr "channels"; channel_id reaction;
                                JStr "messages"; message_id reaction;
                                JStr "reactions"; emoji_identifier reaction;
                                if strict_eq userId (user_id me)
                                then JStr "@me" else userId];
                      params := [] |} in
        match api req with
        | Throw e => (Throw e, sent ++ [req])
        | Return _ => (Return reaction, sent ++ [req])
        end
    end.

End Api.

(** The two caches [fetch] writes, [this.client.users] (with the heap)
    and the reaction's own [this.cache], and the requests issued. *)
Record Store := {
  users : CachedManager.Mgr;
  own_cache : gmap JsVal nat;
  sent : list Request
}.

Section Fetching.
(** The [User] class, [this.reaction] and the transport. *)
Variable holds : CachedManager.Holds JsObj.
Variable reaction : MessageReaction.
Variable api_get : Request -> Completion (list JsObj).

(** Modelled from the spec: UserManager.js is not among the sources;
    [this.client.users] is a cached manager of users, and its
    [_add(rawUser)] the add/merge protocol with the default caching. *)
Definition users_add (rawUser : JsObj) (m : CachedManager.Mgr) : nat * CachedManager.Mgr :=
  CachedManager._add CachedManager.raw_id holds rawUser true JUndefined [] m.

(** The body of [for (const rawUser of data)]. *)
Definition keep (acc : gmap JsVal nat * Store) (rawUser : JsObj)
    : gmap JsVal nat * Store :=
  let '(fetched, s) := acc in
  let '(user, m) := users_add rawUser (users s) in
  let key := prop (CachedManager.deref m user) "id" in
  (<[key := user]> fetched,
   {| users := m; own_cache := <[key := user]> (own_cache s); sent := sent s |}).

(** [fetch({ limit = 100, after } = {})] *)
Definition fetch (limit after : JsVal) (s : Store)
    : Completion (gmap JsVal nat) * Store :=
  let req := {| method := "get";
                route := [JStr "channels"; channel_id reaction;
                          JStr "messages"; message_id reaction;
                          JStr "reactions"; emoji_identifier reaction];
                params := [("limit", match limit with JUndefined => JNum 100 | _ => limit end);
                           ("after", after)] |} in
  let s1 := {| users := users s; own_cache := own_cache s; sent := sent s ++ [req] |} in
  match api_get req with
  | Throw e => (Throw e, s1)
  | Return data =>
      let '(fetched, s2) := fold_left keep data (∅, s1) in
      (Return fetched, s2)
  end.

End Fetching.

End ReactionUserManager.

(** ** GuildInviteManager (src/unnamed/part_000) *)

Module GuildInviteManager.
Import CachedManager.

Record World := {
  mgr : Mgr;
  sent : list Request
}.

(** [FetchInviteOptions] and [FetchInvitesOptions] in one; [opt_cache] is
    [None] when the object has no [cache] property at all. *)
Record FetchOptions := {
  code : JsVal;
  channelId : DataManager.Resolvable;
  opt_cache : option JsVal;
  force : JsVal
}.

(** What [fetch] resolves with: one invite, or a collection by code. *)
Inductive Fetched :=
| One (l : nat)
| Many (c : gmap JsVal nat).

Definition raw_code (data : JsObj) : JsVal := prop data "code".

(** [if (channelId)] on a resolvable: an object is always truthy. *)
Definition given (r : DataManager.Resolvable) : bool :=
  match r with
  | DataManager.Prim v => truthy v
  | _ => true
  end.

(** A [cache] argument with [= true] as its default. *)
Definition flag (v : JsVal) : bool :=
  match v with JUndefined => true | _ => truthy v end.

Section Api.
(** [DataResolver.resolveInviteCode] of util/DataResolver. *)
Variable resolveInviteCode : JsVal -> JsVal.
(** [this.guild.channels.resolveId]: another manager's helper. *)
Variable resolveId : DataManager.Resolvable -> JsVal.
(** The [Invite] class, [this.guild] by its id, and the transport. *)
Variable holds : Holds JsObj.
Variable guild : JsVal.
Variable api : Request -> Completion (list JsObj).
Variable api_delete : Request -> Completion unit.

(** [_add(data, cache)]: the key is the invite's code. *)
Definition _add (data : JsObj) (cache_arg : JsVal) (m : Mgr) : nat * Mgr :=
  CachedManager._add raw_id holds data (flag cache_arg) (raw_code data) [guild] m.

(** [data.reduce((col, invite) => col.set(invite.code, this._add(invite,
    cache)), new Collection())] *)
Definition collect (cache_arg : JsVal) (acc : gmap JsVal nat * Mgr) (invite : JsObj)
    : gmap JsVal nat * Mgr :=
  let '(col, m) := acc in
  let '(l, m') := _add invite cache_arg m in
  (<[raw_code invite := l]> col, m').

Definition listing (req : Request) (cache_arg : JsVal) (w : World)
    : Completion (gmap JsVal nat) * World :=
  let w1 := {| mgr := mgr w; sent := sent w ++ [req] |} in
  match api req with
  | Throw e => (Throw e, w1)
  | Return data =>
      let '(col, m) := fold_left (collect cache_arg) data (∅, mgr w1) in
      (Return col, {| mgr := m; sent := sent w1 |})
  end.

(** [_fetchMany(cache)] *)
Definition _fetchMany (cache_arg : JsVal) (w : World)
    : Completion (gmap JsVal nat) * World :=
  listing {| method := "get"; route := [JStr "guilds"; guild; JStr "invites"];
             params := [] |} cache_arg w.

(** [_fetchChannelMany(channelId, cache)] *)
Definition _fetchChannelMany (channel : JsVal) (cache_arg : JsVal) (w : World)
    : Completion (gmap JsVal nat) * World :=
  listing {| method := "get"; route := [JStr "channels"; channel; JStr "invites"];
             params := [] |} cache_arg w.

(** [_fetchSingle({ code, cache, force = false })] *)
Definition _fetchSingle (code_ : JsVal) (cache_arg : JsVal) (force_ : JsVal)
    (w : World) : Completion nat * World :=
  let cached :=
    if truthy (match force_ with JUndefined => JBool false | _ => force_ end)
    then None else cache (mgr w) !! code_ in
  match cached with
  | Some existing => (Return existing, w)
  | None =>
      match _fetchMany cache_arg w with
      | (Throw e, w1) => (Throw e, w1)
      | (Return invites, w1) =>
          match invites !! code_ with
          | Some invite => (Return invite, w1)
          | None => (Throw (DjsError "INVITE_NOT_FOUND"), w1)
          end
      end
  end.

Definition many (r : Completion (gmap JsVal nat) * World) : Completion Fetched * World :=
  match r with
  | (Return c, w) => (Return (Many c), w)
  | (Throw e, w) => (Throw e, w)
  end.

Definition one (r : Completion nat * World) : Completion Fetched * World :=
  match r with
  | (Return l, w) => (Return (One l), w)
  | (Throw e, w) => (Throw e, w)
  end.

(** [fetch(options)] *)
Definition fetch (options : Arg FetchOptions) (w : World) : Completion Fetched * World :=
  match options with
  | Primitive v =>
      if negb (truthy v) then many (_fetchMany JUndefined w)
      else match v with
           | JStr _ =>
               let code_ := resolveInviteCode v in
               if negb (truthy code_) then (Throw (DjsError "INVITE_RESOLVE_CODE"), w)
               else one (_fetchSingle code_ (JBool true) JUndefined w)
           | _ => (Throw NativeTypeError, w)
           end
  | Object o =>
      if negb (truthy (code o)) then
        if given (channelId o) then
          let id := resolveId (channelId o) in
          if negb (truthy id) then (Throw (DjsError "GUILD_CHANNEL_RESOLVE"), w)
          else many (_fetchChannelMany id (default JUndefined (opt_cache o)) w)
        else
          match opt_cache o with
          | Some c => many (_fetchMany c w)
          | None => (Throw (DjsError "INVITE_RESOLVE_CODE"), w)
          end
      else
        one (_fetchSingle (resolveInviteCode (code o))
                          (default JUndefined (opt_cache o)) (force o) w)
  end.

(** [delete(invite, reason)] *)
Definition delete (invite reason : JsVal) (w : World) : Completion unit * World :=
  let req := {| method := "delete";
                route := [JStr "invites"; resolveInviteCode invite];
                params := [("reason", reason)] |} in
  match api_delete req with
  | Throw e => (Throw e, {| mgr := mgr w; sent := sent w ++ [req] |})
  | Return _ => (Return tt, {| mgr := mgr w; sent := sent w ++ [req] |})
  end.

End Api.

End GuildInviteManager.

(** ** dist/structures/MessageEmbed.js *)

Module MessageEmbed.

(** What callers pass where fields are expected: a field object, or an
    array of such, arrays within arrays included. *)
#[warnings="-register-all"]
Inductive FieldData :=
| Field (o : JsObj)
| Fields (items : list FieldData).

(** A timestamp as it is passed around: a [Date], by its time value, or
    any primitive. *)
Inductive DateArg :=
| ADate (time : JsVal)
| AValue (v : JsVal).

(** The argument of the constructor, raw embed data or an embed to clone.
    [data_color] and [data_timestamp] are [None] when the object has no
    such property; the nested objects are [None] when falsy. *)
Record MessageEmbedOptions := {
  data_type : JsVal;
  data_title : JsVal;
  data_description : JsVal;
  data_url : JsVal;
  data_color : option JsVal;
  data_timestamp : option DateArg;
  data_fields : option (list FieldData);
  data_thumbnail : option JsObj;
  data_image : option JsObj;
  data_video : option JsObj;
  data_author : option JsObj;
  data_provider : option JsObj;
  data_footer : option JsObj
}.

(** The embed; a nested object is [None] for [null]. *)
Record MessageEmbed := {
  type : JsVal;
  title : JsVal;
  description : JsVal;
  url : JsVal;
  color : JsVal;
  timestamp : JsVal;
  fields : list JsObj;
  thumbnail : option JsObj;
  image : option JsObj;
  video : option JsObj;
  author : option JsObj;
  provider : option JsObj;
  footer : option JsObj
}.

(** [array.flat(depth)] *)
Fixpoint flat (depth : nat) (items : list FieldData) : list FieldData :=
  match depth with
  | O => items
  | S d =>
      flat_map (fun x => match x with
                         | Fields inner => flat d inner
                         | Field _ => [x]
                         end) items
  end.

(** [array.map(f)] for an [f] that may throw: the first throw wins. *)
Fixpoint map_throwing {A B} (f : A -> Completion B) (l : list A) : Completion (list B) :=
  match l with
  | [] => Return []
  | x :: rest =>
      match f x with
      | Throw e => Throw e
      | Return y =>
          match map_throwing f rest with
          | Throw e => Throw e
          | Return ys => Return (y :: ys)
          end
      end
  end.

(** [array.splice(start, deleteCount, ...items)], the array afterwards;
    a negative [start] counts from the end, and both are clamped. *)
Definition splice {A} (l : list A) (start deleteCount : Z) (items : list A) : list A :=
  let len := Z.of_nat (length l) in
  let from := if (start <? 0)%Z then Z.max (len + start) 0 else Z.min start len in
  let count := Z.min (Z.max deleteCount 0) (len - from) in
  take (Z.to_nat from) l ++ items ++ drop (Z.to_nat (from + count)) l.

(** [TimeClip], and [new Date(v).getTime()] for a primitive [v]: a string
    is parsed, anything else converted to a number. *)
Definition TimeClip (n : Z) : JsVal :=
  if (Z.abs n <=? 8640000000000000)%Z then JNum n else JNaN.

(** The character [0]; one hexadecimal digit; and [n.toString(16)] for a
    positive integer with at most [digits] digits. *)
Definition zero_char : Ascii.ascii := Ascii.ascii_of_nat 48.

Definition hex_digit (d : Z) : Ascii.ascii :=
  nth (Z.to_nat d) (String.list_ascii_of_string "0123456789abcdef") zero_char.

Fixpoint to_hex (digits : nat) (n : Z) : string :=
  match digits with
  | O => ""
  | S k =>
      (if (n <? 16)%Z then "" else to_hex k (n / 16)) +:+ String (hex_digit (n mod 16)) ""
  end.

(** [s.padStart(6, '0')] *)
Definition padStart6 (s : string) : string :=
  String.string_of_list_ascii (replicate (6 - String.length s) zero_char) +:+ s.

Section Embed.
(** [Util.verifyString(data, RangeError, errorMessage, allowEmpty)],
    [Util.resolveColor] and [Util.cloneObject]; and the date parser
    behind [new Date(string)]. *)
Variable verifyString : JsVal -> string -> bool -> Completion JsVal.
Variable resolveColor : JsVal -> Completion JsVal.
Variable cloneObject : FieldData -> JsObj.
Variable Date_parse : string -> JsVal.

Definition date_value (v : JsVal) : JsVal :=
  match v with
  | JStr s => Date_parse s
  | JNum n => TimeClip n
  | JNull | JBool false => JNum 0
  | JBool true => JNum 1
  | JUndefined | JNaN => JNaN
  end.

Definition getTime (d : DateArg) : JsVal :=
  match d with
  | ADate time => time
  | AValue v => date_value v
  end.

(** [static normalizeField(name, value, inline = false)] *)
Definition normalizeField (name value inline : JsVal) : Completion JsObj :=
  match verifyString name "EMBED_FIELD_NAME" false with
  | Throw e => Throw e
  | Return n =>
      match verifyString value "EMBED_FIELD_VALUE" false with
      | Throw e => Throw e
      | Return v =>
          Return {[ "name" := n; "value" := v;
                    "inline" := match inline with
                                | JUndefined => JBool false
                                | _ => inline
                                end ]}
      end
  end.

(** [field.name] and the like on an element left after flattening: an
    array has no such property. *)
Definition field_prop (f : FieldData) (k : string) : JsVal :=
  match f with
  | Field o => prop o k
  | Fields _ => JUndefined
  end.

(** [static normalizeFields(...fields)], [rest] being the arguments. *)
Definition normalizeFields (rest : list FieldData) : Completion (list JsObj) :=
  map_throwing
    (fun field =>
       normalizeField (field_prop field "name") (field_prop field "value")
         match field_prop field "inline" with
         | JBool b => JBool b
         | _ => JBool false
         end)
    (flat 2 rest).

(** The [{ url, proxyURL, height, width }] of a thumbnail, image or video. *)
Definition media (m : JsObj) : JsObj :=
  {[ "url" := prop m "url";
     "proxyURL" := coalesce (prop m "proxyURL") (prop m "proxy_url");
     "height" := prop m "height";
     "width" := prop m "width" ]}.

(** [setup(data, skipValidation)], as the embed it sets up. *)
Definition setup (data : MessageEmbedOptions) (skipValidation : bool)
    : Completion MessageEmbed :=
  match from_option resolveColor (Return JNull) (data_color data) with
  | Throw e => Throw e
  | Return color_ =>
      match
        match data_fields data with
        | Some fs =>
            if skipValidation then Return (map cloneObject fs)
            else normalizeFields [Fields fs]
        | None => Return []
        end
      with
      | Throw e => Throw e
      | Return fields_ =>
          Return
            {| type := coalesce (data_type data) (JStr "rich");
               title := coalesce (data_title data) JNull;
               description := coalesce (data_description data) JNull;
               url := coalesce (data_url data) JNull;
               color := color_;
               timestamp := from_option getTime JNull (data_timestamp data);
               fields := fields_;
               thumbnail := media <$> data_thumbnail data;
               image := media <$> data_image data;
               video := media <$> data_video data;
               author :=
                 (fun a =>
                    {[ "name" := prop a "name";
                       "url" := prop a "url";
                       "iconURL" := coalesce (prop a "iconURL") (prop a "icon_url");
                       "proxyIconURL" :=
                         coalesce (prop a "proxyIconURL") (prop a "proxy_icon_url") ]})
                 <$> data_author data;
               provider :=
                 (fun p => {[ "name" := prop p "name"; "url" := prop p "name" ]})
                 <$> data_provider data;
               footer :=
                 (fun f =>
                    {[ "text" := prop f "text";
                       "iconURL" := coalesce (prop f "iconURL") (prop f "icon_url");
                       "proxyIconURL" :=
                         coalesce (prop f "proxyIconURL") (prop f "proxy_icon_url") ]})
                 <$> data_footer data |}
      end
  end.

(** [get createdAt()], as a time value. *)
Definition createdAt (e : MessageEmbed) : JsVal :=
  if truthy (timestamp e) then date_value (timestamp e) else JNull.

(** [get hexColor()] *)
Definition hexColor (e : MessageEmbed) : JsVal :=
  if truthy (color e) then
    JStr ("#" +:+ padStart6
            match color e with
            | JNum n =>
                if (n <? 0)%Z then "-" +:+ to_hex (S (Z.to_nat (Z.log2 (- n)))) (- n)
                else to_hex (S (Z.to_nat (Z.log2 n))) n
            | JStr s => s
            | _ => "true"
            end)
  else JNull.

Definition with_fields (e : MessageEmbed) (fs : list JsObj) : MessageEmbed :=
  {| type := type e; title := title e; description := description e; url := url e;
     color := color e; timestamp := timestamp e; fields := fs;
     thumbnail := thumbnail e; image := image e; video := video e;
     author := author e; provider := provider e; footer := footer e |}.

(** [addFields(...fields)] *)
Definition addFields (args : list FieldData) (e : MessageEmbed) : Completion MessageEmbed :=
  match normalizeFields [Fields args] with
  | Throw err => Throw err
  | Return fs => Return (with_fields e (fields e ++ fs))
  end.

(** [addField(name, value, inline)] *)
Definition addField (name value inline : JsVal) (e : MessageEmbed)
    : Completion MessageEmbed :=
  addFields [Field {[ "name" := name; "value" := value; "inline" := inline ]}] e.

(** [spliceFields(index, deleteCount, ...fields)] *)
Definition spliceFields (index deleteCount : Z) (args : list FieldData)
    (e : MessageEmbed) : Completion MessageEmbed :=
  match normalizeFields args with
  | Throw err => Throw err
  | Return fs => Return (with_fields e (splice (fields e) index deleteCount fs))
  end.

(** [setFields(...fields)] *)
Definition setFields (args : list FieldData) (e : MessageEmbed) : Completion MessageEmbed :=
  spliceFields 0 (Z.of_nat (length (fields e))) [Fields args] e.

(** [toJSON()], in the shape the constructor reads. *)
Definition toJSON (e : MessageEmbed) : MessageEmbedOptions :=
  {| data_type := JStr "rich";
     data_title := title e;
     data_description := description e;
     data_url := url e;
     data_color := Some (color e);
     data_timestamp :=
       Some (if truthy (timestamp e) then ADate (date_value (timestamp e))
             else AValue (timestamp e));
     data_fields := Some (Field <$> fields e);
     data_thumbnail := thumbnail e;
     data_image := image e;
     data_video := None;
     data_author :=
       (fun a => {[ "name" := prop a "name"; "url" := prop a "url";
                    "icon_url" := prop a "iconURL" ]}) <$> author e;
     data_provider := None;
     data_footer :=
       (fun f => {[ "text" := prop f "text"; "icon_url" := prop f "iconURL" ]})
       <$> footer e |}.

End Embed.

End MessageEmbed.

(** * Scenarios

    The concrete managers, payloads and transports the properties below
    are instantiated at, and the predicates they are stated with. *)

(** How often a shard id is listed. *)
Definition listed (ids : list Z) (i : Z) : nat := count_occ Z.eq_dec ids i.

(** The generic manager on spec-level entities: [add(payload)] with the
    default [cache = true] and no id override. *)
Definition add_cached (payload : JsObj) (m : CachedManager.Mgr) : nat * CachedManager.Mgr :=
  CachedManager._add CachedManager.raw_id CachedManager.Entity payload true JUndefined [] m.

(** What is cached under [k] before any call: the instance's fields, or
    nothing. *)
Definition fields_before (k : JsVal) (m : CachedManager.Mgr) : JsObj :=
  match CachedManager.cache m !! k with
  | Some l => CachedManager.deref m l
  | None => ∅
  end.

(** The scenario of the spec: an empty cache, [{id: "1", name: "a"}] and
    then [{id: "1", name: "b"}]. *)
Definition payload_a : JsObj := {[ "id" := JStr "1"; "name" := JStr "a" ]}.
Definition payload_b : JsObj := {[ "id" := JStr "1"; "name" := JStr "b" ]}.
Definition empty_manager : CachedManager.Mgr :=
  {| CachedManager.heap := []; CachedManager.cache := ∅ |}.

(** Two thread objects with the id "7": the first, named "old", is
    cached; the second, named "new", is handed to [_add]. *)
Definition two_threads : CachedManager.Mgr :=
  {| CachedManager.heap :=
       [ {[ "id" := JStr "7"; "name" := JStr "old" ]};
         {[ "id" := JStr "7"; "name" := JStr "new" ]} ];
     CachedManager.cache := {[ JStr "7" := 0%nat ]} |}.

(** No object of the heap has a [parentId] property: [_patch] of the
    thread class writes [parentID]. *)
Definition no_parentId (m : CachedManager.Mgr) : Prop :=
  Forall (fun o : JsObj => o !! "parentId" = None) (CachedManager.heap m).

(** A page with one thread of the channel "100000000000000001". *)
Definition own_thread : ThreadChannel.APIChannel :=
  {| ThreadChannel.id := JStr "200000000000000002";
     ThreadChannel.name := JStr "food-talk";
     ThreadChannel.parent_id := JStr "100000000000000001";
     ThreadChannel.thread_metadata :=
       {| ThreadChannel.locked := JBool false;
          ThreadChannel.archived := JBool true;
          ThreadChannel.auto_archive_duration := JNum 60;
          ThreadChannel.archive_timestamp := JNull |};
     ThreadChannel.owner_id := JStr "300000000000000003";
     ThreadChannel.last_message_id := JNull;
     ThreadChannel.last_pin_timestamp := JNull;
     ThreadChannel.rate_limit_per_user := JUndefined;
     ThreadChannel.message_count := JNum 1;
     ThreadChannel.member_count := JNum 1 |}.

Definition own_page : ThreadManager.RawThreads :=
  {| ThreadManager.threads := [own_thread];
     ThreadManager.members := [];
     ThreadManager.has_more := JBool false |}.

Definition text_channel : ThreadManager.ParentChannel :=
  {| ThreadManager.chan_id := JStr "100000000000000001";
     ThreadManager.chan_guild := JStr "400000000000000004" |}.

Definition empty_client : ThreadManager.Client :=
  {| ThreadManager.channels := empty_manager; ThreadManager.thread_members := ∅ |}.

(** A concrete setting: dates are recognised by their ISO day, the
    resolution helpers are those of the base manager, and the listing
    endpoint answers with an empty page. *)
Definition iso_day (v : JsVal) : option string :=
  match v with
  | JStr s => if String.eqb s "2021-06-01" then Some "2021-06-01T00:00:00.000Z" else None
  | _ => None
  end.

Definition empty_page (_ : Request) : Completion ThreadManager.RawThreads :=
  Return {| ThreadManager.threads := [];
            ThreadManager.members := [];
            ThreadManager.has_more := JBool false |}.

Definition text_channel_threads : ThreadManager.Manager :=
  {| ThreadManager.channel := text_channel; ThreadManager.own_cache := ∅ |}.

Definition quiet_world : ThreadManager.World :=
  {| ThreadManager.client := empty_client; ThreadManager.sent := [] |}.

Definition private_before (b : ThreadManager.Before) : ThreadManager.FetchArchivedThreadOptions :=
  {| ThreadManager.type := JStr "private";
     ThreadManager.fetchAll := JUndefined;
     ThreadManager.before := b;
     ThreadManager.limit := JUndefined |}.

Definition fetchArchived_here (b : ThreadManager.Before)
    : Completion ThreadManager.FetchedThreads * ThreadManager.World :=
  ThreadManager.fetchArchived (fun _ => JNaN) iso_day DataManager.resolveId
    DataManager.resolve empty_page text_channel_threads (private_before b) true
    quiet_world.

(** The same channel once the thread "200000000000000002", archived on
    2021-06-01, is cached, and a clock that also knows that time value. *)
Definition archived_client : ThreadManager.Client :=
  {| ThreadManager.channels :=
       {| CachedManager.heap :=
            [ {[ "id" := JStr "200000000000000002";
                 "archiveTimestamp" := JNum 1622505600000 ]} ];
          CachedManager.cache := {[ JStr "200000000000000002" := 0%nat ]} |};
     ThreadManager.thread_members := ∅ |}.

Definition archive_threads : ThreadManager.Manager :=
  {| ThreadManager.channel := text_channel;
     ThreadManager.own_cache := {[ JStr "200000000000000002" := 0%nat ]} |}.

Definition archive_world : ThreadManager.World :=
  {| ThreadManager.client := archived_client; ThreadManager.sent := [] |}.

Definition iso_stamp (v : JsVal) : option string :=
  match v with
  | JNum t => if Z.eqb t 1622505600000 then Some "2021-06-01T00:00:00.000Z" else None
  | _ => iso_day v
  end.

Definition fetchArchived_cached (b : ThreadManager.Before)
    : Completion ThreadManager.FetchedThreads * ThreadManager.World :=
  ThreadManager.fetchArchived (fun _ => JNaN) iso_stamp DataManager.resolveId
    DataManager.resolve empty_page archive_threads (private_before b) true
    archive_world.

(** The shard ids a presence names; none when it is to be broadcast. *)
Definition targets (s : ClientPresence.ShardID) : list Z :=
  match s with
  | ClientPresence.AllShards => []
  | ClientPresence.ShardList ids => ids
  | ClientPresence.ShardOne shard => [shard]
  end.

(** A client that is online with one registered shard, 0, and a request
    to go idle on the shards named by [target]. *)
Definition online : ClientPresence.Presence :=
  {| ClientPresence.status := JStr "online"; ClientPresence.activities := [] |}.

Definition one_shard : ClientPresence.World :=
  {| ClientPresence.presence := online; ClientPresence.shards := {[ 0 := [] ]} |}.

Definition go_idle (target : ClientPresence.ShardID) : ClientPresence.PresenceData :=
  {| ClientPresence.data_status := JStr "idle";
     ClientPresence.data_since := JUndefined;
     ClientPresence.data_afk := JUndefined;
     ClientPresence.data_activities := None;
     ClientPresence.shardID := target |}.

Definition idle_packet : ClientPresence.Packet :=
  {| ClientPresence.d_activities := [];
     ClientPresence.d_afk := JBool false;
     ClientPresence.d_since := JNull;
     ClientPresence.d_status := JStr "idle" |}.

Definition idle_update : ClientPresence.Payload :=
  {| ClientPresence.op := 3; ClientPresence.d := idle_packet |}.

Definition set_here (target : ClientPresence.ShardID)
    : Completion unit * ClientPresence.World :=
  ClientPresence.set (fun v => v) 3 (go_idle target) one_shard.

(** An activity without a name, which [_parse] rejects. *)
Definition nameless : ClientPresence.PresenceData :=
  {| ClientPresence.data_status := JStr "idle";
     ClientPresence.data_since := JUndefined;
     ClientPresence.data_afk := JUndefined;
     ClientPresence.data_activities :=
       Some [ {| ClientPresence.name := JUndefined;
                 ClientPresence.type := JNum 0;
                 ClientPresence.url := JUndefined |} ];
     ClientPresence.shardID := ClientPresence.ShardOne 7 |}.

(** A stage instance "9" with topic "old" in the cache, and a transport
    that answers every request with the instance's new state. *)
Definition stage_old : JsObj := {[ "id" := JStr "9"; "topic" := JStr "old" ]}.
Definition stage_new : JsObj := {[ "id" := JStr "9"; "topic" := JStr "new" ]}.

Definition stage_world : StageInstanceManager.World :=
  {| StageInstanceManager.mgr :=
       {| CachedManager.heap := [stage_old];
          CachedManager.cache := {[ JStr "9" := 0%nat ]} |};
     StageInstanceManager.sent := [] |}.

Definition answers_new (_ : Request) : Completion JsObj := Return stage_new.

Definition new_topic : StageInstanceManager.StageInstanceEditOptions :=
  {| StageInstanceManager.edit_topic := JStr "new";
     StageInstanceManager.edit_privacyLevel := JUndefined |}.

Definition edit_here : Completion nat * StageInstanceManager.World :=
  StageInstanceManager.edit (DataManager.resolveId empty_manager) (fun v => v)
    CachedManager.Entity answers_new (DataManager.Prim (JStr "5")) (Object new_topic)
    stage_world.

(** Stage options whose channel is left out, and a reaction. *)
Definition no_channel : StageInstanceManager.CreateStageInstanceOptions :=
  {| StageInstanceManager.channel := DataManager.Prim JUndefined;
     StageInstanceManager.topic := JStr "A very creative topic";
     StageInstanceManager.privacyLevel := JUndefined |}.

Definition thumbs_up : ReactionUserManager.MessageReaction :=
  {| ReactionUserManager.channel_id := JStr "100000000000000001";
     ReactionUserManager.message_id := JStr "500000000000000005";
     ReactionUserManager.emoji_identifier := JStr "%F0%9F%91%8D" |}.

(** A guild without invites and an empty invite cache. *)
Definition no_invites (_ : Request) : Completion (list JsObj) := Return [].

Definition invite_world : GuildInviteManager.World :=
  {| GuildInviteManager.mgr := empty_manager; GuildInviteManager.sent := [] |}.

(** A transport that is down, and the default, public listing. *)
Definition unreachable (_ : Request) : Completion ThreadManager.RawThreads :=
  Throw (RemoteFetchError 503).

Definition public_before (b : ThreadManager.Before) : ThreadManager.FetchArchivedThreadOptions :=
  {| ThreadManager.type := JUndefined;
     ThreadManager.fetchAll := JUndefined;
     ThreadManager.before := b;
     ThreadManager.limit := JUndefined |}.

Definition fetchArchived_public (b : ThreadManager.Before)
    : Completion ThreadManager.FetchedThreads * ThreadManager.World :=
  ThreadManager.fetchArchived (fun _ => JNaN) iso_day DataManager.resolveId
    DataManager.resolve empty_page text_channel_threads (public_before b) true
    quiet_world.

(** A table of channel types, a guild with both archive features, and a
    thread to create. *)
Definition channel_types (v : JsVal) : JsVal :=
  match v with
  | JStr s =>
      if String.eqb s "GUILD_NEWS_THREAD" then JNum 10
      else if String.eqb s "GUILD_PUBLIC_THREAD" then JNum 11
      else if String.eqb s "GUILD_PRIVATE_THREAD" then JNum 12
      else JUndefined
  | _ => JUndefined
  end.

Definition both_features : list string :=
  ["THREE_DAY_THREAD_ARCHIVE"; "SEVEN_DAY_THREAD_ARCHIVE"].

Definition new_thread (type_ : JsVal) (start : DataManager.Resolvable)
    : ThreadManager.ThreadCreateOptions :=
  {| ThreadManager.create_name := JStr "food-talk";
     ThreadManager.autoArchiveDuration := JStr "MAX";
     ThreadManager.startMessage := start;
     ThreadManager.create_type := type_;
     ThreadManager.reason := JUndefined |}.

Definition create_request_here (channel_type : JsVal)
    (o : ThreadManager.ThreadCreateOptions) : Completion Request :=
  ThreadManager.create_request channel_types channel_type both_features
    (DataManager.resolveId empty_manager) text_channel_threads o.

Definition create_here (o : ThreadManager.ThreadCreateOptions)
    : Completion (option nat) * ThreadManager.World :=
  ThreadManager.create channel_types (JStr "GUILD_TEXT") both_features
    (DataManager.resolveId empty_manager)
    (fun _ => Throw (RemoteFetchError 503)) (fun _ c => (None, c))
    text_channel_threads o quiet_world.

(** The request [create] builds for a private thread in a news channel. *)
Definition news_request : Request :=
  {| method := "post";
     route := [JStr "channels"; JStr "100000000000000001"; JStr "threads"];
     params := [("name", JStr "food-talk"); ("auto_archive_duration", JNum 10080);
                ("type", JNum 10); ("reason", JUndefined)] |}.

(** A member with every permission, and two archived threads. *)
Definition moderator : ThreadChannel.Permissions :=
  {| ThreadChannel.has := fun _ => true; ThreadChannel.any := fun _ => true |}.

Definition archived_unlocked : JsObj :=
  {[ "id" := JStr "7"; "archived" := JBool true; "locked" := JBool false ]}.

Definition archived_locked : JsObj :=
  {[ "id" := JStr "8"; "archived" := JBool true; "locked" := JBool true ]}.

(** What the loop of [_parse] makes of one activity. *)
Definition parsed (given out : ClientPresence.Activity) : Prop :=
  ClientPresence.name out = ClientPresence.name given
  ∧ ClientPresence.url out = ClientPresence.url given
  ∧ (truthy (ClientPresence.type given) = false → ClientPresence.type out = JNum 0)
  ∧ (∀ n, ClientPresence.type given = JNum n → n ≠ 0 →
          ClientPresence.type out = JNum n).

(** Activities: one without a type, one of type 3, one without a name;
    and presences that set them, or only [afk]. *)
Definition chess : ClientPresence.Activity :=
  {| ClientPresence.name := JStr "chess";
     ClientPresence.type := JUndefined;
     ClientPresence.url := JUndefined |}.

Definition chess_parsed : ClientPresence.Activity :=
  {| ClientPresence.name := JStr "chess";
     ClientPresence.type := JNum 0;
     ClientPresence.url := JUndefined |}.

Definition go_game : ClientPresence.Activity :=
  {| ClientPresence.name := JStr "go";
     ClientPresence.type := JNum 3;
     ClientPresence.url := JStr "https://example.org/go" |}.

Definition untitled : ClientPresence.Activity :=
  {| ClientPresence.name := JNum 7;
     ClientPresence.type := JNum 0;
     ClientPresence.url := JUndefined |}.

Definition playing (acts : list ClientPresence.Activity) : ClientPresence.PresenceData :=
  {| ClientPresence.data_status := JUndefined;
     ClientPresence.data_since := JUndefined;
     ClientPresence.data_afk := JUndefined;
     ClientPresence.data_activities := Some acts;
     ClientPresence.shardID := ClientPresence.AllShards |}.

Definition just_afk (afk : JsVal) : ClientPresence.PresenceData :=
  {| ClientPresence.data_status := JUndefined;
     ClientPresence.data_since := JUndefined;
     ClientPresence.data_afk := afk;
     ClientPresence.data_activities := None;
     ClientPresence.shardID := ClientPresence.AllShards |}.

Definition at_the_board : ClientPresence.Presence :=
  {| ClientPresence.status := JStr "online";
     ClientPresence.activities := [chess_parsed] |}.

(** A stage transport that is down, and one that answers. *)
Definition stage_down (_ : Request) : Completion JsObj := Throw (RemoteFetchError 503).

Definition open_stage : StageInstanceManager.CreateStageInstanceOptions :=
  {| StageInstanceManager.channel := DataManager.Prim (JStr "5");
     StageInstanceManager.topic := JStr "new";
     StageInstanceManager.privacyLevel := JUndefined |}.

Definition stage_quiet : StageInstanceManager.World :=
  {| StageInstanceManager.mgr := empty_manager; StageInstanceManager.sent := [] |}.

(** A guild with two invites, and the invite manager after listing them. *)
Definition two_invites : list JsObj :=
  [ {[ "code" := JStr "abc"; "uses" := JNum 1 ]};
    {[ "code" := JStr "xyz"; "uses" := JNum 0 ]} ].

Definition lists_two (_ : Request) : Completion (list JsObj) := Return two_invites.

Definition invites_known : GuildInviteManager.World :=
  snd (GuildInviteManager._fetchMany CachedManager.Entity (JStr "400000000000000004")
         lists_two (JBool true) invite_world).

Definition uncached_listing : GuildInviteManager.FetchOptions :=
  {| GuildInviteManager.code := JUndefined;
     GuildInviteManager.channelId := DataManager.Prim JUndefined;
     GuildInviteManager.opt_cache := Some (JBool false);
     GuildInviteManager.force := JUndefined |}.

(** Two users who reacted, an empty store, and the client's own user. *)
Definition two_users : list JsObj :=
  [ {[ "id" := JStr "11"; "username" := JStr "ann" ]};
    {[ "id" := JStr "12"; "username" := JStr "bob" ]} ].

Definition no_users : ReactionUserManager.Store :=
  {| ReactionUserManager.users := empty_manager;
     ReactionUserManager.own_cache := ∅;
     ReactionUserManager.sent := [] |}.

Definition fetch_reactors : Completion (gmap JsVal nat) * ReactionUserManager.Store :=
  ReactionUserManager.fetch CachedManager.Entity thumbs_up (fun _ => Return two_users)
    JUndefined JUndefined no_users.

Definition ann : ReactionUserManager.ClientUser :=
  {| ReactionUserManager.user_ref := DataManager.Instance 0;
     ReactionUserManager.user_id := JStr "11" |}.

Definition remove_here (user : DataManager.Resolvable)
    : Completion ReactionUserManager.MessageReaction * list Request :=
  ReactionUserManager.remove
    (DataManager.resolveId (ReactionUserManager.users (snd fetch_reactors)))
    (Some ann) thumbs_up (fun _ => Return tt) user [].

(** Reading back a string of lowercase hexadecimal digits, the digits
    [Number.prototype.toString(16)] writes: the value of one digit and of
    a whole string, [None] as soon as a character is not such a digit. *)
Definition hex_value (c : Ascii.ascii) : option Z :=
  let n := Z.of_nat (Ascii.nat_of_ascii c) in
  if (48 <=? n)%Z && (n <=? 57)%Z then Some (n - 48)
  else if (97 <=? n)%Z && (n <=? 102)%Z then Some (n - 87)
  else None.

Fixpoint parse_hex (s : string) (acc : Z) : option Z :=
  match s with
  | EmptyString => Some acc
  | String c rest =>
      match hex_value c with
      | Some d => parse_hex rest (16 * acc + d)
      | None => None
      end
  end.

(** Invite codes given as such: there is nothing for the resolver to
    strip, and the code stands for itself. *)
Definition bare_code (v : JsVal) : JsVal := v.

(** Stand-ins for the three helpers of util/Util: a checker that accepts
    strings (non-empty ones when asked to), a colour resolver that lets a
    value through, and a parser that knows no date; and an embed. *)
Definition verify_string (data : JsVal) (code : string) (allowEmpty : bool)
    : Completion JsVal :=
  match data with
  | JStr s => if negb allowEmpty && String.eqb s "" then Throw (DjsError code) else Return data
  | _ => Throw (DjsError code)
  end.

Definition any_color (v : JsVal) : Completion JsVal := Return v.

Definition as_object (f : MessageEmbed.FieldData) : JsObj :=
  match f with
  | MessageEmbed.Field o => o
  | MessageEmbed.Fields _ => ∅
  end.

Definition no_dates (_ : string) : JsVal := JNaN.

Definition headline : JsObj :=
  {[ "name" := JStr "Today"; "value" := JStr "Sunny"; "inline" := JBool false ]}.

Definition news_embed : MessageEmbed.MessageEmbed :=
  {| MessageEmbed.type := JStr "article";
     MessageEmbed.title := JStr "News";
     MessageEmbed.description := JNull;
     MessageEmbed.url := JNull;
     MessageEmbed.color := JNum 3447003;
     MessageEmbed.timestamp := JNull;
     MessageEmbed.fields := [headline];
     MessageEmbed.thumbnail := None;
     MessageEmbed.image := None;
     MessageEmbed.video := Some {[ "url" := JStr "https://example.org/v" ]};
     MessageEmbed.author := None;
     MessageEmbed.provider := None;
     MessageEmbed.footer := None |}.

Definition forecast : MessageEmbed.FieldData :=
  MessageEmbed.Field {[ "name" := JStr "Tomorrow"; "value" := JStr "Rain";
                        "inline" := JStr "yes" ]}.

(** * Properties *)

(** ** The add/merge protocol of the cached manager *)

Section AddFacts.
Import CachedManager.
Context {Data : Type}.
Variable data_id : Data -> JsVal.
Variable holds : Holds Data.

Lemma _add_existing data id extras m l :
  cache m !! coalesce id (data_id data) = Some l →
  _add data_id holds data true id extras m = (l, patch_at holds l data m).
Proof. intros Hl. unfold _add. by rewrite Hl. Qed.

Lemma _add_fresh data id extras m :
  cache m !! coalesce id (data_id data) = None →
  _add data_id holds data true id extras m =
    (length (heap m),
     cache_set (coalesce id (prop (construct holds data extras) "id"))
               (length (heap m))
               (snd (alloc (construct holds data extras) m))).
Proof.
  intros Hl. unfold _add. rewrite Hl. cbn.
  unfold deref. cbn. by rewrite list_lookup_middle.
Qed.

Lemma deref_patch_at l data m :
  (l < length (heap m))%nat →
  deref (patch_at holds l data m) l = _patch holds (deref m l) data.
Proof.
  intros Hl. unfold deref, patch_at. cbn.
  destruct (lookup_lt_is_Some_2 (heap m) l Hl) as [o Ho].
  rewrite list_lookup_alter_eq, Ho. done.
Qed.

Lemma wf_patch_at l data m : wf m → wf (patch_at holds l data m).
Proof.
  unfold wf, patch_at. cbn. intros H k x Hk.
  rewrite length_alter. by apply (H k).
Qed.

Lemma wf_add data flag id extras m :
  wf m → wf (snd (_add data_id holds data flag id extras m)).
Proof.
  intros Hwf. unfold _add.
  destruct (cache m !! coalesce id (data_id data)) as [l|] eqn:Hl.
  - destruct flag; cbn; [by apply wf_patch_at | done].
  - destruct flag; cbn.
    + unfold wf. cbn. apply map_Forall_insert_2.
      * rewrite length_app. cbn. lia.
      * intros k x Hk. rewrite length_app. cbn. specialize (Hwf k x Hk). cbn in Hwf. lia.
    + unfold wf. cbn. intros k x Hk. rewrite length_app. cbn.
      specialize (Hwf k x Hk). cbn in Hwf. lia.
Qed.

End AddFacts.

(** C1. Identity-preserving merge: two caching adds of payloads with the
    same id return the same instance; the second add creates no instance
    and leaves the cache slot as it was, holding that one instance under
    the id; and afterwards the instance's fields are those of the second
    payload laid over those of the first (over whatever was cached under
    the id before). *)
Theorem add_twice_same_instance_merged (k : JsVal) (payload1 payload2 : JsObj)
    (m m1 m2 : CachedManager.Mgr) (e1 e2 : nat) :
  CachedManager.wf m →
  CachedManager.raw_id payload1 = k →
  CachedManager.raw_id payload2 = k →
  add_cached payload1 m = (e1, m1) →
  add_cached payload2 m1 = (e2, m2) →
  e1 = e2
  ∧ CachedManager.cache m1 !! k = Some e1
  ∧ CachedManager.cache m2 = CachedManager.cache m1
  ∧ length (CachedManager.heap m2) = length (CachedManager.heap m1)
  ∧ CachedManager.deref m2 e1 = payload2 ∪ (payload1 ∪ fields_before k m).
Proof.
  intros Hwf Hk1 Hk2 H1 H2. unfold add_cached in *.
  assert (Hwf1 : CachedManager.wf m1).
  { replace m1 with (snd (CachedManager._add CachedManager.raw_id CachedManager.Entity
                            payload1 true JUndefined [] m)) by (by rewrite H1).
    by apply wf_add. }
  assert (Hslot : CachedManager.cache m1 !! k = Some e1
                  ∧ CachedManager.deref m1 e1 = payload1 ∪ fields_before k m).
  { unfold fields_before.
    destruct (CachedManager.cache m !! k) as [l|] eqn:Hl.
    - rewrite (_add_existing _ _ _ _ _ _ l) in H1 by (cbn; by rewrite Hk1).
      injection H1 as <- <-. split; [done|].
      apply (deref_patch_at CachedManager.Entity). by apply (Hwf k).
    - rewrite _add_fresh in H1 by (cbn; by rewrite Hk1).
      injection H1 as <- <-. cbn. fold (CachedManager.raw_id payload1). rewrite Hk1.
      split; [by rewrite lookup_insert_eq|].
      unfold CachedManager.deref. cbn.
      rewrite list_lookup_middle by done. cbn. by rewrite (right_id ∅ (∪)). }
  destruct Hslot as [Hslot Hfields].
  rewrite (_add_existing _ _ _ _ _ _ e1) in H2 by (cbn; by rewrite Hk2).
  injection H2 as <- <-.
  split; [done|]. split; [done|]. split; [done|].
  split; [cbn; by rewrite length_alter|].
  rewrite (deref_patch_at CachedManager.Entity) by (by apply (Hwf1 k)).
  cbn. by rewrite Hfields.
Qed.

Lemma add_twice_same_instance_merged_witness :
  fst (add_cached payload_a empty_manager)
  = fst (add_cached payload_b (snd (add_cached payload_a empty_manager)))
  ∧ prop (CachedManager.deref
            (snd (add_cached payload_b (snd (add_cached payload_a empty_manager))))
            (fst (add_cached payload_a empty_manager))) "name"
    = JStr "b".
Proof.
  assert (Hwf : CachedManager.wf empty_manager) by apply map_Forall_empty.
  destruct (add_twice_same_instance_merged (JStr "1") payload_a payload_b
              empty_manager _ _ _ _ Hwf eq_refl eq_refl
              (surjective_pairing _) (surjective_pairing _))
    as (Hsame & _ & _ & _ & Hfields).
  split; [exact Hsame|]. rewrite Hfields. reflexivity.
Defined.

(** C7. No-cache does not fork: a non-caching add for a key that is
    cached returns the cached instance and changes nothing, neither a
    field of that instance nor the cache (no patch, no new instance). *)
Theorem add_nocache_returns_existing_untouched {Data : Type}
    (data_id : Data -> JsVal) (holds : CachedManager.Holds Data)
    (data : Data) (id : JsVal) (extras : list JsVal)
    (m : CachedManager.Mgr) (existing : nat) :
  CachedManager.cache m !! coalesce id (data_id data) = Some existing →
  CachedManager._add data_id holds data false id extras m = (existing, m).
Proof. intros H. unfold CachedManager._add. by rewrite H. Qed.

Lemma add_nocache_returns_existing_untouched_witness :
  CachedManager._add CachedManager.raw_id CachedManager.Entity payload_b false
    JUndefined [] (snd (add_cached payload_a empty_manager))
  = (0%nat, snd (add_cached payload_a empty_manager)).
Proof.
  apply add_nocache_returns_existing_untouched. reflexivity.
Defined.

(** ** The thread manager *)

(** C9. The override of the thread manager performs no merge: when the
    thread's id is cached it returns the cached instance and leaves the
    manager, heap included, exactly as it was, so nothing of the argument
    reaches the cached instance; only when the id is absent is the
    argument itself stored under its id and returned.  In both cases no
    object is patched. *)
Theorem ThreadManager_add_keeps_cached (thread : nat) (m : CachedManager.Mgr) :
  (∀ existing,
     CachedManager.cache m !! prop (CachedManager.deref m thread) "id" = Some existing →
     ThreadManager._add thread m = (existing, m))
  ∧ (CachedManager.cache m !! prop (CachedManager.deref m thread) "id" = None →
     ThreadManager._add thread m
     = (thread,
        {| CachedManager.heap := CachedManager.heap m;
           CachedManager.cache :=
             <[prop (CachedManager.deref m thread) "id" := thread]>
               (CachedManager.cache m) |}))
  ∧ CachedManager.heap (snd (ThreadManager._add thread m)) = CachedManager.heap m.
Proof.
  unfold ThreadManager._add.
  destruct (CachedManager.cache m !! prop (CachedManager.deref m thread) "id") as [l|].
  - split; [by intros ? [= ->]|]. split; [done|done].
  - split; [done|]. split; [done|done].
Qed.

Lemma ThreadManager_add_keeps_cached_witness :
  ThreadManager._add 1 two_threads = (0%nat, two_threads)
  ∧ prop (CachedManager.deref (snd (ThreadManager._add 1 two_threads)) 0) "name"
    = JStr "old".
Proof.
  pose proof (proj1 (ThreadManager_add_keeps_cached 1 two_threads) 0%nat eq_refl) as H.
  split; [exact H|]. rewrite H. reflexivity.
Defined.

(** C8. The flag of a page is the transport's [has_more] as it is when
    that is neither [null] nor [undefined], and [false] otherwise. *)
Theorem _mapThreads_hasMore (Date_getTime : JsVal -> JsVal)
    (rawThreads : ThreadManager.RawThreads)
    (parent : option ThreadManager.ParentChannel) (guild : JsVal)
    (cache_flag : bool) (c : ThreadManager.Client) :
  ThreadManager.hasMore
    (fst (ThreadManager._mapThreads Date_getTime rawThreads parent guild cache_flag c))
  = match ThreadManager.has_more rawThreads with
    | JUndefined | JNull => JBool false
    | present => present
    end.
Proof.
  unfold ThreadManager._mapThreads.
  destruct (fold_left _ _ _) as [coll m]. cbn.
  by destruct (ThreadManager.has_more rawThreads).
Qed.

Lemma ThreadChannel_patch_no_parentId Date_getTime (o : JsObj) data :
  o !! "parentId" = None →
  ThreadChannel._patch Date_getTime o data !! "parentId" = None.
Proof.
  intros Ho. unfold ThreadChannel._patch, ThreadChannel.Channel_patch.
  by rewrite !lookup_insert_ne by done.
Qed.

Lemma deref_no_parentId m l :
  no_parentId m → prop (CachedManager.deref m l) "parentId" = JUndefined.
Proof.
  intros Hm. unfold prop, CachedManager.deref.
  destruct (CachedManager.heap m !! l) as [o|] eqn:Hl; cbn; [|done].
  by rewrite (proj1 (Forall_lookup _ _) Hm l o Hl).
Qed.

Lemma ChannelManager_add_no_parentId Date_getTime raw guild flag m :
  no_parentId m →
  no_parentId (snd (ThreadManager.ChannelManager_add Date_getTime raw guild flag m)).
Proof.
  intros Hm. unfold ThreadManager.ChannelManager_add, CachedManager._add.
  destruct (CachedManager.cache m !! _) as [l|]; destruct flag; cbn; try done.
  - unfold no_parentId. cbn. apply Forall_alter; [done|].
    intros o _ Ho. by apply ThreadChannel_patch_no_parentId.
  - unfold no_parentId. cbn. apply Forall_app. split; [done|].
    apply Forall_singleton. unfold ThreadChannel.constructor.
    by apply ThreadChannel_patch_no_parentId.
  - unfold no_parentId. cbn. apply Forall_app. split; [done|].
    apply Forall_singleton. unfold ThreadChannel.constructor.
    by apply ThreadChannel_patch_no_parentId.
Qed.

(** With a parent channel given, the comparison [thread.parentId !==
    parent.id] reads a property no thread has, so every item is dropped. *)
Lemma _mapThreads_with_parent_drops_all Date_getTime rawThreads p pid guild flag c :
  no_parentId (ThreadManager.channels c) →
  ThreadManager.chan_id p = JStr pid →
  ThreadManager.fetched
    (fst (ThreadManager._mapThreads Date_getTime rawThreads (Some p) guild flag c)) = ∅.
Proof.
  intros Hc Hp. unfold ThreadManager._mapThreads.
  assert (H : ∀ l m, no_parentId m →
            fst (fold_left (ThreadManager.reduce_step Date_getTime (Some p) guild flag)
                           l (∅, m)) = ∅).
  { induction l as [|raw l IH]; intros m Hm; [done|]. cbn.
    pose proof (ChannelManager_add_no_parentId Date_getTime raw
                  (ThreadManager.guild_of (Some p) guild) flag m Hm) as Hm'.
    destruct (ThreadManager.ChannelManager_add _ _ _ _ _) as [thread m'].
    cbn in Hm'. cbn. rewrite (deref_no_parentId _ _ Hm'), Hp. cbn.
    by apply IH. }
  specialize (H (ThreadManager.threads rawThreads) (ThreadManager.channels c) Hc).
  destruct (fold_left _ _ _) as [coll m]. cbn in *. done.
Qed.

(** C5, at the failing input.  The one thread of the page belongs to the
    expected parent and is added to the owning cache, with its parent
    recorded as [parentID]; yet the returned map is empty, because the
    filter compares the never-assigned [parentId]. *)
Theorem _mapThreads_drops_thread_of_parent (Date_getTime : JsVal -> JsVal) :
  let r := ThreadManager._mapThreads Date_getTime own_page (Some text_channel)
             JUndefined true empty_client in
  ThreadChannel.parent_id own_thread = ThreadManager.chan_id text_channel
  ∧ CachedManager.cache (ThreadManager.channels (snd r)) !! ThreadChannel.id own_thread
    = Some 0%nat
  ∧ prop (CachedManager.deref (ThreadManager.channels (snd r)) 0) "parentID"
    = ThreadManager.chan_id text_channel
  ∧ prop (CachedManager.deref (ThreadManager.channels (snd r)) 0) "parentId"
    = JUndefined
  ∧ ThreadManager.fetched (fst r) = ∅.
Proof. cbn. repeat split; reflexivity. Qed.

Section FetchArchivedFacts.
Import ThreadManager.
Variable Date_getTime : JsVal -> JsVal.
Variable Date_toISOString : JsVal -> option string.
Variable resolveId : CachedManager.Mgr -> DataManager.Resolvable -> JsVal.
Variable resolve : CachedManager.Mgr -> DataManager.Resolvable -> option nat.
Variable api : Request -> Completion RawThreads.

Let fetchArchived' :=
  fetchArchived Date_getTime Date_toISOString resolveId resolve api.

(** Whatever the transport answers, a call that got past the cursor block
    has issued exactly the one request built from the cursors. *)
Lemma fetchArchived_issues this options flag w id timestamp :
  cursors Date_toISOString resolveId resolve this (before options) w
  = Return (id, timestamp) →
  sent (snd (fetchArchived' this options flag w))
  = sent w ++ [archived_request this options id timestamp].
Proof.
  intros Hc. unfold fetchArchived', fetchArchived. rewrite Hc.
  destruct (api _) as [raw|e]; [|done].
  cbn. destruct (_mapThreads _ _ _ _ _ _) as [r c]. done.
Qed.

Lemma archived_request_before this options id timestamp :
  own_private options = true →
  params (archived_request this options id timestamp)
  = [("before", id); ("limit", limit options)].
Proof. intros H. unfold archived_request. by rewrite H. Qed.

End FetchArchivedFacts.

(** C6, as amended.  With type 'private' and [fetchAll] false, a given
    [before] is rejected with the INVALID_TYPE [TypeError] only when it is
    neither a thread, nor snowflake-shaped, nor a valid date:
    - neither a thread, nor snowflake-shaped, nor a valid date: the call
      raises the INVALID_TYPE [TypeError] and no request is issued;
    - a valid date: exactly one request is issued, and its [before]
      cursor is [undefined] (no timestamp is sent in its place);
    - a thread or a snowflake-shaped value that resolves to no cached
      thread: exactly one request is issued, with [resolveId(before)] as
      its cursor;
    - a thread or a snowflake-shaped value that resolves to a cached
      thread: exactly one request is issued, with [resolveId(before)] as
      its cursor, when the thread has no archive time or one that
      [toISOString] accepts; otherwise [toISOString] raises its
      [RangeError] and no request is issued;
    - conversely, a call that ends in a [TypeError] of the library with
      no request issued was given a [before] that is neither a thread
      nor snowflake-shaped, and not a valid date. *)
Theorem fetchArchived_private_cursor
    (Date_getTime : JsVal -> JsVal) (Date_toISOString : JsVal -> option string)
    (resolveId : CachedManager.Mgr -> DataManager.Resolvable -> JsVal)
    (resolve : CachedManager.Mgr -> DataManager.Resolvable -> option nat)
    (api : Request -> Completion ThreadManager.RawThreads)
    (this : ThreadManager.Manager) (options : ThreadManager.FetchArchivedThreadOptions)
    (flag : bool) (w : ThreadManager.World) :
  ThreadManager.own_private options = true →
  ThreadManager.before options ≠ ThreadManager.BVal JUndefined →
  let run := ThreadManager.fetchArchived Date_getTime Date_toISOString resolveId
               resolve api this options flag w in
  (ThreadManager.identity_cursor (ThreadManager.before options) = false →
   Date_toISOString (ThreadManager.date_of (ThreadManager.before options)) = None →
   run = (Throw (DjsTypeError "INVALID_TYPE"
                   ["before"; "DateResolvable or ThreadChannelResolvable"]), w))
  ∧ (ThreadManager.identity_cursor (ThreadManager.before options) = false →
     ∀ iso,
     Date_toISOString (ThreadManager.date_of (ThreadManager.before options)) = Some iso →
     ∃ req, ThreadManager.sent (snd run) = ThreadManager.sent w ++ [req]
            ∧ params req = [("before", JUndefined);
                            ("limit", ThreadManager.limit options)])
  ∧ (ThreadManager.identity_cursor (ThreadManager.before options) = true →
     resolve (ThreadManager.view this w)
             (ThreadManager.as_resolvable (ThreadManager.before options)) = None →
     ∃ req, ThreadManager.sent (snd run) = ThreadManager.sent w ++ [req]
            ∧ params req
              = [("before",
                  resolveId (ThreadManager.view this w)
                    (ThreadManager.as_resolvable (ThreadManager.before options)));
                 ("limit", ThreadManager.limit options)])
  ∧ (ThreadManager.identity_cursor (ThreadManager.before options) = true →
     ∀ l,
     resolve (ThreadManager.view this w)
             (ThreadManager.as_resolvable (ThreadManager.before options)) = Some l →
     (nullish (ThreadChannel.archivedAt
                 (CachedManager.deref (ThreadManager.view this w) l)) = true
      ∨ is_Some (Date_toISOString
                   (ThreadChannel.archivedAt
                      (CachedManager.deref (ThreadManager.view this w) l))) →
      ∃ req, ThreadManager.sent (snd run) = ThreadManager.sent w ++ [req]
             ∧ params req
               = [("before",
                   resolveId (ThreadManager.view this w)
                     (ThreadManager.as_resolvable (ThreadManager.before options)));
                  ("limit", ThreadManager.limit options)])
     ∧ (nullish (ThreadChannel.archivedAt
                   (CachedManager.deref (ThreadManager.view this w) l)) = false →
        Date_toISOString
          (ThreadChannel.archivedAt
             (CachedManager.deref (ThreadManager.view this w) l)) = None →
        run = (Throw NativeRangeError, w)))
  ∧ (∀ name args,
     fst run = Throw (DjsTypeError name args) →
     ThreadManager.sent (snd run) = ThreadManager.sent w →
     ThreadManager.identity_cursor (ThreadManager.before options) = false
     ∧ Date_toISOString (ThreadManager.date_of (ThreadManager.before options)) = None).
Proof.
  intros Hown Hgiven run.
  assert (Hcases : ∀ X (a b : X),
            match ThreadManager.before options with
            | ThreadManager.BVal JUndefined => a
            | _ => b
            end = b).
  { intros X a b. destruct (ThreadManager.before options) as [| |[]]; done. }
  split; [|split; [|split; [|split]]].
  - intros Hid Hdate. subst run. unfold ThreadManager.fetchArchived, ThreadManager.cursors.
    by rewrite Hcases, Hid, Hdate.
  - intros Hid iso Hdate. eexists. split.
    + subst run. apply fetchArchived_issues.
      unfold ThreadManager.cursors. by rewrite Hcases, Hid, Hdate.
    + by apply archived_request_before.
  - intros Hid Hres. eexists. split.
    + subst run. apply fetchArchived_issues.
      unfold ThreadManager.cursors. by rewrite Hcases, Hid, Hres.
    + by apply archived_request_before.
  - intros Hid l Hres. split.
    + intros Hat.
      assert (∃ ts, ThreadManager.cursors Date_toISOString resolveId resolve this
                      (ThreadManager.before options) w
                    = Return (resolveId (ThreadManager.view this w)
                                (ThreadManager.as_resolvable (ThreadManager.before options)),
                              ts)) as [ts Hc].
      { unfold ThreadManager.cursors. rewrite Hcases, Hid, Hres.
        destruct (nullish _) eqn:Hnull; [by eexists|].
        destruct Hat as [Hat|[iso Hiso]]; [done|]. rewrite Hiso. by eexists. }
      eexists. split; [|by apply archived_request_before].
      subst run. by apply fetchArchived_issues.
    + intros Hnull Hiso. subst run.
      unfold ThreadManager.fetchArchived, ThreadManager.cursors.
      by rewrite Hcases, Hid, Hres, Hnull, Hiso.
  - intros name args Hthrow Hsent. subst run.
    destruct (ThreadManager.cursors Date_toISOString resolveId resolve this
                (ThreadManager.before options) w) as [[id ts]|e] eqn:Hc.
    + pose proof (fetchArchived_issues Date_getTime Date_toISOString resolveId resolve
                    api this options flag w id ts Hc) as Hiss.
      rewrite Hiss in Hsent.
      apply (f_equal length) in Hsent. rewrite length_app in Hsent. cbn in Hsent. lia.
    + unfold ThreadManager.fetchArchived in Hthrow. rewrite Hc in Hthrow.
      cbn in Hthrow. injection Hthrow as ->.
      unfold ThreadManager.cursors in Hc. rewrite Hcases in Hc.
      destruct (ThreadManager.identity_cursor _).
      * destruct (resolve _ _) as [l|]; [|done].
        destruct (nullish _); [done|]. by destruct (Date_toISOString _).
      * split; [done|]. by destruct (Date_toISOString _).
Qed.

(** C6, counterexample.  Type 'private', [fetchAll] left out, and
    [before: "2021-06-01"], which resolves to no cached thread: the call
    does not raise, and it issues the request with an [undefined] cursor. *)
Lemma fetchArchived_private_date_is_sent :
  DataManager.resolve (ThreadManager.view text_channel_threads quiet_world)
    (DataManager.Prim (JStr "2021-06-01")) = None
  ∧ is_throw (fst (fetchArchived_here (ThreadManager.BVal (JStr "2021-06-01")))) = false
  ∧ ThreadManager.sent (snd (fetchArchived_here (ThreadManager.BVal (JStr "2021-06-01"))))
    = [ {| method := "get";
           route := [JStr "channels"; JStr "100000000000000001"; JStr "users";
                     JStr "@me"; JStr "threads"; JStr "archived"; JStr "private"];
           params := [("before", JUndefined); ("limit", JUndefined)] |} ].
Proof. repeat split; reflexivity. Qed.

Lemma fetchArchived_private_cursor_witness :
  fetchArchived_here (ThreadManager.BVal (JStr "yesterday"))
  = (Throw (DjsTypeError "INVALID_TYPE"
              ["before"; "DateResolvable or ThreadChannelResolvable"]), quiet_world)
  ∧ (∃ req,
       ThreadManager.sent (snd (fetchArchived_here (ThreadManager.BVal (JStr "2021-06-01"))))
       = [] ++ [req]
       ∧ params req = [("before", JUndefined); ("limit", JUndefined)])
  ∧ (∃ req,
       ThreadManager.sent
         (snd (fetchArchived_here (ThreadManager.BVal (JStr "1234567890123456"))))
       = [] ++ [req]
       ∧ params req = [("before", JStr "1234567890123456"); ("limit", JUndefined)])
  ∧ (∃ req,
       ThreadManager.sent
         (snd (fetchArchived_cached (ThreadManager.BVal (JStr "200000000000000002"))))
       = [] ++ [req]
       ∧ params req = [("before", JStr "200000000000000002"); ("limit", JUndefined)])
  ∧ (ThreadManager.identity_cursor (ThreadManager.BVal (JStr "yesterday")) = false
     ∧ iso_day (JStr "yesterday") = None).
Proof.
  split; [|split; [|split; [|split]]].
  - refine (proj1 (fetchArchived_private_cursor (fun _ => JNaN) iso_day
              DataManager.resolveId DataManager.resolve empty_page text_channel_threads
              (private_before (ThreadManager.BVal (JStr "yesterday"))) true quiet_world
              _ _) _ _); [reflexivity|discriminate|reflexivity|reflexivity].
  - refine (proj1 (proj2 (fetchArchived_private_cursor (fun _ => JNaN) iso_day
              DataManager.resolveId DataManager.resolve empty_page text_channel_threads
              (private_before (ThreadManager.BVal (JStr "2021-06-01"))) true quiet_world
              _ _)) _ _ _); [reflexivity|discriminate|reflexivity|reflexivity].
  - refine (proj1 (proj2 (proj2 (fetchArchived_private_cursor (fun _ => JNaN) iso_day
              DataManager.resolveId DataManager.resolve empty_page text_channel_threads
              (private_before (ThreadManager.BVal (JStr "1234567890123456"))) true
              quiet_world _ _))) _ _); [reflexivity|discriminate|reflexivity|reflexivity].
  - refine (proj1 (proj1 (proj2 (proj2 (proj2 (fetchArchived_private_cursor
              (fun _ => JNaN) iso_stamp DataManager.resolveId DataManager.resolve
              empty_page archive_threads
              (private_before (ThreadManager.BVal (JStr "200000000000000002"))) true
              archive_world _ _)))) _ 0%nat _) _);
      [reflexivity|discriminate|reflexivity|reflexivity|].
    right. vm_compute. eauto.
  - refine (proj2 (proj2 (proj2 (proj2 (fetchArchived_private_cursor (fun _ => JNaN)
              iso_day DataManager.resolveId DataManager.resolve empty_page
              text_channel_threads
              (private_before (ThreadManager.BVal (JStr "yesterday"))) true quiet_world
              _ _)))) "INVALID_TYPE"
              ["before"; "DateResolvable or ThreadChannelResolvable"] _ _);
      [reflexivity|discriminate|reflexivity|reflexivity].
Defined.

(** ** Presence dispatch *)

Section DispatchFacts.
Import ClientPresence.
Variable msg : Payload.

Lemma send_each_registered ids : ∀ sh : gmap Z (list Payload),
  (∀ i, i ∈ ids → is_Some (sh !! i)) →
  fst (send_each ids msg sh) = Return tt
  ∧ ∀ i, snd (send_each ids msg sh) !! i
         = (fun q => q ++ replicate (listed ids i) msg) <$> sh !! i.
Proof.
  induction ids as [|a ids IH]; intros sh Hreg.
  - cbn. split; [done|]. intros i. destruct (sh !! i); cbn; [|done].
    by rewrite app_nil_r.
  - cbn. destruct (Hreg a) as [q Hq]; [by left|]. rewrite Hq.
    destruct (IH (<[a := q ++ [msg]]> sh)) as [Hret Hsh].
    { intros i Hi. destruct (decide (a = i)) as [->|Hne].
      - rewrite lookup_insert_eq. eauto.
      - rewrite lookup_insert_ne by done. apply Hreg. by right. }
    split; [done|]. intros i. rewrite Hsh. unfold listed. cbn.
    destruct (Z.eq_dec a i) as [->|Hne].
    + rewrite lookup_insert_eq, Hq. cbn. by rewrite <- app_assoc.
    + by rewrite lookup_insert_ne.
Qed.

Lemma send_each_stops pre z post : ∀ sh : gmap Z (list Payload),
  (∀ i, i ∈ pre → is_Some (sh !! i)) →
  sh !! z = None →
  send_each (pre ++ z :: post) msg sh
  = (Throw NativeTypeError, snd (send_each pre msg sh)).
Proof.
  induction pre as [|a pre IH]; intros sh Hreg Hz.
  - cbn. by rewrite Hz.
  - cbn. destruct (Hreg a) as [q Hq]; [by left|]. rewrite Hq.
    apply IH.
    + intros i Hi. destruct (decide (a = i)) as [->|Hne].
      * rewrite lookup_insert_eq. eauto.
      * rewrite lookup_insert_ne by done. apply Hreg. by right.
    + rewrite lookup_insert_ne; [done|]. intros ->. by rewrite Hz in Hq.
Qed.

Lemma send_each_missing ids : ∀ sh : gmap Z (list Payload),
  (∃ i, i ∈ ids ∧ sh !! i = None) →
  fst (send_each ids msg sh) = Throw NativeTypeError.
Proof.
  induction ids as [|a ids IH]; intros sh (i & Hi & Hnone).
  - by apply elem_of_nil in Hi.
  - cbn. destruct (sh !! a) as [q|] eqn:Hq; [|done].
    apply IH. exists i. apply elem_of_cons in Hi as [->|Hi].
    + by rewrite Hq in Hnone.
    + split; [done|]. rewrite lookup_insert_ne; [done|].
      intros ->. by rewrite Hq in Hnone.
Qed.

End DispatchFacts.

(** C2, as amended.  For a presence that parses to [packet]:
    - with no [shardID], every registered shard is sent the payload
      exactly once (and no handle appears or disappears);
    - with a list whose ids are all registered, each shard is sent the
      payload as often as it is listed, so exactly the listed ones get it;
    - with a single registered id, that shard alone is sent the payload,
      once; with a single unregistered id, the call raises (the runtime's
      [TypeError] on the missing handle) and nothing is sent;
    - with a list [pre ++ z :: post] whose first unregistered id is [z],
      the call raises at [z] after the shards of [pre] have been sent the
      payload, and nothing is sent for [z] and [post]. *)
Theorem set_dispatch (ActivityTypes : JsVal -> JsVal) (STATUS_UPDATE : Z)
    (p : ClientPresence.PresenceData) (w : ClientPresence.World)
    (packet : ClientPresence.Packet) :
  ClientPresence._parse ActivityTypes (ClientPresence.presence w) p = Return packet →
  let msg := {| ClientPresence.op := STATUS_UPDATE; ClientPresence.d := packet |} in
  let run := ClientPresence.set ActivityTypes STATUS_UPDATE p w in
  (ClientPresence.shardID p = ClientPresence.AllShards →
   fst run = Return tt
   ∧ ∀ i, ClientPresence.shards (snd run) !! i
          = (fun q => q ++ [msg]) <$> ClientPresence.shards w !! i)
  ∧ (∀ ids, ClientPresence.shardID p = ClientPresence.ShardList ids →
     (∀ i, i ∈ ids → is_Some (ClientPresence.shards w !! i)) →
     fst run = Return tt
     ∧ ∀ i, ClientPresence.shards (snd run) !! i
            = (fun q => q ++ replicate (listed ids i) msg) <$> ClientPresence.shards w !! i)
  ∧ (∀ z q, ClientPresence.shardID p = ClientPresence.ShardOne z →
     ClientPresence.shards w !! z = Some q →
     fst run = Return tt
     ∧ ClientPresence.shards (snd run) = <[z := q ++ [msg]]> (ClientPresence.shards w))
  ∧ (∀ z, ClientPresence.shardID p = ClientPresence.ShardOne z →
     ClientPresence.shards w !! z = None →
     fst run = Throw NativeTypeError
     ∧ ClientPresence.shards (snd run) = ClientPresence.shards w)
  ∧ (∀ pre z post,
     ClientPresence.shardID p = ClientPresence.ShardList (pre ++ z :: post) →
     (∀ i, i ∈ pre → is_Some (ClientPresence.shards w !! i)) →
     ClientPresence.shards w !! z = None →
     fst run = Throw NativeTypeError
     ∧ ∀ i, ClientPresence.shards (snd run) !! i
            = (fun q => q ++ replicate (listed pre i) msg) <$> ClientPresence.shards w !! i).
Proof.
  intros Hparse msg run. subst run. unfold ClientPresence.set. rewrite Hparse.
  split; [|split; [|split; [|split]]].
  - intros ->. cbn. split; [done|]. intros i.
    unfold ClientPresence.broadcast. by rewrite lookup_fmap.
  - intros ids -> Hreg.
    destruct (send_each_registered msg ids (ClientPresence.shards w) Hreg) as [Hr Hs].
    fold msg. destruct (ClientPresence.send_each ids msg _) as [r sh]. done.
  - intros z q -> Hz. cbn. by rewrite Hz.
  - intros z -> Hz. cbn. by rewrite Hz.
  - intros pre z post -> Hreg Hz. fold msg.
    rewrite (send_each_stops msg pre z post _ Hreg Hz).
    destruct (send_each_registered msg pre (ClientPresence.shards w) Hreg) as [_ Hs].
    done.
Qed.

(** C2, counterexample.  The list [0, 7] names shard 7, which has no
    handle: the call raises, but shard 0 has been sent the payload. *)
Lemma set_list_sends_before_raising :
  ClientPresence.shards one_shard !! 7 = None
  ∧ fst (set_here (ClientPresence.ShardList [0; 7])) = Throw NativeTypeError
  ∧ ClientPresence.shards (snd (set_here (ClientPresence.ShardList [0; 7]))) !! 0
    = Some [idle_update].
Proof. repeat split; reflexivity. Qed.

Lemma set_dispatch_witness :
  (fst (set_here ClientPresence.AllShards) = Return tt
   ∧ ClientPresence.shards (snd (set_here ClientPresence.AllShards)) !! 0
     = Some [idle_update])
  ∧ (fst (set_here (ClientPresence.ShardList ([0] ++ 7 :: [0]))) = Throw NativeTypeError
     ∧ ClientPresence.shards
         (snd (set_here (ClientPresence.ShardList ([0] ++ 7 :: [0])))) !! 0
       = Some [idle_update]).
Proof.
  split.
  - destruct (proj1 (set_dispatch (fun v => v) 3 (go_idle ClientPresence.AllShards)
                one_shard idle_packet eq_refl) eq_refl) as [Hr Hs].
    split; [exact Hr|exact (Hs 0)].
  - assert (Hreg : ∀ i, i ∈ [0] → is_Some (ClientPresence.shards one_shard !! i)).
    { intros i Hi. apply list_elem_of_singleton in Hi as ->. by exists []. }
    destruct (proj2 (proj2 (proj2 (proj2 (set_dispatch (fun v => v) 3
                (go_idle (ClientPresence.ShardList ([0] ++ 7 :: [0]))) one_shard
                idle_packet eq_refl)))) [0] 7 [0] eq_refl Hreg eq_refl) as [Hr Hs].
    split; [exact Hr|exact (Hs 0)].
Defined.

(** ** Stage instances *)

Section StageFacts.
Import CachedManager StageInstanceManager.
Variable resolveID : DataManager.Resolvable -> JsVal.
Variable PrivacyLevels : JsVal -> JsVal.
Variable holds : Holds JsObj.
Variable api : Request -> Completion JsObj.

(** An unresolvable channel: [create] raises and nothing is requested. *)
Lemma create_unresolved_channel o w :
  truthy (resolveID (channel o)) = false →
  create resolveID PrivacyLevels holds api (Object o) w
  = (Throw (DjsError "STAGE_CHANNEL_RESOLVE"), w).
Proof. intros H. unfold create. by rewrite H. Qed.

Lemma edit_unresolved_channel chan o w :
  truthy (resolveID chan) = false →
  edit resolveID PrivacyLevels holds api chan (Object o) w
  = (Throw (DjsError "STAGE_CHANNEL_RESOLVE"), w).
Proof. intros H. unfold edit. by rewrite H. Qed.

Lemma delete_unresolved_channel chan w :
  truthy (resolveID chan) = false →
  delete resolveID api chan w = (Throw (DjsError "STAGE_CHANNEL_RESOLVE"), w).
Proof. intros H. unfold delete. by rewrite H. Qed.

Lemma deref_clone_patched l data m :
  deref (patch_at holds (length (heap m)) data (snd (_clone l m))) (length (heap m))
  = _patch holds (deref m l) data.
Proof.
  unfold deref, patch_at, _clone, alloc. cbn.
  rewrite list_lookup_alter_eq, list_lookup_middle by done. done.
Qed.

Lemma deref_clone_original l data m :
  (l < length (heap m))%nat →
  deref (patch_at holds (length (heap m)) data (snd (_clone l m))) l = deref m l.
Proof.
  intros Hl. unfold deref, patch_at, _clone, alloc. cbn.
  rewrite list_lookup_alter_ne by lia. by rewrite lookup_app_l.
Qed.

End StageFacts.

(** C10. For an [edit] whose request is answered with [data]: when
    [data.id] is cached, the result is a fresh instance, different from
    the cached one, whose fields are the cached instance's patched with
    [data]; the cached instance keeps its fields and the cache is as it
    was.  When [data.id] is not cached, the result and the manager are
    those of [add(data)]. *)
Theorem edit_returns_patched_clone
    (resolveID : DataManager.Resolvable -> JsVal) (PrivacyLevels : JsVal -> JsVal)
    (holds : CachedManager.Holds JsObj) (api : Request -> Completion JsObj)
    (chan : DataManager.Resolvable)
    (o : StageInstanceManager.StageInstanceEditOptions)
    (w : StageInstanceManager.World) (data : JsObj) :
  CachedManager.wf (StageInstanceManager.mgr w) →
  truthy (resolveID chan) = true →
  api (StageInstanceManager.edit_request PrivacyLevels (resolveID chan) o) = Return data →
  let run := StageInstanceManager.edit resolveID PrivacyLevels holds api chan (Object o) w in
  let m := StageInstanceManager.mgr w in
  let m' := StageInstanceManager.mgr (snd run) in
  (∀ cached, CachedManager.cache m !! CachedManager.raw_id data = Some cached →
     fst run = Return (length (CachedManager.heap m))
     ∧ cached ≠ length (CachedManager.heap m)
     ∧ CachedManager.deref m' (length (CachedManager.heap m))
       = CachedManager._patch holds (CachedManager.deref m cached) data
     ∧ CachedManager.deref m' cached = CachedManager.deref m cached
     ∧ CachedManager.cache m' = CachedManager.cache m)
  ∧ (CachedManager.cache m !! CachedManager.raw_id data = None →
     fst run = Return (fst (StageInstanceManager.add holds data true m))
     ∧ m' = snd (StageInstanceManager.add holds data true m)).
Proof.
  intros Hwf Hres Hapi run m m'. subst run m'.
  unfold StageInstanceManager.edit. rewrite Hres. cbn [negb]. rewrite Hapi.
  cbn [StageInstanceManager.issue StageInstanceManager.mgr]. fold m.
  split.
  - intros cached Hc. rewrite Hc.
    assert (Hlt : (cached < length (CachedManager.heap m))%nat) by (by apply (Hwf _ _ Hc)).
    unfold StageInstanceManager._clone at 1. cbn.
    split; [done|]. split; [lia|]. split; [|split; [|done]].
    + apply (deref_clone_patched holds cached data m).
    + by apply (deref_clone_original holds cached data m).
  - intros Hc. rewrite Hc.
    destruct (StageInstanceManager.add holds data true m) as [l m1]. done.
Qed.

Lemma edit_returns_patched_clone_witness :
  fst edit_here = Return 1%nat
  ∧ 0%nat ≠ 1%nat
  ∧ CachedManager.deref (StageInstanceManager.mgr (snd edit_here)) 1
    = CachedManager._patch CachedManager.Entity stage_old stage_new
  ∧ CachedManager.deref (StageInstanceManager.mgr (snd edit_here)) 0 = stage_old
  ∧ CachedManager.cache (StageInstanceManager.mgr (snd edit_here))
    = {[ JStr "9" := 0%nat ]}.
Proof.
  refine (proj1 (edit_returns_patched_clone (DataManager.resolveId empty_manager)
            (fun v => v) CachedManager.Entity answers_new (DataManager.Prim (JStr "5"))
            new_topic stage_world stage_new _ _ _) 0%nat _).
  - apply map_Forall_singleton. cbn. lia.
  - reflexivity.
  - reflexivity.
  - reflexivity.
Defined.

(** ** Resolution before the network *)

Section RemoveFacts.
Import ReactionUserManager.
Variable resolveId : DataManager.Resolvable -> JsVal.
Variable client_user : option ClientUser.
Variable reaction : MessageReaction.
Variable api : Request -> Completion unit.

(** An unresolvable user: [remove] raises and nothing is requested. *)
Lemma remove_unresolved_user user sent :
  truthy (resolveId (effective_user client_user user)) = false →
  remove resolveId client_user reaction api user sent
  = (Throw (DjsError "REACTION_RESOLVE_USER"), sent).
Proof. intros H. unfold remove. by rewrite H. Qed.

End RemoveFacts.

Section InviteFacts.
Import CachedManager GuildInviteManager.
Variable resolveInviteCode : JsVal -> JsVal.
Variable resolveId : DataManager.Resolvable -> JsVal.
Variable holds : Holds JsObj.
Variable guild : JsVal.
Variable api : Request -> Completion (list JsObj).

Let fetch' := fetch resolveInviteCode resolveId holds guild api.

(** The string form checks the resolved code: when there is none, [fetch]
    rejects and nothing is requested. *)
Lemma fetch_string_unresolved s w :
  truthy (JStr s) = true →
  truthy (resolveInviteCode (JStr s)) = false →
  fetch' (Primitive (JStr s)) w = (Throw (DjsError "INVITE_RESOLVE_CODE"), w).
Proof.
  intros Hs Hc. unfold fetch', fetch. rewrite Hs. cbn [negb]. by rewrite Hc.
Qed.

(** [delete] sends whatever the resolver gave, resolved or not. *)
Lemma delete_sends_unchecked api_delete invite reason w :
  sent (snd (delete resolveInviteCode api_delete invite reason w))
  = sent w ++ [ {| method := "delete";
                   route := [JStr "invites"; resolveInviteCode invite];
                   params := [("reason", reason)] |} ].
Proof. unfold delete. by destruct (api_delete _). Qed.

Lemma listing_sent req cache_arg w :
  sent (snd (listing holds guild api req cache_arg w)) = sent w ++ [req].
Proof.
  unfold listing. destruct (api req) as [data|e]; [|done].
  cbn. destruct (fold_left _ _ _) as [col m]. done.
Qed.

Lemma _fetchSingle_miss_sent code_ cache_arg force_ w :
  cache (mgr w) !! code_ = None →
  sent (snd (_fetchSingle holds guild api code_ cache_arg force_ w))
  = sent w ++ [ {| method := "get"; route := [JStr "guilds"; guild; JStr "invites"];
                   params := [] |} ].
Proof.
  intros Hmiss. unfold _fetchSingle. rewrite Hmiss.
  assert (Hnone : (if truthy match force_ with JUndefined => JBool false | _ => force_ end
                   then None else @None nat) = None) by (by destruct (truthy _)).
  rewrite Hnone. unfold _fetchMany.
  pose proof (listing_sent {| method := "get";
                              route := [JStr "guilds"; guild; JStr "invites"];
                              params := [] |} cache_arg w) as Hs.
  destruct (listing _ _ _ _ _ _) as [[invites|e] w1]; cbn in *; [|done].
  by destruct (invites !! code_).
Qed.

End InviteFacts.

(** The options form of [fetch] hands the resolver's result to
    [_fetchSingle] without the check the string form makes: were the
    resolver to give nothing for the code passed, the listing request
    would be issued all the same (unless that value is a cached key). *)
Lemma fetch_code_option_unchecked
    (resolveInviteCode : JsVal -> JsVal)
    (resolveId : DataManager.Resolvable -> JsVal)
    (holds : CachedManager.Holds JsObj) (guild : JsVal)
    (api : Request -> Completion (list JsObj))
    (o : GuildInviteManager.FetchOptions) (w : GuildInviteManager.World) :
  truthy (GuildInviteManager.code o) = true →
  truthy (resolveInviteCode (GuildInviteManager.code o)) = false →
  CachedManager.cache (GuildInviteManager.mgr w)
    !! resolveInviteCode (GuildInviteManager.code o) = None →
  GuildInviteManager.sent
    (snd (GuildInviteManager.fetch resolveInviteCode resolveId holds guild api
            (Object o) w))
  = GuildInviteManager.sent w
    ++ [ {| method := "get"; route := [JStr "guilds"; guild; JStr "invites"];
            params := [] |} ].
Proof.
  intros Hcode Hres Hmiss. unfold GuildInviteManager.fetch.
  rewrite Hcode. cbn [negb].
  pose proof (_fetchSingle_miss_sent holds guild api
                (resolveInviteCode (GuildInviteManager.code o))
                (default JUndefined (GuildInviteManager.opt_cache o))
                (GuildInviteManager.force o) w Hmiss) as Hs.
  destruct (GuildInviteManager._fetchSingle _ _ _ _ _ _ _) as [[l|e] w1]; done.
Qed.

(** ** Failed resolution and local state *)

(** C3, as amended.  The manager calls raise before anything is requested
    or mutated when their identifier does not resolve: [create], [edit]
    and [delete] of a stage instance and [remove] of a reaction user leave
    the manager and the request log exactly as they were.  [set] does so
    only when [_parse] rejects the input.  When the input parses, the
    local presence is patched before anything is dispatched: if a named
    shard has no live handle, [set] raises with the local presence
    already holding the parsed packet. *)
Theorem failed_resolution_local_state
    (resolveID : DataManager.Resolvable -> JsVal) (PrivacyLevels : JsVal -> JsVal)
    (holds : CachedManager.Holds JsObj) (api : Request -> Completion JsObj)
    (resolveId : DataManager.Resolvable -> JsVal)
    (client_user : option ReactionUserManager.ClientUser)
    (reaction : ReactionUserManager.MessageReaction)
    (api_reaction : Request -> Completion unit)
    (ActivityTypes : JsVal -> JsVal) (STATUS_UPDATE : Z)
    (p : ClientPresence.PresenceData) (w : ClientPresence.World) :
  (∀ o sw, truthy (resolveID (StageInstanceManager.channel o)) = false →
     StageInstanceManager.create resolveID PrivacyLevels holds api (Object o) sw
     = (Throw (DjsError "STAGE_CHANNEL_RESOLVE"), sw))
  ∧ (∀ chan o sw, truthy (resolveID chan) = false →
     StageInstanceManager.edit resolveID PrivacyLevels holds api chan (Object o) sw
     = (Throw (DjsError "STAGE_CHANNEL_RESOLVE"), sw))
  ∧ (∀ chan sw, truthy (resolveID chan) = false →
     StageInstanceManager.delete resolveID api chan sw
     = (Throw (DjsError "STAGE_CHANNEL_RESOLVE"), sw))
  ∧ (∀ user sent,
     truthy (resolveId (ReactionUserManager.effective_user client_user user)) = false →
     ReactionUserManager.remove resolveId client_user reaction api_reaction user sent
     = (Throw (DjsError "REACTION_RESOLVE_USER"), sent))
  ∧ (∀ e, ClientPresence._parse ActivityTypes (ClientPresence.presence w) p = Throw e →
        ClientPresence.set ActivityTypes STATUS_UPDATE p w = (Throw e, w))
  ∧ (∀ packet,
       ClientPresence._parse ActivityTypes (ClientPresence.presence w) p = Return packet →
       (∃ i, i ∈ targets (ClientPresence.shardID p)
             ∧ ClientPresence.shards w !! i = None) →
       fst (ClientPresence.set ActivityTypes STATUS_UPDATE p w) = Throw NativeTypeError
       ∧ ClientPresence.presence (snd (ClientPresence.set ActivityTypes STATUS_UPDATE p w))
         = ClientPresence.patch (ClientPresence.presence w) packet).
Proof.
  split; [intros; by apply create_unresolved_channel|].
  split; [intros; by apply edit_unresolved_channel|].
  split; [intros; by apply delete_unresolved_channel|].
  split; [intros; by apply remove_unresolved_user|].
  split.
  - intros e He. unfold ClientPresence.set. by rewrite He.
  - intros packet Hparse Hmiss. unfold ClientPresence.set. rewrite Hparse.
    destruct (ClientPresence.shardID p) as [|ids|z]; cbn [targets] in Hmiss.
    + destruct Hmiss as (i & Hi & _). by apply elem_of_nil in Hi.
    + pose proof (send_each_missing
                    {| ClientPresence.op := STATUS_UPDATE; ClientPresence.d := packet |}
                    ids _ Hmiss) as H.
      destruct (ClientPresence.send_each ids _ _) as [r sh]. done.
    + pose proof (send_each_missing
                    {| ClientPresence.op := STATUS_UPDATE; ClientPresence.d := packet |}
                    [z] _ Hmiss) as H.
      destruct (ClientPresence.send_each [z] _ _) as [r sh]. done.
Qed.

(** C3, counterexample.  Shard 7 has no handle: the call raises, and the
    local presence, online before, is idle afterwards. *)
Lemma set_raises_after_patch :
  ClientPresence.shards one_shard !! 7 = None
  ∧ fst (set_here (ClientPresence.ShardOne 7)) = Throw NativeTypeError
  ∧ ClientPresence.status (ClientPresence.presence one_shard) = JStr "online"
  ∧ ClientPresence.status
      (ClientPresence.presence (snd (set_here (ClientPresence.ShardOne 7))))
    = JStr "idle".
Proof. repeat split; reflexivity. Qed.

Lemma failed_resolution_local_state_witness :
  StageInstanceManager.create (DataManager.resolveId empty_manager) (fun v => v)
    CachedManager.Entity answers_new (Object no_channel) stage_world
  = (Throw (DjsError "STAGE_CHANNEL_RESOLVE"), stage_world)
  ∧ ClientPresence.set (fun v => v) 3 nameless one_shard
    = (Throw (DjsTypeError "INVALID_TYPE" ["activities[0].name"; "string"]), one_shard)
  ∧ fst (set_here (ClientPresence.ShardOne 7)) = Throw NativeTypeError
  ∧ ClientPresence.presence (snd (set_here (ClientPresence.ShardOne 7)))
    = ClientPresence.patch online idle_packet.
Proof.
  pose proof (failed_resolution_local_state (DataManager.resolveId empty_manager)
                (fun v => v) CachedManager.Entity answers_new
                (DataManager.resolveId empty_manager) None thumbs_up (fun _ => Return tt)
                (fun v => v) 3 nameless one_shard) as (Hcreate & _ & _ & _ & Hparse & _).
  pose proof (failed_resolution_local_state (DataManager.resolveId empty_manager)
                (fun v => v) CachedManager.Entity answers_new
                (DataManager.resolveId empty_manager) None thumbs_up (fun _ => Return tt)
                (fun v => v) 3 (go_idle (ClientPresence.ShardOne 7)) one_shard)
    as (_ & _ & _ & _ & _ & Hmiss).
  split; [exact (Hcreate no_channel stage_world eq_refl)|].
  split; [exact (Hparse _ eq_refl)|].
  apply (Hmiss idle_packet eq_refl).
  exists 7. split; [|reflexivity]. cbn. by left.
Defined.

(** * Further properties *)

(** ** The cached manager *)

Section AddMore.
Import CachedManager.
Context {Data : Type}.
Variable data_id : Data -> JsVal.
Variable holds : Holds Data.

Lemma _add_caches_key data id extras m :
  nullish id = false ∨ prop (construct holds data extras) "id" = data_id data →
  cache (snd (_add data_id holds data true id extras m)) !! coalesce id (data_id data)
  = Some (fst (_add data_id holds data true id extras m)).
Proof.
  intros Hkey.
  destruct (cache m !! coalesce id (data_id data)) as [l|] eqn:Hl.
  - by rewrite (_add_existing _ _ _ _ _ _ l Hl).
  - rewrite _add_fresh by done. cbn.
    replace (coalesce id (prop (construct holds data extras) "id"))
      with (coalesce id (data_id data)).
    + by rewrite lookup_insert_eq.
    + destruct Hkey as [Hid| ->]; [|done]. unfold coalesce. by rewrite Hid.
Qed.

End AddMore.

(** X1. Insert then look up: after a caching add, the cache holds the
    returned instance under the key the add looked up, provided the key
    is given explicitly or the constructor keeps the payload's id. *)
Theorem add_then_lookup {Data : Type} (data_id : Data -> JsVal)
    (holds : CachedManager.Holds Data) (data : Data) (id : JsVal)
    (extras : list JsVal) (m : CachedManager.Mgr) :
  nullish id = false
  ∨ prop (CachedManager.construct holds data extras) "id" = data_id data →
  CachedManager.cache (snd (CachedManager._add data_id holds data true id extras m))
    !! coalesce id (data_id data)
  = Some (fst (CachedManager._add data_id holds data true id extras m)).
Proof. by apply _add_caches_key. Qed.

Lemma add_then_lookup_witness :
  CachedManager.cache (snd (add_cached payload_a empty_manager)) !! JStr "1"
  = Some 0%nat.
Proof.
  apply (add_then_lookup CachedManager.raw_id CachedManager.Entity payload_a
           JUndefined [] empty_manager).
  right. reflexivity.
Defined.

(** ** The thread manager *)

(** X5. The first instance wins: once a thread has gone through [_add],
    adding any instance with the same id, that thread again included,
    returns the instance the first call returned and changes nothing. *)
Theorem ThreadManager_add_first_wins (thread again : nat) (m : CachedManager.Mgr) :
  prop (CachedManager.deref m again) "id" = prop (CachedManager.deref m thread) "id" →
  ThreadManager._add again (snd (ThreadManager._add thread m))
  = (fst (ThreadManager._add thread m), snd (ThreadManager._add thread m)).
Proof.
  intros Hid.
  assert (Hfirst : ThreadManager._add thread m
                   = match CachedManager.cache m !! prop (CachedManager.deref m thread) "id" with
                     | Some existing => (existing, m)
                     | None => (thread, CachedManager.cache_set
                                          (prop (CachedManager.deref m thread) "id") thread m)
                     end) by done.
  rewrite Hfirst.
  destruct (CachedManager.cache m !! prop (CachedManager.deref m thread) "id")
    as [l|] eqn:Hl; cbn [fst snd].
  - unfold ThreadManager._add. by rewrite Hid, Hl.
  - unfold ThreadManager._add.
    change (CachedManager.deref (CachedManager.cache_set _ thread m) again)
      with (CachedManager.deref m again).
    rewrite Hid. cbn. by rewrite lookup_insert_eq.
Qed.

Lemma ThreadManager_add_first_wins_witness :
  ThreadManager._add 1 (snd (ThreadManager._add 0 two_threads))
  = (0%nat, snd (ThreadManager._add 0 two_threads)).
Proof. apply (ThreadManager_add_first_wins 0 1 two_threads). reflexivity. Defined.

Section FetchMore.
Import ThreadManager.
Variable Date_getTime : JsVal -> JsVal.
Variable Date_toISOString : JsVal -> option string.
Variable resolveId : CachedManager.Mgr -> DataManager.Resolvable -> JsVal.
Variable resolve : CachedManager.Mgr -> DataManager.Resolvable -> option nat.
Variable api : Request -> Completion RawThreads.

Lemma archived_request_timestamp this options id timestamp :
  own_private options = false →
  params (archived_request this options id timestamp)
  = [("before", timestamp); ("limit", limit options)].
Proof. intros H. unfold archived_request. by rewrite H. Qed.

Lemma cursors_given (b : Before) :
  b ≠ BVal JUndefined →
  ∀ X (x y : X), match b with BVal JUndefined => x | _ => y end = y.
Proof. intros Hb X x y. destruct b as [| |[]]; done. Qed.

End FetchMore.

(** A failed listing changes nothing locally: when the transport
    fails, [fetchArchived] and [fetchActive] raise the transport's error
    as it is and leave the client, channel cache included, untouched. *)
Theorem fetch_threads_transport_failure
    (Date_getTime : JsVal -> JsVal) (Date_toISOString : JsVal -> option string)
    (resolveId : CachedManager.Mgr -> DataManager.Resolvable -> JsVal)
    (resolve : CachedManager.Mgr -> DataManager.Resolvable -> option nat)
    (api : Request -> Completion ThreadManager.RawThreads)
    (this : ThreadManager.Manager) (options : ThreadManager.FetchArchivedThreadOptions)
    (flag : bool) (w : ThreadManager.World) (e : JsError) :
  (∀ req, api req = Throw e) →
  (is_throw (ThreadManager.cursors Date_toISOString resolveId resolve this
               (ThreadManager.before options) w) = false →
   fst (ThreadManager.fetchArchived Date_getTime Date_toISOString resolveId resolve api
          this options flag w) = Throw e
   ∧ ThreadManager.client
       (snd (ThreadManager.fetchArchived Date_getTime Date_toISOString resolveId resolve
               api this options flag w)) = ThreadManager.client w)
  ∧ fst (ThreadManager.fetchActive Date_getTime api this flag w) = Throw e
  ∧ ThreadManager.client (snd (ThreadManager.fetchActive Date_getTime api this flag w))
    = ThreadManager.client w.
Proof.
  intros Hapi. split.
  - unfold ThreadManager.fetchArchived.
    destruct (ThreadManager.cursors _ _ _ _ _ _) as [[id ts]|e']; [|done].
    intros _. by rewrite Hapi.
  - unfold ThreadManager.fetchActive. by rewrite Hapi.
Qed.

(** X6. One page, one request: [fetchArchived] either raises from its
    cursor block with nothing requested and nothing changed, or issues
    exactly one request; [fetchActive] always issues exactly one, for the
    guild's active threads. *)
Theorem fetch_threads_one_request
    (Date_getTime : JsVal -> JsVal) (Date_toISOString : JsVal -> option string)
    (resolveId : CachedManager.Mgr -> DataManager.Resolvable -> JsVal)
    (resolve : CachedManager.Mgr -> DataManager.Resolvable -> option nat)
    (api : Request -> Completion ThreadManager.RawThreads)
    (this : ThreadManager.Manager) (options : ThreadManager.FetchArchivedThreadOptions)
    (flag : bool) (w : ThreadManager.World) :
  ((∃ e, ThreadManager.fetchArchived Date_getTime Date_toISOString resolveId resolve api
           this options flag w = (Throw e, w))
   ∨ (∃ req, ThreadManager.sent
               (snd (ThreadManager.fetchArchived Date_getTime Date_toISOString resolveId
                       resolve api this options flag w))
             = ThreadManager.sent w ++ [req]))
  ∧ ThreadManager.sent (snd (ThreadManager.fetchActive Date_getTime api this flag w))
    = ThreadManager.sent w
      ++ [ {| method := "get";
              route := [JStr "guilds"; ThreadManager.chan_guild (ThreadManager.channel this);
                        JStr "threads"; JStr "active"];
              params := [] |} ].
Proof.
  split.
  - destruct (ThreadManager.cursors Date_toISOString resolveId resolve this
                (ThreadManager.before options) w) as [[id ts]|e] eqn:Hc.
    + right. eexists.
      apply (fetchArchived_issues Date_getTime Date_toISOString resolveId resolve api
               this options flag w id ts Hc).
    + left. exists e. unfold ThreadManager.fetchArchived. by rewrite Hc.
  - unfold ThreadManager.fetchActive.
    destruct (api _) as [raw|e]; [|done].
    cbn. destruct (ThreadManager._mapThreads _ _ _ _ _ _) as [r c]. done.
Qed.

(** X7. Outside the private, own-threads mode the cursor sent is the
    timestamp.  A given [before] that is a valid date is sent as its ISO
    string; a snowflake-shaped [before] that resolves to no cached thread
    has no timestamp to give, and the request goes out with an
    [undefined] cursor. *)
Theorem fetchArchived_public_cursor
    (Date_getTime : JsVal -> JsVal) (Date_toISOString : JsVal -> option string)
    (resolveId : CachedManager.Mgr -> DataManager.Resolvable -> JsVal)
    (resolve : CachedManager.Mgr -> DataManager.Resolvable -> option nat)
    (api : Request -> Completion ThreadManager.RawThreads)
    (this : ThreadManager.Manager) (options : ThreadManager.FetchArchivedThreadOptions)
    (flag : bool) (w : ThreadManager.World) :
  ThreadManager.own_private options = false →
  ThreadManager.before options ≠ ThreadManager.BVal JUndefined →
  let run := ThreadManager.fetchArchived Date_getTime Date_toISOString resolveId
               resolve api this options flag w in
  (ThreadManager.identity_cursor (ThreadManager.before options) = false →
   ∀ iso,
   Date_toISOString (ThreadManager.date_of (ThreadManager.before options)) = Some iso →
   ∃ req, ThreadManager.sent (snd run) = ThreadManager.sent w ++ [req]
          ∧ params req = [("before", JStr iso); ("limit", ThreadManager.limit options)])
  ∧ (ThreadManager.identity_cursor (ThreadManager.before options) = true →
     resolve (ThreadManager.view this w)
             (ThreadManager.as_resolvable (ThreadManager.before options)) = None →
     ∃ req, ThreadManager.sent (snd run) = ThreadManager.sent w ++ [req]
            ∧ params req = [("before", JUndefined);
                            ("limit", ThreadManager.limit options)]).
Proof.
  intros Hpub Hgiven run. subst run. split.
  - intros Hid iso Hdate. eexists. split.
    + apply fetchArchived_issues. unfold ThreadManager.cursors.
      by rewrite (cursors_given _ Hgiven), Hid, Hdate.
    + by apply archived_request_timestamp.
  - intros Hid Hres. eexists. split.
    + apply fetchArchived_issues. unfold ThreadManager.cursors.
      by rewrite (cursors_given _ Hgiven), Hid, Hres.
    + by apply archived_request_timestamp.
Qed.

Lemma fetch_threads_transport_failure_witness :
  fst (ThreadManager.fetchArchived (fun _ => JNaN) iso_day DataManager.resolveId
         DataManager.resolve unreachable text_channel_threads
         (public_before (ThreadManager.BVal JUndefined)) true quiet_world)
  = Throw (RemoteFetchError 503)
  ∧ ThreadManager.client
      (snd (ThreadManager.fetchArchived (fun _ => JNaN) iso_day DataManager.resolveId
              DataManager.resolve unreachable text_channel_threads
              (public_before (ThreadManager.BVal JUndefined)) true quiet_world))
    = empty_client.
Proof.
  apply (fetch_threads_transport_failure (fun _ => JNaN) iso_day DataManager.resolveId
           DataManager.resolve unreachable text_channel_threads
           (public_before (ThreadManager.BVal JUndefined)) true quiet_world
           (RemoteFetchError 503)); reflexivity.
Defined.

Lemma fetchArchived_public_cursor_witness :
  (∃ req, ThreadManager.sent
            (snd (fetchArchived_public (ThreadManager.BVal (JStr "2021-06-01"))))
          = [] ++ [req]
          ∧ params req = [("before", JStr "2021-06-01T00:00:00.000Z");
                          ("limit", JUndefined)])
  ∧ (∃ req, ThreadManager.sent
              (snd (fetchArchived_public (ThreadManager.BVal (JStr "1234567890123456"))))
            = [] ++ [req]
            ∧ params req = [("before", JUndefined); ("limit", JUndefined)]).
Proof.
  split.
  - refine (proj1 (fetchArchived_public_cursor (fun _ => JNaN) iso_day
              DataManager.resolveId DataManager.resolve empty_page text_channel_threads
              (public_before (ThreadManager.BVal (JStr "2021-06-01"))) true quiet_world
              _ _) _ _ _); [reflexivity|discriminate|reflexivity|reflexivity].
  - refine (proj2 (fetchArchived_public_cursor (fun _ => JNaN) iso_day
              DataManager.resolveId DataManager.resolve empty_page text_channel_threads
              (public_before (ThreadManager.BVal (JStr "1234567890123456"))) true
              quiet_world _ _) _ _); [reflexivity|discriminate|reflexivity|reflexivity].
Defined.

(** X8. [create] validates before it posts: a [type] that is neither a
    string nor a number, and a [startMessage] that does not resolve, both
    raise the INVALID_TYPE [TypeError] with nothing requested and nothing
    changed. *)
Theorem ThreadManager_create_validates
    (ChannelTypes : JsVal -> JsVal) (channel_type : JsVal) (features : list string)
    (resolveMessageId : DataManager.Resolvable -> JsVal)
    (api_post : Request -> Completion ThreadChannel.APIChannel)
    (handle : ThreadChannel.APIChannel -> ThreadManager.Client
              -> option nat * ThreadManager.Client)
    (this : ThreadManager.Manager) (o : ThreadManager.ThreadCreateOptions)
    (w : ThreadManager.World) :
  let run := ThreadManager.create ChannelTypes channel_type features resolveMessageId
               api_post handle this o w in
  (ThreadManager.bad_type (ThreadManager.create_type o) = true →
   run = (Throw (DjsTypeError "INVALID_TYPE" ["type"; "ThreadChannelType or Number"]), w))
  ∧ (ThreadManager.bad_type (ThreadManager.create_type o) = false →
     ThreadManager.provided (ThreadManager.startMessage o) = true →
     truthy (resolveMessageId (ThreadManager.startMessage o)) = false →
     run = (Throw (DjsTypeError "INVALID_TYPE" ["startMessage"; "MessageResolvable"]), w)).
Proof.
  intros run. subst run. unfold ThreadManager.create, ThreadManager.create_request.
  split.
  - intros ->. done.
  - intros -> -> ->. done.
Qed.

(** X9. The [type] option is ignored in a news channel and when a start
    message is given: the request then asks for the channel's default
    type (the news-thread type in a news channel), whatever valid [type]
    was passed. *)
Theorem ThreadManager_create_type_ignored
    (ChannelTypes : JsVal -> JsVal) (channel_type : JsVal) (features : list string)
    (resolveMessageId : DataManager.Resolvable -> JsVal)
    (this : ThreadManager.Manager) (o : ThreadManager.ThreadCreateOptions)
    (req : Request) :
  ThreadManager.create_request ChannelTypes channel_type features resolveMessageId this o
  = Return req →
  channel_type = JStr "GUILD_NEWS"
  ∨ ThreadManager.provided (ThreadManager.startMessage o) = true →
  params req !! 2%nat
  = Some ("type", ThreadManager.channel_default ChannelTypes channel_type)
  ∧ (channel_type = JStr "GUILD_NEWS" →
     params req !! 2%nat = Some ("type", ChannelTypes (JStr "GUILD_NEWS_THREAD"))).
Proof.
  intros Hreq Hcase. unfold ThreadManager.create_request in Hreq.
  destruct (ThreadManager.bad_type _); [done|].
  assert (Hnews : channel_type = JStr "GUILD_NEWS" →
                  ThreadManager.channel_default ChannelTypes channel_type
                  = ChannelTypes (JStr "GUILD_NEWS_THREAD")).
  { intros ->. reflexivity. }
  destruct (ThreadManager.provided (ThreadManager.startMessage o)) eqn:Hstart.
  - destruct (truthy (resolveMessageId _)); cbn in Hreq; [|done].
    injection Hreq as <-. cbn. split; [done|]. intros Hn. by rewrite <- Hnews.
  - destruct Hcase as [Hn|?]; [|done].
    rewrite Hn in Hreq. cbn in Hreq. injection Hreq as <-. cbn.
    rewrite Hn. split; [done|]. intros _. reflexivity.
Qed.

(** X10. ['MAX'] is never sent as such: the request carries 10080 when
    the guild has the seven-day feature (with or without the three-day
    one), otherwise 4320 with the three-day feature, otherwise 1440. *)
Theorem ThreadManager_create_max_duration
    (ChannelTypes : JsVal -> JsVal) (channel_type : JsVal) (features : list string)
    (resolveMessageId : DataManager.Resolvable -> JsVal)
    (this : ThreadManager.Manager) (o : ThreadManager.ThreadCreateOptions)
    (req : Request) :
  ThreadManager.create_request ChannelTypes channel_type features resolveMessageId this o
  = Return req →
  ThreadManager.autoArchiveDuration o = JStr "MAX" →
  ∃ minutes, params req !! 1%nat = Some ("auto_archive_duration", JNum minutes)
    ∧ ("SEVEN_DAY_THREAD_ARCHIVE" ∈ features → minutes = 10080)
    ∧ ("SEVEN_DAY_THREAD_ARCHIVE" ∉ features →
       "THREE_DAY_THREAD_ARCHIVE" ∈ features → minutes = 4320)
    ∧ ("SEVEN_DAY_THREAD_ARCHIVE" ∉ features →
       "THREE_DAY_THREAD_ARCHIVE" ∉ features → minutes = 1440).
Proof.
  intros Hreq Hmax. unfold ThreadManager.create_request in Hreq.
  destruct (ThreadManager.bad_type _); [done|].
  match type of Hreq with
  | match ?t with _ => _ end = _ => destruct t as [[path ty]|e]; [|done]
  end.
  injection Hreq as <-. cbn [params lookup list_lookup]. rewrite Hmax.
  change (strict_eq (JStr "MAX") (JStr "MAX")) with true. cbn.
  unfold ThreadManager.max_duration.
  repeat case_bool_decide; eexists; (split; [reflexivity|]); repeat split; intros; done.
Qed.

Lemma ThreadManager_create_validates_witness :
  create_here (new_thread (JBool true) (DataManager.Prim JUndefined))
  = (Throw (DjsTypeError "INVALID_TYPE" ["type"; "ThreadChannelType or Number"]),
     quiet_world)
  ∧ create_here (new_thread JUndefined (DataManager.Prim (JNum 5)))
    = (Throw (DjsTypeError "INVALID_TYPE" ["startMessage"; "MessageResolvable"]),
       quiet_world).
Proof.
  split.
  - apply (proj1 (ThreadManager_create_validates channel_types (JStr "GUILD_TEXT")
                    both_features (DataManager.resolveId empty_manager)
                    (fun _ => Throw (RemoteFetchError 503)) (fun _ c => (None, c))
                    text_channel_threads
                    (new_thread (JBool true) (DataManager.Prim JUndefined)) quiet_world)).
    reflexivity.
  - apply (proj2 (ThreadManager_create_validates channel_types (JStr "GUILD_TEXT")
                    both_features (DataManager.resolveId empty_manager)
                    (fun _ => Throw (RemoteFetchError 503)) (fun _ c => (None, c))
                    text_channel_threads
                    (new_thread JUndefined (DataManager.Prim (JNum 5))) quiet_world));
      reflexivity.
Defined.

Lemma ThreadManager_create_type_ignored_witness :
  params news_request !! 2%nat = Some ("type", JNum 10).
Proof.
  refine (proj2 (ThreadManager_create_type_ignored channel_types (JStr "GUILD_NEWS")
            both_features (DataManager.resolveId empty_manager) text_channel_threads
            (new_thread (JStr "GUILD_PRIVATE_THREAD") (DataManager.Prim JUndefined))
            news_request _ _) _).
  - reflexivity.
  - left. reflexivity.
  - reflexivity.
Defined.

Lemma ThreadManager_create_max_duration_witness :
  params news_request !! 1%nat = Some ("auto_archive_duration", JNum 10080).
Proof.
  destruct (ThreadManager_create_max_duration channel_types (JStr "GUILD_NEWS")
              both_features (DataManager.resolveId empty_manager) text_channel_threads
              (new_thread (JStr "GUILD_PRIVATE_THREAD") (DataManager.Prim JUndefined))
              news_request eq_refl eq_refl) as (minutes & Hsent & Hseven & _).
  rewrite Hsent. rewrite Hseven; [reflexivity|].
  unfold both_features. right. left.
Defined.

(** ** Thread channels *)

Lemma archived_not_sendable (permissions : option ThreadChannel.Permissions) (o : JsObj) :
  truthy (prop o "archived") = true →
  truthy (ThreadChannel.sendable permissions o) = false.
Proof.
  intros Ha. unfold ThreadChannel.sendable, ThreadChannel.and_then, ThreadChannel.not_.
  cbn. by rewrite Ha.
Qed.

(** X11. An archived thread is neither sendable nor joinable, whatever
    the permissions. *)
Theorem archived_thread_is_closed (permissions : option ThreadChannel.Permissions)
    (o : JsObj) :
  truthy (prop o "archived") = true →
  truthy (ThreadChannel.sendable permissions o) = false
  ∧ truthy (ThreadChannel.joinable permissions o) = false.
Proof.
  intros Ha. split; [by apply archived_not_sendable|].
  unfold ThreadChannel.joinable, ThreadChannel.and_then, ThreadChannel.not_.
  cbn. by rewrite Ha.
Qed.

Lemma archived_thread_is_closed_witness :
  truthy (ThreadChannel.sendable (Some moderator) archived_unlocked) = false
  ∧ truthy (ThreadChannel.joinable (Some moderator) archived_unlocked) = false.
Proof. apply archived_thread_is_closed. reflexivity. Defined.

(** X12. [unarchivable] holds only for a thread that is archived, locked
    and manageable: for an archived thread that is not locked the getter
    falls back on [sendable], which an archived thread never is, so an
    unlocked thread is never reported unarchivable. *)
Theorem unarchivable_only_locked (permissions : option ThreadChannel.Permissions)
    (o : JsObj) :
  truthy (ThreadChannel.unarchivable permissions o) = true →
  truthy (prop o "archived") = true
  ∧ truthy (prop o "locked") = true
  ∧ ∃ p, permissions = Some p
         ∧ ThreadChannel.has p ThreadChannel.MANAGE_THREADS = true.
Proof.
  unfold ThreadChannel.unarchivable, ThreadChannel.and_then.
  destruct (truthy (prop o "archived")) eqn:Ha; [|by rewrite Ha].
  destruct (truthy (prop o "locked")) eqn:Hl.
  - unfold ThreadChannel.manageable. destruct permissions as [p|]; [|done].
    cbn. intros Hm. eauto.
  - intros Hs. by rewrite (archived_not_sendable permissions o Ha) in Hs.
Qed.

Lemma unarchivable_only_locked_witness :
  truthy (prop archived_locked "archived") = true
  ∧ truthy (prop archived_locked "locked") = true
  ∧ ∃ p, Some moderator = Some p
         ∧ ThreadChannel.has p ThreadChannel.MANAGE_THREADS = true.
Proof. apply unarchivable_only_locked. reflexivity. Defined.

(** ** The client presence *)

Section ParseFacts.
Import ClientPresence.
Variable ActivityTypes : JsVal -> JsVal.

Lemma parse_activities_parsed acts : ∀ i out,
  parse_activities ActivityTypes i acts = Return out →
  Forall2 parsed acts out.
Proof.
  induction acts as [|a acts IH]; intros i out; cbn.
  - intros [= <-]. constructor.
  - destruct (name a) eqn:Hname; try done.
    destruct (parse_activities ActivityTypes (S i) acts) as [l|e] eqn:Hrest; [|done].
    intros [= <-]. constructor; [|by eapply IH].
    repeat split; cbn; try done.
    + intros Hf. by rewrite Hf.
    + intros n Hn Hnz. rewrite Hn. cbn.
      destruct (Z.eqb_spec n 0); [done|]. done.
Qed.

Lemma parse_activities_first_bad pre bad post : ∀ i,
  Forall (fun a => ∃ s, name a = JStr s) pre →
  (∀ s, name bad ≠ JStr s) →
  parse_activities ActivityTypes i (pre ++ bad :: post)
  = Throw (DjsTypeError "INVALID_TYPE"
             ["activities[" +:+ pretty (i + length pre)%nat +:+ "].name"; "string"]).
Proof.
  induction pre as [|a pre IH]; intros i Hpre Hbad; cbn.
  - rewrite Nat.add_0_r. destruct (name bad) eqn:Hn; try done. by destruct (Hbad s).
  - apply Forall_cons in Hpre as [[s Hs] Hpre]. rewrite Hs.
    rewrite (IH (S i) Hpre Hbad). by rewrite Nat.add_succ_r.
Qed.

End ParseFacts.

(** X13. [_parse] sanitises: whatever is passed, the packet's [afk] is a
    boolean ([true] only for the boolean [true]), its [since] a number or
    [null], and its status the given one or, when that is falsy, the
    current one. *)
Theorem _parse_sanitises (ActivityTypes : JsVal -> JsVal)
    (this : ClientPresence.Presence) (p : ClientPresence.PresenceData)
    (packet : ClientPresence.Packet) :
  ClientPresence._parse ActivityTypes this p = Return packet →
  ClientPresence.d_afk packet
  = JBool (bool_decide (ClientPresence.data_afk p = JBool true))
  ∧ (ClientPresence.d_since packet = JNull
     ∨ ∃ n, ClientPresence.data_since p = JNum n ∧ ClientPresence.d_since packet = JNum n)
  ∧ ClientPresence.d_status packet
    = (if truthy (ClientPresence.data_status p) then ClientPresence.data_status p
       else ClientPresence.status this).
Proof.
  unfold ClientPresence._parse. intros H.
  assert (Hshape : ∃ acts, packet =
            {| ClientPresence.d_activities := acts;
               ClientPresence.d_afk :=
                 match ClientPresence.data_afk p with JBool b => JBool b | _ => JBool false end;
               ClientPresence.d_since :=
                 match ClientPresence.data_since p with JNum n => JNum n | _ => JNull end;
               ClientPresence.d_status :=
                 or_else (ClientPresence.data_status p) (ClientPresence.status this) |}).
  { destruct (ClientPresence.data_activities p) as [[|a l]|].
    - injection H as <-. eauto.
    - destruct (ClientPresence.parse_activities _ _ _); [|done]. injection H as <-. eauto.
    - destruct (_ && _); injection H as <-; eauto. }
  destruct Hshape as [acts ->]. cbn. split; [|split].
  - by destruct (ClientPresence.data_afk p) as [| |[]| | |].
  - destruct (ClientPresence.data_since p); eauto.
  - done.
Qed.

(** X14. Every activity comes through [_parse] in place: the packet has
    as many activities as were given, each with the name and url given, a
    numeric type kept as it is and a missing type turned into 0. *)
Theorem _parse_keeps_activities (ActivityTypes : JsVal -> JsVal)
    (this : ClientPresence.Presence) (p : ClientPresence.PresenceData)
    (acts : list ClientPresence.Activity) (packet : ClientPresence.Packet) :
  ClientPresence.data_activities p = Some acts →
  ClientPresence._parse ActivityTypes this p = Return packet →
  Forall2 parsed acts (ClientPresence.d_activities packet).
Proof.
  unfold ClientPresence._parse. intros -> H. destruct acts as [|a l].
  - injection H as <-. constructor.
  - destruct (ClientPresence.parse_activities ActivityTypes 0 (a :: l)) as [out|e] eqn:Hp;
      [|done].
    injection H as <-. cbn. by eapply parse_activities_parsed.
Qed.

(** X15. An activity whose name is not a string makes [_parse] raise the
    INVALID_TYPE [TypeError], and the error names the position of the
    first such activity. *)
Theorem _parse_first_bad_activity (ActivityTypes : JsVal -> JsVal)
    (this : ClientPresence.Presence) (p : ClientPresence.PresenceData)
    (pre post : list ClientPresence.Activity) (bad : ClientPresence.Activity) :
  ClientPresence.data_activities p = Some (pre ++ bad :: post) →
  Forall (fun a => ∃ s, ClientPresence.name a = JStr s) pre →
  (∀ s, ClientPresence.name bad ≠ JStr s) →
  ClientPresence._parse ActivityTypes this p
  = Throw (DjsTypeError "INVALID_TYPE"
             ["activities[" +:+ pretty (length pre) +:+ "].name"; "string"]).
Proof.
  intros Hacts Hpre Hbad. unfold ClientPresence._parse. rewrite Hacts.
  pose proof (parse_activities_first_bad ActivityTypes pre bad post 0%nat Hpre Hbad) as H.
  destruct (pre ++ bad :: post) as [|a l] eqn:Hl; [by destruct pre|].
  by rewrite H.
Qed.

(** X16. With [activities] left out, the current activities are carried
    over exactly when one of [status], [afk], [since] is truthy;
    otherwise (for instance for [{ afk: false }] alone) the packet has no
    activities. *)
Theorem _parse_carries_activities (ActivityTypes : JsVal -> JsVal)
    (this : ClientPresence.Presence) (p : ClientPresence.PresenceData) :
  ClientPresence.data_activities p = None →
  ∃ packet, ClientPresence._parse ActivityTypes this p = Return packet
    ∧ (truthy (ClientPresence.data_status p) || truthy (ClientPresence.data_afk p)
       || truthy (ClientPresence.data_since p) = true →
       map ClientPresence.name (ClientPresence.d_activities packet)
       = map ClientPresence.name (ClientPresence.activities this))
    ∧ (truthy (ClientPresence.data_status p) || truthy (ClientPresence.data_afk p)
       || truthy (ClientPresence.data_since p) = false →
       ClientPresence.d_activities packet = []).
Proof.
  intros Hnone. unfold ClientPresence._parse. rewrite Hnone.
  destruct (truthy (ClientPresence.data_status p) || truthy (ClientPresence.data_afk p)
            || truthy (ClientPresence.data_since p)) eqn:Hc; cbn [andb].
  - destruct (ClientPresence.activities this) as [|a l] eqn:Hl.
    + cbn. eexists. split; [done|]. by split.
    + cbn [length Nat.eqb negb]. eexists. split; [done|]. cbn. split; [|done].
      intros _. f_equal. by rewrite map_map.
  - eexists. split; [done|]. by split.
Qed.

Lemma _parse_sanitises_witness :
  ClientPresence.d_afk idle_packet = JBool (bool_decide (JUndefined = JBool true))
  ∧ (ClientPresence.d_since idle_packet = JNull
     ∨ ∃ n, JUndefined = JNum n ∧ ClientPresence.d_since idle_packet = JNum n)
  ∧ ClientPresence.d_status idle_packet = JStr "idle".
Proof.
  apply (_parse_sanitises (fun v => v) online (go_idle ClientPresence.AllShards)
           idle_packet).
  reflexivity.
Defined.

Lemma _parse_keeps_activities_witness :
  Forall2 parsed [chess; go_game] [chess_parsed; go_game].
Proof.
  apply (_parse_keeps_activities (fun v => v) online (playing [chess; go_game])
           [chess; go_game]
           {| ClientPresence.d_activities := [chess_parsed; go_game];
              ClientPresence.d_afk := JBool false;
              ClientPresence.d_since := JNull;
              ClientPresence.d_status := JStr "online" |}); reflexivity.
Defined.

Lemma _parse_first_bad_activity_witness :
  ClientPresence._parse (fun v => v) online (playing [chess; untitled; go_game])
  = Throw (DjsTypeError "INVALID_TYPE" ["activities[1].name"; "string"]).
Proof.
  apply (_parse_first_bad_activity (fun v => v) online
           (playing [chess; untitled; go_game]) [chess] [go_game] untitled).
  - reflexivity.
  - apply Forall_singleton. by exists "chess".
  - intros s. discriminate.
Defined.

Lemma _parse_carries_activities_witness :
  ∃ packet,
    ClientPresence._parse (fun v => v) at_the_board (just_afk (JBool false)) = Return packet
    ∧ ClientPresence.d_activities packet = [].
Proof.
  destruct (_parse_carries_activities (fun v => v) at_the_board (just_afk (JBool false))
              eq_refl) as (packet & Hp & _ & Hdrop).
  exists packet. split; [exact Hp|]. apply Hdrop. reflexivity.
Defined.

Section SendFacts.
Import ClientPresence.
Variable msg : Payload.

Lemma send_each_frame ids : ∀ (sh : gmap Z (list Payload)) i,
  i ∉ ids → snd (send_each ids msg sh) !! i = sh !! i.
Proof.
  induction ids as [|a ids IH]; intros sh i Hi; [done|]. cbn.
  apply not_elem_of_cons in Hi as [Hne Hi].
  destruct (sh !! a) as [q|] eqn:Hq; [|done].
  rewrite IH by done. by rewrite lookup_insert_ne.
Qed.

Lemma send_each_handles ids : ∀ (sh : gmap Z (list Payload)) i,
  is_Some (snd (send_each ids msg sh) !! i) ↔ is_Some (sh !! i).
Proof.
  induction ids as [|a ids IH]; intros sh i; [done|]. cbn.
  destruct (sh !! a) as [q|] eqn:Hq; [|done].
  rewrite IH. destruct (decide (a = i)) as [->|Hne].
  - rewrite lookup_insert_eq, Hq. split; eauto.
  - by rewrite lookup_insert_ne.
Qed.

End SendFacts.

(** X17. A presence for named shards leaves the rest alone: whether the
    call succeeds or raises, no shard handle appears or disappears, and
    every shard that is not named has exactly what it had been sent
    before. *)
Theorem set_leaves_other_shards (ActivityTypes : JsVal -> JsVal) (STATUS_UPDATE : Z)
    (p : ClientPresence.PresenceData) (w : ClientPresence.World) (i : Z) :
  ClientPresence.shardID p ≠ ClientPresence.AllShards →
  (is_Some (ClientPresence.shards
              (snd (ClientPresence.set ActivityTypes STATUS_UPDATE p w)) !! i)
   ↔ is_Some (ClientPresence.shards w !! i))
  ∧ (i ∉ targets (ClientPresence.shardID p) →
     ClientPresence.shards (snd (ClientPresence.set ActivityTypes STATUS_UPDATE p w)) !! i
     = ClientPresence.shards w !! i).
Proof.
  intros Hnamed. unfold ClientPresence.set.
  destruct (ClientPresence._parse _ _ _) as [packet|e]; [|done].
  destruct (ClientPresence.shardID p) as [|ids|z]; [done| |].
  - pose proof (send_each_frame
                  {| ClientPresence.op := STATUS_UPDATE; ClientPresence.d := packet |}
                  ids (ClientPresence.shards w) i) as Hf.
    pose proof (send_each_handles
                  {| ClientPresence.op := STATUS_UPDATE; ClientPresence.d := packet |}
                  ids (ClientPresence.shards w) i) as Hh.
    destruct (ClientPresence.send_each ids _ _) as [r sh]. done.
  - pose proof (send_each_frame
                  {| ClientPresence.op := STATUS_UPDATE; ClientPresence.d := packet |}
                  [z] (ClientPresence.shards w) i) as Hf.
    pose proof (send_each_handles
                  {| ClientPresence.op := STATUS_UPDATE; ClientPresence.d := packet |}
                  [z] (ClientPresence.shards w) i) as Hh.
    destruct (ClientPresence.send_each [z] _ _) as [r sh]. done.
Qed.

Lemma set_leaves_other_shards_witness :
  ClientPresence.shards (snd (set_here (ClientPresence.ShardList [7]))) !! 0
  = ClientPresence.shards one_shard !! 0.
Proof.
  apply (set_leaves_other_shards (fun v => v) 3
           (go_idle (ClientPresence.ShardList [7])) one_shard 0).
  - discriminate.
  - cbn. intros H. apply list_elem_of_singleton in H. discriminate.
Defined.

(** ** Stage instances *)

(** X18. A failed request changes nothing locally: when the channel
    resolves but the transport fails, [create], [edit] and [delete] raise
    the transport's error as it is and leave the manager, heap and cache,
    untouched. *)
Theorem stage_transport_failure
    (resolveID : DataManager.Resolvable -> JsVal) (PrivacyLevels : JsVal -> JsVal)
    (holds : CachedManager.Holds JsObj) (api : Request -> Completion JsObj)
    (chan : DataManager.Resolvable) (topic privacyLevel : JsVal)
    (w : StageInstanceManager.World) (e : JsError) :
  truthy (resolveID chan) = true →
  (∀ req, api req = Throw e) →
  let created :=
    StageInstanceManager.create resolveID PrivacyLevels holds api
      (Object {| StageInstanceManager.channel := chan;
                 StageInstanceManager.topic := topic;
                 StageInstanceManager.privacyLevel := privacyLevel |}) w in
  let edited :=
    StageInstanceManager.edit resolveID PrivacyLevels holds api chan
      (Object {| StageInstanceManager.edit_topic := topic;
                 StageInstanceManager.edit_privacyLevel := privacyLevel |}) w in
  let deleted := StageInstanceManager.delete resolveID api chan w in
  (fst created = Throw e ∧ StageInstanceManager.mgr (snd created) = StageInstanceManager.mgr w)
  ∧ (fst edited = Throw e ∧ StageInstanceManager.mgr (snd edited) = StageInstanceManager.mgr w)
  ∧ (fst deleted = Throw e ∧ StageInstanceManager.mgr (snd deleted) = StageInstanceManager.mgr w).
Proof.
  intros Hres Hapi. cbn zeta.
  unfold StageInstanceManager.create, StageInstanceManager.edit, StageInstanceManager.delete.
  cbn [StageInstanceManager.channel]. rewrite Hres. cbn [negb]. by rewrite !Hapi.
Qed.

(** X19. What [create] returns is what the cache holds: when the request
    succeeds with [data], for a class whose constructor keeps the
    payload's id, the returned instance is cached under [data.id], and
    exactly one request, a POST, has been issued. *)
Theorem stage_create_caches
    (resolveID : DataManager.Resolvable -> JsVal) (PrivacyLevels : JsVal -> JsVal)
    (holds : CachedManager.Holds JsObj) (api : Request -> Completion JsObj)
    (o : StageInstanceManager.CreateStageInstanceOptions)
    (w : StageInstanceManager.World) (data : JsObj) :
  truthy (resolveID (StageInstanceManager.channel o)) = true →
  (∀ req, api req = Return data) →
  prop (CachedManager.construct holds data []) "id" = CachedManager.raw_id data →
  let run := StageInstanceManager.create resolveID PrivacyLevels holds api (Object o) w in
  ∃ l req,
    fst run = Return l
    ∧ CachedManager.cache (StageInstanceManager.mgr (snd run)) !! CachedManager.raw_id data
      = Some l
    ∧ StageInstanceManager.sent (snd run) = StageInstanceManager.sent w ++ [req]
    ∧ method req = "post".
Proof.
  intros Hres Hapi Hid. cbn zeta. unfold StageInstanceManager.create.
  rewrite Hres. cbn [negb]. rewrite Hapi.
  pose proof (_add_caches_key CachedManager.raw_id holds data JUndefined []
                (StageInstanceManager.mgr w) (or_intror Hid)) as Hc.
  unfold StageInstanceManager.add. cbn [StageInstanceManager.issue StageInstanceManager.mgr].
  destruct (CachedManager._add _ _ _ _ _ _ _) as [l m].
  exists l. eexists. cbn in *. done.
Qed.

Lemma stage_transport_failure_witness :
  fst (StageInstanceManager.create (DataManager.resolveId empty_manager) (fun v => v)
         CachedManager.Entity stage_down (Object open_stage) stage_world)
  = Throw (RemoteFetchError 503)
  ∧ StageInstanceManager.mgr
      (snd (StageInstanceManager.create (DataManager.resolveId empty_manager) (fun v => v)
              CachedManager.Entity stage_down (Object open_stage) stage_world))
    = StageInstanceManager.mgr stage_world.
Proof.
  apply (stage_transport_failure (DataManager.resolveId empty_manager) (fun v => v)
           CachedManager.Entity stage_down (DataManager.Prim (JStr "5")) (JStr "new")
           JUndefined stage_world (RemoteFetchError 503)); reflexivity.
Defined.

Lemma stage_create_caches_witness :
  ∃ l req,
    fst (StageInstanceManager.create (DataManager.resolveId empty_manager) (fun v => v)
           CachedManager.Entity answers_new (Object open_stage) stage_quiet) = Return l
    ∧ CachedManager.cache
        (StageInstanceManager.mgr
           (snd (StageInstanceManager.create (DataManager.resolveId empty_manager)
                   (fun v => v) CachedManager.Entity answers_new (Object open_stage)
                   stage_quiet))) !! JStr "9" = Some l
    ∧ StageInstanceManager.sent
        (snd (StageInstanceManager.create (DataManager.resolveId empty_manager)
                (fun v => v) CachedManager.Entity answers_new (Object open_stage)
                stage_quiet)) = [] ++ [req]
    ∧ method req = "post".
Proof.
  apply (stage_create_caches (DataManager.resolveId empty_manager) (fun v => v)
           CachedManager.Entity answers_new open_stage stage_quiet stage_new);
    reflexivity.
Defined.

(** ** Guild invites *)

Section InviteMore.
Import CachedManager GuildInviteManager.
Variable resolveInviteCode : JsVal -> JsVal.
Variable resolveId : DataManager.Resolvable -> JsVal.
Variable holds : Holds JsObj.
Variable guild : JsVal.
Variable api : Request -> Completion (list JsObj).

Lemma _fetchSingle_hit code_ cache_arg force_ w l :
  truthy force_ = false →
  cache (mgr w) !! code_ = Some l →
  _fetchSingle holds guild api code_ cache_arg force_ w = (Return l, w).
Proof.
  intros Hf Hhit. unfold _fetchSingle.
  replace (truthy match force_ with JUndefined => JBool false | _ => force_ end)
    with false by (by destruct force_).
  by rewrite Hhit.
Qed.

Lemma _fetchSingle_sent code_ cache_arg force_ w :
  sent (snd (_fetchSingle holds guild api code_ cache_arg force_ w)) = sent w
  ∨ ∃ req, sent (snd (_fetchSingle holds guild api code_ cache_arg force_ w))
           = sent w ++ [req].
Proof.
  unfold _fetchSingle.
  destruct (if truthy _ then None else cache (mgr w) !! code_) as [l|]; [by left|].
  right. unfold _fetchMany. eexists.
  pose proof (listing_sent holds guild api
                {| method := "get"; route := [JStr "guilds"; guild; JStr "invites"];
                   params := [] |} cache_arg w) as Hs.
  destruct (listing _ _ _ _ _ _) as [[invites|e] w1]; cbn in *; [|done].
  by destruct (invites !! code_).
Qed.

Lemma many_sent r : sent (snd (many r)) = sent (snd r).
Proof. by destruct r as [[c|e] w]. Qed.

Lemma one_sent r : sent (snd (one r)) = sent (snd r).
Proof. by destruct r as [[c|e] w]. Qed.

Lemma many_mgr r : mgr (snd (many r)) = mgr (snd r).
Proof. by destruct r as [[c|e] w]. Qed.

Lemma one_mgr r : mgr (snd (one r)) = mgr (snd r).
Proof. by destruct r as [[c|e] w]. Qed.

(** The fold of a listing: the codes it adds to the collection are the
    codes of the listing, whatever the cache does. *)
Lemma collect_keys cache_arg data : ∀ col m k,
  is_Some (fst (fold_left (collect holds guild cache_arg) data (col, m)) !! k)
  ↔ is_Some (col !! k) ∨ ∃ invite, invite ∈ data ∧ raw_code invite = k.
Proof.
  induction data as [|invite data IH]; intros col m k; cbn.
  - split; [by left|]. intros [H|(invite & Hin & _)]; [done|].
    by apply elem_of_nil in Hin.
  - destruct (GuildInviteManager._add holds guild invite cache_arg m) as [l m'].
    rewrite IH. split.
    + intros [Hk|(d & Hin & Hd)].
      * destruct (decide (raw_code invite = k)) as [Heq|Hne].
        -- right. exists invite. split; [left|done].
        -- left. by rewrite lookup_insert_ne in Hk.
      * right. exists d. split; [by right|done].
    + intros [Hk|(d & Hin & Hd)].
      * left. destruct (decide (raw_code invite = k)) as [<-|Hne].
        -- rewrite lookup_insert_eq. eauto.
        -- by rewrite lookup_insert_ne.
      * apply elem_of_cons in Hin as [->|Hin].
        -- left. rewrite <- Hd, lookup_insert_eq. eauto.
        -- right. by exists d.
Qed.

Lemma listing_keys req cache_arg w w' col :
  listing holds guild api req cache_arg w = (Return col, w') →
  ∃ data, api req = Return data
          ∧ ∀ k, is_Some (col !! k) ↔ ∃ invite, invite ∈ data ∧ raw_code invite = k.
Proof.
  unfold listing. destruct (api req) as [data|e]; [|done].
  pose proof (collect_keys cache_arg data ∅ (mgr w)) as Hkeys. cbn in *.
  destruct (fold_left _ _ _) as [c m]. intros [= <- <-].
  exists data. split; [done|]. intros k. rewrite (Hkeys k). cbn.
  rewrite lookup_empty. split; [|by right].
  intros [[? ?]|H]; [done|exact H].
Qed.

Lemma _add_nocache_cache (data : JsObj) id extras m :
  cache (snd (CachedManager._add raw_id holds data false id extras m)) = cache m.
Proof. unfold CachedManager._add. by destruct (cache m !! _). Qed.

Lemma collect_nocache cache_arg data : ∀ col m,
  flag cache_arg = false →
  cache (snd (fold_left (collect holds guild cache_arg) data (col, m))) = cache m.
Proof.
  induction data as [|invite data IH]; intros col m Hf; [done|]. cbn.
  unfold GuildInviteManager._add. rewrite Hf.
  pose proof (_add_nocache_cache invite (raw_code invite) [guild] m) as Hc.
  destruct (CachedManager._add _ _ _ _ _ _ _) as [l m']. cbn in Hc.
  by rewrite IH, Hc.
Qed.

Lemma listing_nocache req cache_arg w :
  flag cache_arg = false →
  cache (mgr (snd (listing holds guild api req cache_arg w))) = cache (mgr w).
Proof.
  intros Hf. unfold listing. destruct (api req) as [data|e]; [|done].
  pose proof (collect_nocache cache_arg data ∅ (mgr w) Hf) as Hc.
  cbn in *. destruct (fold_left _ _ _) as [col m]. done.
Qed.

Lemma _fetchSingle_nocache code_ cache_arg force_ w :
  flag cache_arg = false →
  cache (mgr (snd (_fetchSingle holds guild api code_ cache_arg force_ w)))
  = cache (mgr w).
Proof.
  intros Hf. unfold _fetchSingle.
  destruct (if truthy _ then None else cache (mgr w) !! code_) as [l|]; [done|].
  unfold _fetchMany.
  pose proof (listing_nocache
                {| method := "get"; route := [JStr "guilds"; guild; JStr "invites"];
                   params := [] |} cache_arg w Hf) as Hc.
  destruct (listing _ _ _ _ _ _) as [[invites|e] w1]; cbn in *; [|done].
  by destruct (invites !! code_).
Qed.

End InviteMore.

(** X20. A cached invite costs no request: unless [force] is set, [fetch]
    of a code that resolves to a cached invite, in the string form or in
    the options form, returns the cached instance and issues nothing. *)
Theorem fetch_cached_invite
    (resolveInviteCode : JsVal -> JsVal)
    (resolveId : DataManager.Resolvable -> JsVal)
    (holds : CachedManager.Holds JsObj) (guild : JsVal)
    (api : Request -> Completion (list JsObj))
    (w : GuildInviteManager.World) (c : JsVal) (l : nat) :
  truthy c = true →
  truthy (resolveInviteCode c) = true →
  CachedManager.cache (GuildInviteManager.mgr w) !! resolveInviteCode c = Some l →
  (∀ s, c = JStr s →
     GuildInviteManager.fetch resolveInviteCode resolveId holds guild api (Primitive c) w
     = (Return (GuildInviteManager.One l), w))
  ∧ (∀ o, GuildInviteManager.code o = c →
     truthy (GuildInviteManager.force o) = false →
     GuildInviteManager.fetch resolveInviteCode resolveId holds guild api (Object o) w
     = (Return (GuildInviteManager.One l), w)).
Proof.
  intros Hc Hres Hhit. split.
  - intros s ->. unfold GuildInviteManager.fetch. rewrite Hc, Hres. cbn [negb].
    by rewrite (_fetchSingle_hit holds guild api _ _ JUndefined w l).
  - intros o <- Hforce. unfold GuildInviteManager.fetch. rewrite Hc. cbn [negb].
    by rewrite (_fetchSingle_hit holds guild api _ _ _ w l).
Qed.

(** X21. [fetch] issues one request at most, whatever it is given. *)
Theorem fetch_invites_one_request
    (resolveInviteCode : JsVal -> JsVal)
    (resolveId : DataManager.Resolvable -> JsVal)
    (holds : CachedManager.Holds JsObj) (guild : JsVal)
    (api : Request -> Completion (list JsObj))
    (options : Arg GuildInviteManager.FetchOptions) (w : GuildInviteManager.World) :
  let run := GuildInviteManager.fetch resolveInviteCode resolveId holds guild api
               options w in
  GuildInviteManager.sent (snd run) = GuildInviteManager.sent w
  ∨ ∃ req, GuildInviteManager.sent (snd run) = GuildInviteManager.sent w ++ [req].
Proof.
  cbn zeta. unfold GuildInviteManager.fetch.
  destruct options as [v|o].
  - destruct (truthy v); cbn [negb].
    + destruct v; try (by left).
      destruct (truthy (resolveInviteCode _)); cbn [negb]; [|by left].
      rewrite one_sent. apply _fetchSingle_sent.
    + right. eexists. rewrite many_sent. apply listing_sent.
  - destruct (truthy (GuildInviteManager.code o)); cbn [negb].
    + rewrite one_sent. apply _fetchSingle_sent.
    + destruct (GuildInviteManager.given _).
      * destruct (truthy (resolveId _)); cbn [negb]; [|by left].
        right. eexists. rewrite many_sent. apply listing_sent.
      * destruct (GuildInviteManager.opt_cache o); [|by left].
        right. eexists. rewrite many_sent. apply listing_sent.
Qed.

(** X22. A listing comes back by code: when [_fetchMany] or
    [_fetchChannelMany] succeeds, with or without caching, the keys of
    the returned collection are exactly the codes of the invites the
    endpoint listed. *)
Theorem _fetchMany_keys_are_codes
    (holds : CachedManager.Holds JsObj) (guild : JsVal)
    (api : Request -> Completion (list JsObj))
    (cache_arg : JsVal) (w : GuildInviteManager.World) :
  (∀ col w',
     GuildInviteManager._fetchMany holds guild api cache_arg w = (Return col, w') →
     ∃ data,
       api {| method := "get"; route := [JStr "guilds"; guild; JStr "invites"];
              params := [] |} = Return data
       ∧ ∀ k, is_Some (col !! k)
              ↔ ∃ invite, invite ∈ data ∧ GuildInviteManager.raw_code invite = k)
  ∧ (∀ channel col w',
     GuildInviteManager._fetchChannelMany holds guild api channel cache_arg w
     = (Return col, w') →
     ∃ data,
       api {| method := "get"; route := [JStr "channels"; channel; JStr "invites"];
              params := [] |} = Return data
       ∧ ∀ k, is_Some (col !! k)
              ↔ ∃ invite, invite ∈ data ∧ GuildInviteManager.raw_code invite = k).
Proof.
  split.
  - intros col w'. apply listing_keys.
  - intros channel col w'. apply listing_keys.
Qed.

(** X23. [cache: false] is honoured throughout: whichever way [fetch]
    goes for an options object with [cache: false], the invite cache
    afterwards is the one before. *)
Theorem fetch_nocache_keeps_cache
    (resolveInviteCode : JsVal -> JsVal)
    (resolveId : DataManager.Resolvable -> JsVal)
    (holds : CachedManager.Holds JsObj) (guild : JsVal)
    (api : Request -> Completion (list JsObj))
    (o : GuildInviteManager.FetchOptions) (w : GuildInviteManager.World) (c : JsVal) :
  GuildInviteManager.opt_cache o = Some c →
  GuildInviteManager.flag c = false →
  CachedManager.cache
    (GuildInviteManager.mgr
       (snd (GuildInviteManager.fetch resolveInviteCode resolveId holds guild api
               (Object o) w)))
  = CachedManager.cache (GuildInviteManager.mgr w).
Proof.
  intros Hc Hf. unfold GuildInviteManager.fetch. rewrite Hc. cbn [default].
  destruct (truthy (GuildInviteManager.code o)); cbn [negb].
  - rewrite one_mgr. by apply _fetchSingle_nocache.
  - destruct (GuildInviteManager.given _).
    + destruct (truthy (resolveId _)); cbn [negb]; [|done].
      rewrite many_mgr. by apply listing_nocache.
    + rewrite many_mgr. by apply listing_nocache.
Qed.

Lemma fetch_cached_invite_witness :
  GuildInviteManager.fetch bare_code (DataManager.resolveId empty_manager)
    CachedManager.Entity (JStr "400000000000000004") no_invites
    (Primitive (JStr "xyz")) invites_known
  = (Return (GuildInviteManager.One 1), invites_known).
Proof.
  refine (proj1 (fetch_cached_invite bare_code (DataManager.resolveId empty_manager)
            CachedManager.Entity (JStr "400000000000000004") no_invites invites_known
            (JStr "xyz") 1 _ _ _) "xyz" eq_refl); reflexivity.
Defined.

Lemma _fetchMany_keys_are_codes_witness :
  ∃ data,
    lists_two {| method := "get";
                 route := [JStr "guilds"; JStr "400000000000000004"; JStr "invites"];
                 params := [] |} = Return data
    ∧ ∀ k, is_Some (({[ JStr "abc" := 0%nat; JStr "xyz" := 1%nat ]} : gmap JsVal nat) !! k)
           ↔ ∃ invite, invite ∈ data ∧ GuildInviteManager.raw_code invite = k.
Proof.
  apply (proj1 (_fetchMany_keys_are_codes CachedManager.Entity
                  (JStr "400000000000000004") lists_two (JBool true) invite_world)
           {[ JStr "abc" := 0%nat; JStr "xyz" := 1%nat ]} invites_known).
  reflexivity.
Defined.

Lemma fetch_nocache_keeps_cache_witness :
  CachedManager.cache
    (GuildInviteManager.mgr
       (snd (GuildInviteManager.fetch bare_code (DataManager.resolveId empty_manager)
               CachedManager.Entity (JStr "400000000000000004") lists_two
               (Object uncached_listing) invite_world)))
  = CachedManager.cache (GuildInviteManager.mgr invite_world).
Proof.
  apply (fetch_nocache_keeps_cache bare_code (DataManager.resolveId empty_manager)
           CachedManager.Entity (JStr "400000000000000004") lists_two uncached_listing
           invite_world (JBool false)); reflexivity.
Defined.

(** ** Reaction users *)

Section ReactionMore.
Import ReactionUserManager.
Variable holds : CachedManager.Holds JsObj.

Lemma keep_sent data : ∀ fetched s,
  sent (snd (fold_left (keep holds) data (fetched, s))) = sent s.
Proof.
  induction data as [|rawUser data IH]; intros fetched s; cbn; [done|].
  unfold users_add.
  destruct (CachedManager._add _ _ _ _ _ _ _) as [user m].
  by rewrite IH.
Qed.

End ReactionMore.

Lemma strict_eq_truthy (v : JsVal) : truthy v = true → strict_eq v v = true.
Proof. destruct v; try done; intros _; cbn; by case_bool_decide. Qed.

Lemma strict_eq_differ (a b : JsVal) : a ≠ b → strict_eq a b = false.
Proof.
  intros Hne. unfold strict_eq.
  destruct a, b; try done; by case_bool_decide.
Qed.

(** X24. [fetch] issues exactly one request, whether it succeeds or
    fails: a GET with [limit] (100 when left out) and [after] as its
    query.  When the transport fails, neither the user cache nor the
    reaction's own cache is touched. *)
Theorem reaction_fetch_one_request
    (holds : CachedManager.Holds JsObj)
    (reaction : ReactionUserManager.MessageReaction)
    (api_get : Request -> Completion (list JsObj))
    (limit after : JsVal) (s : ReactionUserManager.Store) :
  let run := ReactionUserManager.fetch holds reaction api_get limit after s in
  (∃ req, ReactionUserManager.sent (snd run) = ReactionUserManager.sent s ++ [req]
          ∧ method req = "get"
          ∧ params req = [("limit", if decide (limit = JUndefined) then JNum 100
                                    else limit);
                          ("after", after)])
  ∧ (∀ e, fst run = Throw e →
       ReactionUserManager.users (snd run) = ReactionUserManager.users s
       ∧ ReactionUserManager.own_cache (snd run) = ReactionUserManager.own_cache s).
Proof.
  cbn zeta. unfold ReactionUserManager.fetch.
  assert (Hlimit : match limit with JUndefined => JNum 100 | _ => limit end
                   = if decide (limit = JUndefined) then JNum 100 else limit).
  { destruct limit; by case_decide. }
  rewrite Hlimit.
  destruct (api_get _) as [data|e].
  - match goal with
    | |- context [fold_left _ data (∅, ?s1)] =>
        pose proof (keep_sent holds data ∅ s1) as Hsent
    end.
    destruct (fold_left _ _ _) as [fetched s2]. cbn in *.
    split; [|done]. eexists. split; [exact Hsent|]. done.
  - cbn. split; [|done]. eexists. split; [done|]. done.
Qed.

(** X25. Removing one's own reaction goes through [@me]: when the user
    to remove resolves to the client's own id, the one request issued is
    a DELETE whose last route segment is [@me]; for any other resolved
    user it is that user's id. *)
Theorem reaction_remove_route
    (resolveId : DataManager.Resolvable -> JsVal)
    (me : ReactionUserManager.ClientUser)
    (reaction : ReactionUserManager.MessageReaction)
    (api : Request -> Completion unit)
    (user : DataManager.Resolvable) (sent : list Request) :
  truthy (resolveId (ReactionUserManager.effective_user (Some me) user)) = true →
  ∃ req,
    snd (ReactionUserManager.remove resolveId (Some me) reaction api user sent)
    = sent ++ [req]
    ∧ method req = "delete"
    ∧ (resolveId (ReactionUserManager.effective_user (Some me) user)
       = ReactionUserManager.user_id me →
       last (route req) = Some (JStr "@me"))
    ∧ (resolveId (ReactionUserManager.effective_user (Some me) user)
       ≠ ReactionUserManager.user_id me →
       last (route req)
       = Some (resolveId (ReactionUserManager.effective_user (Some me) user))).
Proof.
  intros Hres. unfold ReactionUserManager.remove. rewrite Hres. cbn [negb].
  eexists. split; [by destruct (api _)|]. split; [done|]. cbn. split.
  - intros Heq. rewrite <- Heq, strict_eq_truthy by done. done.
  - intros Hne. by rewrite strict_eq_differ.
Qed.

Lemma reaction_fetch_one_request_witness :
  ReactionUserManager.users
    (snd (ReactionUserManager.fetch CachedManager.Entity thumbs_up
            (fun _ => Throw (RemoteFetchError 503)) JUndefined JUndefined
            (snd fetch_reactors)))
  = ReactionUserManager.users (snd fetch_reactors)
  ∧ ReactionUserManager.own_cache
      (snd (ReactionUserManager.fetch CachedManager.Entity thumbs_up
              (fun _ => Throw (RemoteFetchError 503)) JUndefined JUndefined
              (snd fetch_reactors)))
    = ReactionUserManager.own_cache (snd fetch_reactors).
Proof.
  apply (proj2 (reaction_fetch_one_request CachedManager.Entity thumbs_up
                  (fun _ => Throw (RemoteFetchError 503)) JUndefined JUndefined
                  (snd fetch_reactors)) (RemoteFetchError 503)).
  reflexivity.
Defined.

Lemma reaction_remove_route_witness :
  ∃ req, snd (remove_here (DataManager.Prim JUndefined)) = [] ++ [req]
         ∧ method req = "delete"
         ∧ last (route req) = Some (JStr "@me").
Proof.
  destruct (reaction_remove_route
              (DataManager.resolveId (ReactionUserManager.users (snd fetch_reactors)))
              ann thumbs_up (fun _ => Return tt) (DataManager.Prim JUndefined) []
              eq_refl) as (req & Hsent & Hmethod & Hme & _).
  exists req. split; [exact Hsent|]. split; [exact Hmethod|].
  apply Hme. reflexivity.
Defined.

(** ** Message embeds *)

Section EmbedFacts.
Import MessageEmbed.
Variable verifyString : JsVal -> string -> bool -> Completion JsVal.


Lemma map_throwing_length {A B} (f : A -> Completion B) (l : list A) r :
  map_throwing f l = Return r → length r = length l.
Proof.
  revert r. induction l as [|x l IH]; intros r; cbn.
  - by intros [= <-].
  - destruct (f x) as [y|e]; [|done].
    destruct (map_throwing f l) as [r1|e]; [|done].
    intros [= <-]. cbn. by rewrite (IH r1).
Qed.



Lemma splice_all {A} (l items : list A) : splice l 0 (Z.of_nat (length l)) items = items.
Proof.
  unfold splice. cbn.
  replace (Z.min 0 (Z.of_nat (length l))) with 0 by lia.
  replace (Z.to_nat (0 + Z.min (Z.max (Z.of_nat (length l)) 0) (Z.of_nat (length l) - 0)))
    with (length l) by lia.
  cbn. by rewrite drop_all, app_nil_r.
Qed.

End EmbedFacts.


(** X27. [setFields] starts over: whatever fields the embed had, the
    result is the one [addFields] gives on the embed without fields, and
    every field it leaves has a boolean [inline]. *)
Theorem setFields_replaces (verifyString : JsVal -> string -> bool -> Completion JsVal)
    (args : list MessageEmbed.FieldData) (e : MessageEmbed.MessageEmbed) :
  MessageEmbed.setFields verifyString args e
  = MessageEmbed.addFields verifyString args (MessageEmbed.with_fields e [])
  ∧ ∀ e', MessageEmbed.setFields verifyString args e = Return e' →
          Forall (fun f : JsObj => ∃ b, prop f "inline" = JBool b)
                 (MessageEmbed.fields e').
Proof.
  unfold MessageEmbed.setFields, MessageEmbed.spliceFields, MessageEmbed.addFields.
  split.
  - destruct (MessageEmbed.normalizeFields _ _) as [fs|err]; [|done].
    by rewrite splice_all.
  - intros e'. unfold MessageEmbed.normalizeFields.
    generalize (MessageEmbed.flat 2 [MessageEmbed.Fields args]). intros l.
    destruct (MessageEmbed.map_throwing _ l) as [fs|err] eqn:Hfs; [|done].
    intros [= <-]. cbn. rewrite splice_all. clear e.
    revert fs Hfs. induction l as [|x l IH]; intros fs; cbn.
    + intros [= <-]. constructor.
    + unfold MessageEmbed.normalizeField at 1.
      destruct (verifyString _ _ _) as [n|err]; [|done].
      destruct (verifyString _ _ _) as [v|err]; [|done].
      destruct (MessageEmbed.map_throwing _ l) as [r|err]; [|done].
      intros [= <-]. constructor; [|by apply IH].
      unfold prop. rewrite !lookup_insert_ne by done. rewrite lookup_singleton_eq.
      cbn. destruct (MessageEmbed.field_prop x "inline"); eauto.
Qed.

Section HexFacts.
Import MessageEmbed.

Lemma string_length_app (a b : string) :
  String.length (a +:+ b) = (String.length a + String.length b)%nat.
Proof. induction a as [|c a IH]; [done|]. simpl. by rewrite IH. Qed.

Lemma parse_hex_app (a b : string) : ∀ acc,
  parse_hex (a +:+ b) acc
  = match parse_hex a acc with Some x => parse_hex b x | None => None end.
Proof.
  induction a as [|c a IH]; intros acc; simpl; [done|].
  destruct (hex_value c) as [d|]; [by rewrite IH|done].
Qed.

Lemma hex_value_digit (d : Z) : 0 ≤ d < 16 → hex_value (hex_digit d) = Some d.
Proof.
  intros Hd.
  assert (d = 0 ∨ d = 1 ∨ d = 2 ∨ d = 3 ∨ d = 4 ∨ d = 5 ∨ d = 6 ∨ d = 7 ∨ d = 8
          ∨ d = 9 ∨ d = 10 ∨ d = 11 ∨ d = 12 ∨ d = 13 ∨ d = 14 ∨ d = 15) as H by lia.
  repeat (destruct H as [->|H]; [reflexivity|]). by subst.
Qed.

Lemma to_hex_length (fuel : nat) : ∀ (k : nat) (n : Z),
  (1 ≤ k)%nat → 0 ≤ n < 16 ^ Z.of_nat k →
  (String.length (to_hex fuel n) ≤ k)%nat.
Proof.
  induction fuel as [|fuel IH]; intros k n Hk Hn; simpl; [lia|].
  rewrite string_length_app. simpl.
  destruct (Z.ltb_spec n 16) as [Hsmall|Hbig]; simpl; [lia|].
  destruct k as [|[|k]]; [lia| |].
  - change (16 ^ Z.of_nat 1) with 16 in Hn. lia.
  - assert (String.length (to_hex fuel (n / 16)) ≤ S k)%nat; [|lia].
    apply IH; [lia|]. split; [apply Z.div_pos; lia|].
    apply Z.div_lt_upper_bound; [lia|].
    replace (Z.of_nat (S (S k))) with (Z.succ (Z.of_nat (S k))) in Hn by lia.
    rewrite Z.pow_succ_r in Hn by lia. lia.
Qed.

Lemma to_hex_parse (fuel : nat) : ∀ n : Z,
  0 ≤ n < 16 ^ Z.of_nat fuel → parse_hex (to_hex fuel n) 0 = Some n.
Proof.
  induction fuel as [|fuel IH]; intros n Hn.
  - change (16 ^ Z.of_nat 0) with 1 in Hn. simpl. f_equal. lia.
  - assert (Hlast : ∀ acc, parse_hex (String (hex_digit (n mod 16)) "") acc
                           = Some (16 * acc + n mod 16)).
    { intros acc. simpl. by rewrite hex_value_digit by (apply Z.mod_pos_bound; lia). }
    change (to_hex (S fuel) n)
      with ((if (n <? 16)%Z then "" else to_hex fuel (n / 16))
            +:+ String (hex_digit (n mod 16)) "").
    destruct (Z.ltb_spec n 16) as [Hsmall|Hbig].
    + change (parse_hex (String (hex_digit (n mod 16)) "") 0 = Some n).
      rewrite Hlast, Z.mod_small by lia. reflexivity.
    + rewrite parse_hex_app, IH.
      * cbv beta iota. rewrite Hlast. f_equal. pose proof (Z.div_mod n 16). lia.
      * split; [apply Z.div_pos; lia|].
        apply Z.div_lt_upper_bound; [lia|].
        replace (Z.of_nat (S fuel)) with (Z.succ (Z.of_nat fuel)) in Hn by lia.
        rewrite Z.pow_succ_r in Hn by lia. lia.
Qed.

Lemma enough_digits (n : Z) : 0 < n → n < 16 ^ Z.of_nat (S (Z.to_nat (Z.log2 n))).
Proof.
  intros Hn. pose proof (Z.log2_nonneg n) as Hl.
  replace (Z.of_nat (S (Z.to_nat (Z.log2 n)))) with (Z.succ (Z.log2 n)) by lia.
  destruct (Z.log2_spec n Hn) as [_ Hlt].
  eapply Z.lt_le_trans; [exact Hlt|].
  apply Z.pow_le_mono_l. lia.
Qed.

Lemma zeros_parse (m : nat) :
  parse_hex (String.string_of_list_ascii (replicate m zero_char)) 0 = Some 0.
Proof.
  induction m as [|m IH]; [done|].
  change (parse_hex (String.string_of_list_ascii (replicate (S m) zero_char)) 0)
    with (parse_hex (String.string_of_list_ascii (replicate m zero_char)) 0).
  exact IH.
Qed.

Lemma zeros_length (m : nat) :
  String.length (String.string_of_list_ascii (replicate m zero_char)) = m.
Proof. induction m as [|m IH]; simpl; [done|]. by rewrite IH. Qed.

End HexFacts.

(** X28. [hexColor] of a colour between 1 and 0xFFFFFF is a hash followed
    by exactly six characters, every one of them a lowercase hexadecimal
    digit, and together they read back as the colour; the colour 0, being
    falsy, has no [hexColor] at all. *)
Theorem hexColor_six_digits (e : MessageEmbed.MessageEmbed) :
  (∀ n, MessageEmbed.color e = JNum n → 0 < n < 16777216 →
     ∃ digits, MessageEmbed.hexColor e = JStr ("#" +:+ digits)
               ∧ String.length digits = 6%nat
               ∧ parse_hex digits 0 = Some n)
  ∧ (MessageEmbed.color e = JNum 0 → MessageEmbed.hexColor e = JNull).
Proof.
  unfold MessageEmbed.hexColor. split.
  - intros n -> Hn. cbn [truthy].
    destruct (Z.eqb_spec n 0) as [->|_]; [lia|]. cbn [negb].
    destruct (Z.ltb_spec n 0) as [?|_]; [lia|].
    eexists. split; [reflexivity|].
    pose proof (to_hex_length (S (Z.to_nat (Z.log2 n))) 6 n) as Hlen.
    unfold MessageEmbed.padStart6. split.
    + rewrite string_length_app, zeros_length.
      assert (String.length (MessageEmbed.to_hex (S (Z.to_nat (Z.log2 n))) n) ≤ 6)%nat;
        [|lia].
      apply Hlen; [lia|]. change (16 ^ Z.of_nat 6) with 16777216. lia.
    + rewrite parse_hex_app, zeros_parse. apply to_hex_parse.
      split; [lia|]. apply enough_digits. lia.
  - by intros ->.
Qed.

(** X29. A copy made through [toJSON] and the constructor, when the
    colour resolves to [c] and the fields normalise to [fs]: title,
    description, url, thumbnail and image are read as they were; the
    author keeps name, url and icon URL and the footer text and icon URL,
    both losing the proxy icon URL; video and provider are gone and the
    type is [rich]; and the timestamp is run through [Date], so that an
    embed without a timestamp ([null]) comes back with the timestamp 0. *)
Theorem toJSON_round_trip
    (verifyString : JsVal -> string -> bool -> Completion JsVal)
    (resolveColor : JsVal -> Completion JsVal)
    (cloneObject : MessageEmbed.FieldData -> JsObj) (Date_parse : string -> JsVal)
    (e : MessageEmbed.MessageEmbed) (c : JsVal) (fs : list JsObj) :
  resolveColor (MessageEmbed.color e) = Return c →
  MessageEmbed.normalizeFields verifyString
    [MessageEmbed.Fields (MessageEmbed.Field <$> MessageEmbed.fields e)] = Return fs →
  ∃ e',
    MessageEmbed.setup verifyString resolveColor cloneObject Date_parse
      (MessageEmbed.toJSON Date_parse e) false = Return e'
    ∧ MessageEmbed.type e' = JStr "rich"
    ∧ MessageEmbed.title e' = coalesce (MessageEmbed.title e) JNull
    ∧ MessageEmbed.description e' = coalesce (MessageEmbed.description e) JNull
    ∧ MessageEmbed.url e' = coalesce (MessageEmbed.url e) JNull
    ∧ MessageEmbed.color e' = c
    ∧ MessageEmbed.fields e' = fs
    ∧ MessageEmbed.timestamp e' = MessageEmbed.date_value Date_parse (MessageEmbed.timestamp e)
    ∧ (MessageEmbed.timestamp e = JNull → MessageEmbed.timestamp e' = JNum 0)
    ∧ MessageEmbed.thumbnail e' = MessageEmbed.media <$> MessageEmbed.thumbnail e
    ∧ MessageEmbed.image e' = MessageEmbed.media <$> MessageEmbed.image e
    ∧ MessageEmbed.video e' = None
    ∧ MessageEmbed.provider e' = None
    ∧ (∀ a, MessageEmbed.author e = Some a →
         ∃ a', MessageEmbed.author e' = Some a'
               ∧ prop a' "name" = prop a "name"
               ∧ prop a' "url" = prop a "url"
               ∧ prop a' "iconURL" = prop a "iconURL"
               ∧ prop a' "proxyIconURL" = JUndefined)
    ∧ (∀ f, MessageEmbed.footer e = Some f →
         ∃ f', MessageEmbed.footer e' = Some f'
               ∧ prop f' "text" = prop f "text"
               ∧ prop f' "iconURL" = prop f "iconURL"
               ∧ prop f' "proxyIconURL" = JUndefined).
Proof.
  intros Hc Hfs. unfold MessageEmbed.setup. cbn [MessageEmbed.toJSON
    MessageEmbed.data_color MessageEmbed.data_fields from_option].
  rewrite Hc, Hfs. eexists. split; [reflexivity|]. cbn.
  assert (Htime : MessageEmbed.getTime Date_parse
                    (if truthy (MessageEmbed.timestamp e)
                     then MessageEmbed.ADate
                            (MessageEmbed.date_value Date_parse (MessageEmbed.timestamp e))
                     else MessageEmbed.AValue (MessageEmbed.timestamp e))
                  = MessageEmbed.date_value Date_parse (MessageEmbed.timestamp e)).
  { by destruct (truthy (MessageEmbed.timestamp e)). }
  rewrite Htime.
  repeat (split; [done|]).
  split; [by intros ->|].
  repeat (split; [done|]).
  split.
  - intros a ->. eexists. split; [reflexivity|]. by vm_compute.
  - intros f ->. eexists. split; [reflexivity|]. by vm_compute.
Qed.

Lemma setFields_replaces_witness :
  Forall (fun f : JsObj => ∃ b, prop f "inline" = JBool b)
    [ ({[ "name" := JStr "Tomorrow"; "value" := JStr "Rain";
          "inline" := JBool false ]} : JsObj) ].
Proof.
  apply (proj2 (setFields_replaces verify_string [forecast] news_embed)
           (MessageEmbed.with_fields news_embed
              [ {[ "name" := JStr "Tomorrow"; "value" := JStr "Rain";
                   "inline" := JBool false ]} ])).
  reflexivity.
Defined.

Lemma hexColor_six_digits_witness :
  ∃ digits, MessageEmbed.hexColor news_embed = JStr ("#" +:+ digits)
            ∧ String.length digits = 6%nat
            ∧ parse_hex digits 0 = Some 3447003.
Proof.
  apply (proj1 (hexColor_six_digits news_embed) 3447003); [reflexivity|lia].
Defined.

Lemma toJSON_round_trip_witness :
  ∃ e', MessageEmbed.setup verify_string any_color as_object no_dates
          (MessageEmbed.toJSON no_dates news_embed) false = Return e'
        ∧ MessageEmbed.type e' = JStr "rich"
        ∧ MessageEmbed.timestamp e' = JNum 0
        ∧ MessageEmbed.video e' = None.
Proof.
  destruct (toJSON_round_trip verify_string any_color as_object no_dates news_embed
              (JNum 3447003) [headline] eq_refl eq_refl)
    as (e' & Hsetup & Htype & _ & _ & _ & _ & _ & _ & Hzero & _ & _ & Hvideo & _).
  exists e'. split; [exact Hsetup|]. split; [exact Htype|].
  split; [by apply Hzero|exact Hvideo].
Defined.
